(** * NWB_convert.py: conversion of NeuroPAL / calcium imaging acquisitions

    A shallow embedding of [src/NWB_convert.py].  Python values are modelled
    as follows.

    - [str] is [string]; [list] is [list]; a [dict] keyed by names is a
      [gmap string _].
    - [str] values are sequences of code points below 256, one [ascii] per
      code point; strings with other characters are outside the model.
    - The floats of [create_im_vol] are binary64 values ([pyfloat]): a
      rational, an infinity or NaN, every operation rounding to nearest,
      ties to even.  The sign of a zero is not kept.  The coordinates,
      scales and pixel values read from the input files are modelled by
      exact rationals [Q].
    - An exception is a value of [exn]; code that may raise returns a
      [result].
    - File contents (the [.mat], [.csv] and [.tif] inputs) are passed in as
      already decoded values; opening a TIFF file for paged access is
      modelled with an explicit count of open handles. *)

From Stdlib Require Import Ascii QArith Qround.
From stdpp Require Import gmap strings list pretty.

Open Scope string_scope.
Open Scope Z_scope.

(** ** Python primitives used by the file *)

Module Py.

Inductive exn : Type :=
| IndexError
| ValueError
| ZeroDivisionError
| NameError
| AttributeError
| FileNotFoundError
| OSError.

Inductive result (A : Type) : Type :=
| Ok (a : A)
| Raise (e : exn).

Arguments Ok {A} a.
Arguments Raise {A} e.

#[export] Instance result_ret : MRet result := fun A a => Ok a.
#[export] Instance result_bind : MBind result := fun A B f m =>
  match m with
  | Ok a => f a
  | Raise e => Raise e
  end.
#[export] Instance result_fmap : FMap result := fun A B f m =>
  match m with
  | Ok a => Ok (f a)
  | Raise e => Raise e
  end.

Definition is_ok {A} (r : result A) : bool :=
  match r with Ok _ => true | Raise _ => false end.

(** [l[i]] for a non-negative index. *)
Definition index {A} (l : list A) (i : nat) : result A :=
  match l !! i with
  | Some x => Ok x
  | None => Raise IndexError
  end.

(** [for x in xs: ...] where the body may raise: the first exception ends
    the loop. *)
Fixpoint for_each {A B} (f : A → result B) (xs : list A) : result (list B) :=
  match xs with
  | [] => Ok []
  | x :: xs' =>
      y ← f x;
      ys ← for_each f xs';
      mret (y :: ys)
  end.

(** [s.split(sep)] for a one-character separator: always at least one
    token, empty tokens are kept. *)
Fixpoint split (sep : ascii) (s : string) : list string :=
  match s with
  | "" => [""]
  | String c s' =>
      if Ascii.eqb c sep then "" :: split sep s'
      else match split sep s' with
           | t :: ts => String c t :: ts
           | [] => [String c ""]
           end
  end.

(** [s[:-1]]. *)
Fixpoint drop_last (s : string) : string :=
  match s with
  | "" => ""
  | String c s' =>
      match s' with
      | "" => ""
      | String _ _ => String c (drop_last s')
      end
  end.

(** [s[a:b]] and [s[a:]] for non-negative bounds. *)
Definition slice (a b : nat) (s : string) : string :=
  String.substring a (Nat.min b (String.length s) - a) s.
Definition slice_from (a : nat) (s : string) : string :=
  String.substring a (String.length s - a) s.

(** [a < b] on [str]: lexicographic order on code points. *)
Definition str_lt (a b : string) : bool := String.ltb a b.

Definition is_digit (c : ascii) : bool :=
  let n := nat_of_ascii c in ((48 <=? n) && (n <=? 57))%nat.

Fixpoint digits_value (acc : Z) (s : string) : option Z :=
  match s with
  | "" => Some acc
  | String c s' =>
      if is_digit c
      then digits_value (10 * acc + (Z.of_nat (nat_of_ascii c) - 48)) s'
      else None
  end.

Definition strip_sign (s : string) : bool * string :=
  match s with
  | String "-"%char r => (true, r)
  | String "+"%char r => (false, r)
  | _ => (false, s)
  end.

(** [int(s)] on the literals [[+-]digits]; every other string raises
    [ValueError].  (CPython also accepts surrounding blanks, underscores
    between digits and non-ASCII digits; such strings are outside this
    model.) *)
Definition int (s : string) : result Z :=
  let '(neg, body) := strip_sign s in
  match body with
  | "" => Raise ValueError
  | _ =>
      match digits_value 0 body with
      | Some n => Ok (if neg then - n else n)
      | None => Raise ValueError
      end
  end.

(** *** Floats *)

(** A binary64 value. *)
Inductive pyfloat : Type :=
| Num (q : Q)
| Inf (negative : bool)
| Nan.

(** [floor(log2(a/b))] for positive [a] and [b]. *)
Definition ilog2 (a b : Z) : Z :=
  let l := Z.log2 a - Z.log2 b in
  if (if 0 <=? l then b * 2 ^ l <=? a else b <=? a * 2 ^ (- l)) then l else l - 1.

(** [n/d] to the nearest integer, a tie to the even one ([n >= 0], [d > 0]). *)
Definition round_half_even (n d : Z) : Z :=
  let q := n / d in
  match 2 * (n mod d) ?= d with
  | Lt => q
  | Gt => q + 1
  | Eq => if Z.even q then q else q + 1
  end.

(** The binary64 value nearest to the rational [x]: 53 significant bits, the
    least exponent -1074 (so that small values are subnormal or zero), and
    infinity from [2^1024 - 2^970] on. *)
Definition round64 (x : Q) : pyfloat :=
  let x := Qred x in
  let a := Z.abs (Qnum x) in
  let b := Z.pos (Qden x) in
  if a =? 0 then Num 0
  else
    let e := Z.max (ilog2 a b - 52) (-1074) in
    let m := if 0 <=? e then round_half_even a (b * 2 ^ e)
             else round_half_even (a * 2 ^ (- e)) b in
    let neg := Qnum x <? 0 in
    if (0 <=? e) && (2 ^ 1024 <=? m * 2 ^ e) then Inf neg
    else
      let v := if 0 <=? e then inject_Z (m * 2 ^ e)
               else Qmake m (Z.to_pos (2 ^ (- e))) in
      Num (Qred (if neg then - v else v)).

(** The float whose value is exactly [x]. *)
Definition of_Q (x : Q) : pyfloat := Num (Qred x).

Definition fneg (x : pyfloat) : pyfloat :=
  match x with
  | Num q => Num (Qred (- q))
  | Inf s => Inf (negb s)
  | Nan => Nan
  end.

(** [x + y], [x - y] and [x / 2]. *)
Definition fadd (x y : pyfloat) : pyfloat :=
  match x, y with
  | Num a, Num b => round64 (a + b)
  | Nan, _ | _, Nan => Nan
  | Inf s, Inf t => if Bool.eqb s t then Inf s else Nan
  | Inf s, Num _ | Num _, Inf s => Inf s
  end.
Definition fsub (x y : pyfloat) : pyfloat := fadd x (fneg y).
Definition fdiv2 (x : pyfloat) : pyfloat :=
  match x with
  | Num a => round64 (a / 2)
  | Inf s => Inf s
  | Nan => Nan
  end.

(** Blanks as [float] strips them: tab to carriage return, the space, and
    the two blanks above 127 (NEL and the no-break space). *)
Definition is_space (c : ascii) : bool :=
  let n := nat_of_ascii c in
  (((9 <=? n) && (n <=? 13)) || (n =? 32) || (n =? 133) || (n =? 160))%nat.

Fixpoint lstrip (s : string) : string :=
  match s with
  | String c s' => if is_space c then lstrip s' else s
  | "" => ""
  end.

Fixpoint rstrip (s : string) : string :=
  match s with
  | "" => ""
  | String c s' =>
      match rstrip s' with
      | "" => if is_space c then "" else String c ""
      | r => String c r
      end
  end.

(** Underscores are dropped; each must stand between two digits.  [prev] is
    the character before [s], NUL at the start. *)
Fixpoint remove_underscores (prev : ascii) (s : string) : option string :=
  match s with
  | "" => if Ascii.eqb prev "_" then None else Some ""
  | String c s' =>
      if Ascii.eqb c "_"
      then if is_digit prev then remove_underscores c s' else None
      else if Ascii.eqb prev "_" && negb (is_digit c) then None
      else String c <$> remove_underscores c s'
  end.

Definition lower (c : ascii) : ascii :=
  let n := nat_of_ascii c in
  if ((65 <=? n) && (n <=? 90))%nat then ascii_of_nat (n + 32) else c.

Fixpoint lowercase (s : string) : string :=
  match s with
  | "" => ""
  | String c s' => String (lower c) (lowercase s')
  end.

(** [inf], [infinity] and [nan] in any case, after the sign. *)
Definition parse_inf_or_nan (neg : bool) (body : string) : option pyfloat :=
  let l := lowercase body in
  if String.eqb l "inf" || String.eqb l "infinity" then Some (Inf neg)
  else if String.eqb l "nan" then Some Nan
  else None.

(** The leading decimal digits of [s] and what follows them. *)
Fixpoint span_digits (s : string) : string * string :=
  match s with
  | String c s' =>
      if is_digit c then let '(d, r) := span_digits s' in (String c d, r)
      else ("", s)
  | "" => ("", "")
  end.

(** A decimal literal [digits[.digits][(e|E)[+-]digits]] or
    [.digits[(e|E)[+-]digits]] as [(n, e)], denoting [n * 10^e]. *)
Definition parse_decimal (body : string) : option (Z * Z) :=
  let '(ip, r1) := span_digits body in
  let '(fp, r2) := match r1 with
                   | String "."%char r => span_digits r
                   | _ => ("", r1)
                   end in
  if ((String.length ip + String.length fp)%nat =? 0)%nat then None
  else
    let n := default 0 (digits_value 0 (ip +:+ fp)) in
    let k := Z.of_nat (String.length fp) in
    match r2 with
    | "" => Some (n, - k)
    | String c r3 =>
        if Ascii.eqb c "e" || Ascii.eqb c "E"
        then let '(eneg, r4) := strip_sign r3 in
             let '(ed, r5) := span_digits r4 in
             match ed, r5 with
             | String _ _, "" =>
                 let x := default 0 (digits_value 0 ed) in
                 Some (n, (if eneg then - x else x) - k)
             | _, _ => None
             end
        else None
    end.

(** [float(s)]: blanks around the literal are stripped, underscores between
    digits dropped; the literal is an optional sign followed by [inf],
    [infinity], [nan] or a decimal literal, whose value is rounded to
    binary64.  Every other string raises [ValueError]. *)
Definition float (s : string) : result pyfloat :=
  match remove_underscores "000" (rstrip (lstrip s)) with
  | None => Raise ValueError
  | Some t =>
      let '(neg, body) := strip_sign t in
      match parse_inf_or_nan neg body with
      | Some x => Ok x
      | None =>
          match parse_decimal body with
          | Some (n, e) =>
              Ok (round64 (inject_Z (if neg then - n else n) * 10 ^ e)%Q)
          | None => Raise ValueError
          end
      end
  end.

End Py.

Export Py.

(** ** The pynwb / ndx_multichannel_volume objects the file builds *)

Record Device := {
  dev_name : string;
  dev_description : string;
  dev_manufacturer : string
}.

Record OpticalChannelPlus := {
  oc_name : string;
  oc_description : string;
  excitation_lambda : pyfloat;
  excitation_range : list pyfloat;
  emission_range : list pyfloat;
  emission_lambda : pyfloat
}.

Record OpticalChannelReferences := {
  ocr_name : string;
  ocr_channels : list string
}.

Record ImagingVolume := {
  iv_name : string;
  optical_channel_plus : list OpticalChannelPlus;
  iv_order_optical_channels : OpticalChannelReferences;
  iv_description : string;
  iv_device : Device;
  iv_location : string;
  grid_spacing : list Q;
  grid_spacing_unit : string;
  origin_coords : list Q;
  origin_coords_unit : string;
  reference_frame : string
}.

(** A channel specification [(fluor, des, wave)]. *)
Definition channel_spec : Type := string * string * string.

(** *** [create_im_vol], lines 68-111 *)

(** Lines 75-77: the three numbers of a wavelength code.  The [float(...)]
    calls are evaluated in source order, so the first failing step decides
    the exception. *)
Definition parse_wave (wave : string) : result (pyfloat * pyfloat * pyfloat) :=
  t0 ← index (split "-" wave) 0;
  excite ← float t0;
  t1 ← index (split "-" wave) 1;
  emiss_mid ← float t1;
  t2 ← index (split "-" wave) 2;
  emiss_range ← float (drop_last t2);
  mret (excite, emiss_mid, emiss_range).

(** Body of the loop of lines 74-88 for one channel tuple. *)
Definition create_im_vol_channel (ch : channel_spec) : result OpticalChannelPlus :=
  let '(fluor, des, wave) := ch in
  '(excite, emiss_mid, emiss_range) ← parse_wave wave;
  mret {| oc_name := fluor;
          oc_description := des;
          excitation_lambda := excite;
          excitation_range := [fsub excite (of_Q 1.5); fadd excite (of_Q 1.5)];
          emission_range := [fsub emiss_mid (fdiv2 emiss_range);
                             fadd emiss_mid (fdiv2 emiss_range)];
          emission_lambda := emiss_mid |}.


(** ** numpy arrays *)

Module Np.

(** An n-dimensional array: its shape and its items by index tuple.  Only
    indices within the shape are meaningful. *)
Record ndarray (A : Type) := {
  shape : list nat;
  item : list nat → A
}.
Arguments shape {A} _.
Arguments item {A} _ _.

Definition in_bounds (idx sh : list nat) : bool :=
  (length idx =? length sh)%nat && forallb (λ p, (p.1 <? p.2)%nat) (zip idx sh).

(** [a[i, j, ...]] with as many indices as the array has axes, which is how
    the file indexes its coordinate arrays; more indices than axes, or an
    index past the end, raise [IndexError]. *)
Definition getitem {A} (a : ndarray A) (idx : list nat) : result A :=
  if in_bounds idx (shape a) then Ok (item a idx) else Raise IndexError.

(** [a.shape[k]]. *)
Definition shape_at {A} (a : ndarray A) (k : nat) : result nat :=
  index (shape a) k.

Definition zeros (sh : list nat) : ndarray Q :=
  {| shape := sh; item := λ _, 0%Q |}.

(** A 2-D array given by its rows (all of length [ncols]). *)
Definition of_rows {A} (d : A) (ncols : nat) (rows : list (list A)) : ndarray A :=
  {| shape := [length rows; ncols];
     item := λ idx, match idx with
                    | [i; j] => default d (rows !! i ≫= (.!! j))
                    | _ => d
                    end |}.

(** [np.transpose(a)]: the axes reversed. *)
Definition transpose {A} (a : ndarray A) : ndarray A :=
  {| shape := reverse (shape a); item := λ idx, item a (reverse idx) |}.

(** [np.transpose(a, axes)]: axis [k] of the result is axis [axes[k]] of
    [a]; [axes] must name every axis of [a] once. *)
Definition is_permutation (axes : list nat) (n : nat) : bool :=
  (length axes =? n)%nat
  && forallb (λ k, bool_decide (k ∈ axes)) (seq 0 n).
Definition transpose_axes {A} (a : ndarray A) (axes : list nat) : result (ndarray A) :=
  if is_permutation axes (length (shape a)) then
    Ok {| shape := (λ k, default 0%nat (shape a !! k)) <$> axes;
          item := λ idx,
            item a ((λ k, default 0%nat
                            (list_find (λ p, p.2 = k) (zip idx axes) ≫= λ r, Some r.2.1))
                      <$> seq 0 (length axes)) |}
  else Raise ValueError.

(** [np.squeeze(a)]: the axes of length one removed. *)
Fixpoint unsqueeze (sh idx : list nat) : list nat :=
  match sh with
  | [] => []
  | n :: sh' =>
      if (n =? 1)%nat then 0%nat :: unsqueeze sh' idx
      else match idx with
           | i :: idx' => i :: unsqueeze sh' idx'
           | [] => 0%nat :: unsqueeze sh' []
           end
  end.
Definition squeeze {A} (a : ndarray A) : ndarray A :=
  {| shape := filter (λ n, n ≠ 1%nat) (shape a);
     item := λ idx, item a (unsqueeze (shape a) idx) |}.

(** [np.uint(x)] for a number [x]: the fraction is dropped (toward zero)
    and the integer is taken in 64 bits. *)
Definition Qtrunc (q : Q) : Z := Z.quot (Qnum q) (Z.pos (Qden q)).
Definition uint (x : Q) : Z := Qtrunc x mod 2 ^ 64.

(** [a.astype('uint16')] on an array of whole numbers. *)
Definition astype_uint16 (a : ndarray Q) : ndarray Z :=
  {| shape := shape a; item := λ idx, Qtrunc (item a idx) mod 2 ^ 16 |}.

(** Broadcasting of a 2-D [image] to the shape [(X, Y)]: each axis either
    agrees or has length one. *)
Definition broadcastable (im : list nat) (X Y : nat) : bool :=
  match im with
  | [a; b] => ((a =? X) || (a =? 1))%nat && ((b =? Y) || (b =? 1))%nat
  | _ => false
  end.

(** [tpoint[:, :, j] = image] on a 3-D [tpoint], for the 2-D [image] of a
    page: the image is broadcast to the plane, or [ValueError] is raised. *)
Definition on_plane (idx : list nat) (j : nat) : bool :=
  match idx with
  | [_; _; z] => (z =? j)%nat
  | _ => false
  end.

Definition set_plane (tpoint : ndarray Q) (j : nat) (image : ndarray Q)
    : result (ndarray Q) :=
  match shape tpoint, shape image with
  | [X; Y; Zn], [a; b] =>
      if negb (j <? Zn)%nat then Raise IndexError
      else if negb (broadcastable [a; b] X Y) then Raise ValueError
      else
        let pick (n i : nat) := if (n =? 1)%nat then 0%nat else i in
        Ok {| shape := shape tpoint;
              item := λ idx,
                if on_plane idx j
                then item image [pick a (default 0%nat (idx !! 0%nat));
                                 pick b (default 0%nat (idx !! 1%nat))]
                else item tpoint idx |}
  | [X; Y; Zn], _ =>
      if negb (j <? Zn)%nat then Raise IndexError else Raise ValueError
  | _, _ => Raise IndexError
  end.

End Np.

Export Np.

(** ** Paged TIFF sources and the open-handle count *)

(** One page of a TIFF file: its [shape] (rows, columns) and what
    [asarray()] gives, which may raise when the page cannot be decoded. *)
Record TiffPage := {
  page_shape : nat * nat;
  asarray : result (ndarray Q)
}.

(** The part of the outside world the reader touches: the TIFF files on disk
    by file name, and how many file handles are currently open. *)
Record World := {
  tiffs : gmap string (list TiffPage);
  open_handles : nat
}.

Definition open_handle (w : World) : World :=
  {| tiffs := tiffs w; open_handles := S (open_handles w) |}.
Definition close_handle (w : World) : World :=
  {| tiffs := tiffs w; open_handles := pred (open_handles w) |}.

(** [TiffFile(filename)]: opens the file and keeps the handle. *)
Definition TiffFile (filename : string) (w : World) : result (list TiffPage) * World :=
  match tiffs w !! filename with
  | Some tif => (Ok tif, open_handle w)
  | None => (Raise FileNotFoundError, w)
  end.

(** *** [iter_calc_tiff], lines 189-212

    A Python generator: nothing runs before the first [next()]; each
    [next()] runs the body up to the next [yield]. *)

(** The local variables of a suspended generator frame. *)
Record frame := {
  f_tif : list TiffPage;
  f_numZ : Z;
  f_pages : nat;
  f_timepoints : Z;
  f_pageshape : nat * nat;
  f_i : nat
}.

Inductive generator : Type :=
| Created (filename : string) (numZ : Z)
| Suspended (f : frame)
| Finished.

Inductive event : Type :=
| Yield (tpoint : ndarray Z)
| StopIteration
| Raised (e : exn).

(** Lines 202-205 with the cast of line 208, for timepoint [i]. *)
Definition read_timepoint (tif : list TiffPage) (numZ : Z) (pageshape : nat * nat)
    (i : nat) : result (ndarray Z) :=
  let nz := Z.to_nat numZ in
  tpoint ← foldl (λ acc j,
                    t ← acc;
                    page ← index tif (i * nz + j);
                    arr ← asarray page;
                    set_plane t j (transpose arr))
                 (Ok (zeros [pageshape.2; pageshape.1; nz])) (seq 0 nz);
  mret (astype_uint16 tpoint).

(** The loop of lines 201-210, entered at iteration [i]. *)
Definition iter_calc_tiff_loop (f : frame) (i : nat) (w : World)
    : event * generator * World :=
  if Z.of_nat i <? f_timepoints f then
    match read_timepoint (f_tif f) (f_numZ f) (f_pageshape f) i with
    | Ok tpoint =>
        (Yield tpoint,
         Suspended {| f_tif := f_tif f; f_numZ := f_numZ f; f_pages := f_pages f;
                      f_timepoints := f_timepoints f; f_pageshape := f_pageshape f;
                      f_i := i |},
         w)
    | Raise e => (Raised e, Finished, w)
    end
  else (StopIteration, Finished, close_handle w).

Definition iter_calc_tiff (filename : string) (numZ : Z) : generator :=
  Created filename numZ.

(** [next(gen)].  [int(pages/numZ)] divides as floats and drops the
    fraction; for page counts below 2^53 that is the integer quotient
    rounded toward zero. *)
Definition next (g : generator) (w : World) : event * generator * World :=
  match g with
  | Created filename numZ =>
      match TiffFile filename w with
      | (Raise e, w1) => (Raised e, Finished, w1)
      | (Ok tif, w1) =>
          let pages := length tif in
          if numZ =? 0 then (Raised ZeroDivisionError, Finished, w1)
          else
            let timepoints := Z.quot (Z.of_nat pages) numZ in
            match index tif 0 with
            | Raise e => (Raised e, Finished, w1)
            | Ok page0 =>
                iter_calc_tiff_loop
                  {| f_tif := tif; f_numZ := numZ; f_pages := pages;
                     f_timepoints := timepoints; f_pageshape := page_shape page0;
                     f_i := 0 |} 0 w1
            end
      end
  | Suspended f => iter_calc_tiff_loop f (S (f_i f)) w
  | Finished => (StopIteration, Finished, w)
  end.

(** [gen.close()], also what happens when the consumer drops the generator:
    [GeneratorExit] is raised at the suspended [yield]; no handler or
    [finally] encloses it, so the frame is left at once and line 210 is not
    reached. *)
Definition gen_close (g : generator) (w : World) : generator * World :=
  (Finished, w).

(** A consumer that pulls chunks until the stream ends ([for v in gen]); at
    most [fuel] calls of [next]. *)
Fixpoint consume (fuel : nat) (g : generator) (w : World)
    : option (result (list (ndarray Z)) * World) :=
  match fuel with
  | O => None
  | S fuel' =>
      match next g w with
      | (Yield v, g', w') =>
          match consume fuel' g' w' with
          | Some (Ok vs, w'') => Some (Ok (v :: vs), w'')
          | other => other
          end
      | (StopIteration, _, w') => Some (Ok [], w')
      | (Raised e, _, w') => Some (Raise e, w')
      end
  end.

(** A consumer that takes [k] chunks and then abandons the stream. *)
Fixpoint take_then_close (k : nat) (g : generator) (w : World)
    : list event * generator * World :=
  match k with
  | O => let '(g', w') := gen_close g w in ([], g', w')
  | S k' =>
      match next g w with
      | (Yield v, g', w') =>
          let '(evs, g'', w'') := take_then_close k' g' w' in
          (Yield v :: evs, g'', w'')
      | (ev, g', w') => ([ev], g', w')
      end
  end.

(** ** Images, series and segmentations *)

Record MultiChannelVolume := {
  mcv_name : string;
  mcv_order_optical_channels : OpticalChannelReferences;
  mcv_description : string;
  RGBW_channels : list Z;
  mcv_data : ndarray Q;
  mcv_imaging_volume : ImagingVolume
}.

(** The [data] of a series: an array held in memory, or a
    [DataChunkIterator] around a generator that is drained when the file is
    written; either may be wrapped by [H5DataIO] for compression. *)
Inductive series_data : Type :=
| ArrayData (a : ndarray Q)
| DataChunkIterator (data : generator) (buffer_size : nat)
| H5DataIO (data : series_data) (compression : string) (compression_opts : Z).

Record MultiChannelVolumeSeries := {
  mcvs_name : string;
  mcvs_data : series_data;
  mcvs_description : string;
  mcvs_comments : string;
  mcvs_device : Device;
  mcvs_unit : string;
  scan_line_rate : Q;
  dimension : list nat;
  mcvs_rate : Q;
  mcvs_resolution : Q;
  mcvs_imaging_volume : ImagingVolume
}.

(** One entry of a voxel mask: [[x, y, z, weight]]. *)
Definition voxel : Type := Z * Z * Z * Z.

(** A [PlaneSegmentation] table: [voxel_mask] has one row per ROI, in the
    order of the [add_roi] calls; [columns] are the columns added later with
    [add_column], by name. *)
Record PlaneSegmentation := {
  ps_name : string;
  ps_description : string;
  ps_imaging_plane : ImagingVolume;
  ps_reference_images : option MultiChannelVolumeSeries;
  voxel_mask : list (list voxel);
  columns : gmap string (list string)
}.

(** [vs.add_roi(voxel_mask=m)]: appends one row. *)
Definition add_roi (vs : PlaneSegmentation) (m : list voxel) : PlaneSegmentation :=
  {| ps_name := ps_name vs; ps_description := ps_description vs;
     ps_imaging_plane := ps_imaging_plane vs;
     ps_reference_images := ps_reference_images vs;
     voxel_mask := (voxel_mask vs ++ [m])%list;
     columns := columns vs |}.

(** [vs.add_column(name=..., data=..., index=True)]: the column must be new
    and have one entry per row of the table. *)
Definition add_column (vs : PlaneSegmentation) (name : string) (data : list string)
    : result PlaneSegmentation :=
  if bool_decide (is_Some (columns vs !! name)) then Raise ValueError
  else if negb (length data =? length (voxel_mask vs))%nat then Raise ValueError
  else Ok {| ps_name := ps_name vs; ps_description := ps_description vs;
             ps_imaging_plane := ps_imaging_plane vs;
             ps_reference_images := ps_reference_images vs;
             voxel_mask := voxel_mask vs;
             columns := <[name := data]> (columns vs) |}.

(** A region of a table: row indices into [table]. *)
Record DynamicTableRegion := {
  dtr_description : string;
  table : PlaneSegmentation;
  region : list Z
}.

(** [vs.create_roi_table_region(description=..., region=...)]: every index
    must address a row of the table. *)
Definition create_roi_table_region (vs : PlaneSegmentation) (description : string)
    (reg : list Z) : result DynamicTableRegion :=
  if forallb (λ idx, (0 <=? idx) && (idx <? Z.of_nat (length (voxel_mask vs)))) reg
  then Ok {| dtr_description := description; table := vs; region := reg |}
  else Raise IndexError.

(** *** [create_image], lines 113-124 *)

Definition default_RGBW_channels : list Z := [0; 1; 2; 3].

Definition create_image (name description : string) (data : ndarray Q)
    (ImVol : ImagingVolume) (OptChanRefs : OpticalChannelReferences)
    (RGBW : list Z) : MultiChannelVolume :=
  {| mcv_name := name;
     mcv_order_optical_channels := OptChanRefs;
     mcv_description := description;
     RGBW_channels := RGBW;
     mcv_data := data;
     mcv_imaging_volume := ImVol |}.

(** *** [create_vol_seg_centers], lines 126-166 *)

(** Lines 146-153: the body of the loop for row [i]. *)
Definition create_vol_seg_centers_row (positions : ndarray Q)
    (vs : PlaneSegmentation) (i : nat) : result PlaneSegmentation :=
  x ← getitem positions [i; 0%nat];
  y ← getitem positions [i; 1%nat];
  z ← getitem positions [i; 2%nat];
  let voxel_mask := ([] ++ [(uint x, uint y, uint z, 1)])%list in
  mret (add_roi vs voxel_mask).

Definition create_vol_seg_centers (name description : string)
    (ImagingVolume : ImagingVolume) (positions : ndarray Q)
    (labels : option (list string))
    (reference_images : option MultiChannelVolumeSeries)
    : result PlaneSegmentation :=
  let vs := {| ps_name := name; ps_description := description;
               ps_imaging_plane := ImagingVolume;
               ps_reference_images := reference_images;
               voxel_mask := []; columns := ∅ |} in
  n ← shape_at positions 0;
  vs ← foldl (λ acc i, vs ← acc; create_vol_seg_centers_row positions vs i)
             (Ok vs) (seq 0 n);
  match labels with
  | None =>
      (* labels = ['']*positions.shape[0]: bound to the local name only *)
      let labels := replicate n "" in
      mret vs
  | Some labels => add_column vs "ID_labels" labels
  end.

(** *** [create_calc_series], lines 168-187 *)

Definition create_calc_series (name : string) (data : series_data)
    (description comments : string) (device : Device)
    (imaging_volume : ImagingVolume) (unit : string) (scan_line_rate : Q)
    (dimension : list nat) (rate resolution : Q) (compression : bool)
    : MultiChannelVolumeSeries :=
  let data := if compression then H5DataIO data "gzip" 4 else data in
  {| mcvs_name := name; mcvs_data := data; mcvs_description := description;
     mcvs_comments := comments; mcvs_device := device; mcvs_unit := unit;
     scan_line_rate := scan_line_rate; dimension := dimension;
     mcvs_rate := rate; mcvs_resolution := resolution;
     mcvs_imaging_volume := imaging_volume |}.

(** ** The NWB file object *)

Record datetime := {
  year : Z; month : Z; day : Z;
  hour : Z; minute : Z; second : Z;
  tzinfo : string
}.

Definition is_leap (y : Z) : bool :=
  (y mod 4 =? 0) && (negb (y mod 100 =? 0) || (y mod 400 =? 0)).

Definition days_in_month (y m : Z) : Z :=
  if (m =? 2) then (if is_leap y then 29 else 28)
  else if (m =? 4) || (m =? 6) || (m =? 9) || (m =? 11) then 30
  else 31.

(** [datetime(y, m, d, h, mi, s, tzinfo=tz)]: [ValueError] on a field out of
    range. *)
Definition mk_datetime (y m d h mi s : Z) (tz : string) : result datetime :=
  if (1 <=? y) && (y <=? 9999) && (1 <=? m) && (m <=? 12)
     && (1 <=? d) && (d <=? days_in_month y m)
     && (0 <=? h) && (h <=? 23) && (0 <=? mi) && (mi <=? 59)
     && (0 <=? s) && (s <=? 59)
  then Ok {| year := y; month := m; day := d;
             hour := h; minute := mi; second := s; tzinfo := tz |}
  else Raise ValueError.

Record CElegansSubject := {
  subject_id : string;
  subj_description : string;
  date_of_birth : datetime;
  growth_stage : string;
  growth_stage_time : option string;
  cultivation_temp : Q;
  species : string;
  sex : string;
  strain : string
}.

Record ImageSegmentation := {
  is_name : string;
  plane_segmentations : list PlaneSegmentation
}.

Record RoiResponseSeries := {
  rrs_name : string;
  rrs_description : string;
  rrs_data : ndarray Q;
  rois : DynamicTableRegion;
  rrs_unit : string;
  rrs_rate : Q
}.

(** What a processing module can hold in this file. *)
Inductive data_interface : Type :=
| DI_ImageSegmentation (s : ImageSegmentation)
| DI_OpticalChannelReferences (r : OpticalChannelReferences)
| DI_MultiChannelVolume (v : MultiChannelVolume)
| DI_DfOverF (name : string) (roi_response_series : RoiResponseSeries)
| DI_Fluorescence (name : string) (roi_response_series : RoiResponseSeries).

Definition di_name (d : data_interface) : string :=
  match d with
  | DI_ImageSegmentation s => is_name s
  | DI_OpticalChannelReferences r => ocr_name r
  | DI_MultiChannelVolume v => mcv_name v
  | DI_DfOverF name _ => name
  | DI_Fluorescence name _ => name
  end.

Record ProcessingModule := {
  pm_name : string;
  pm_description : string;
  data_interfaces : gmap string data_interface
}.

Inductive acquisition_item : Type :=
| AcqVolume (v : MultiChannelVolume)
| AcqSeries (s : MultiChannelVolumeSeries).

Definition acq_name (a : acquisition_item) : string :=
  match a with
  | AcqVolume v => mcv_name v
  | AcqSeries s => mcvs_name s
  end.

Record NWBFile := {
  session_description : string;
  identifier : string;
  session_start_time : datetime;
  experimenter : string;
  experiment_description : string;
  lab : string;
  institution : string;
  related_publications : list string;
  subject : option CElegansSubject;
  devices : gmap string Device;
  imaging_planes : gmap string ImagingVolume;
  acquisition : gmap string acquisition_item;
  processing : gmap string ProcessingModule
}.

(** Adding a named child to a container: the name must be free. *)
Definition add_named {V} (name : string) (v : V) (m : gmap string V)
    : result (gmap string V) :=
  match m !! name with
  | Some _ => Raise ValueError
  | None => Ok (<[name := v]> m)
  end.

Definition set_subject (nwbfile : NWBFile) (s : CElegansSubject) : NWBFile :=
  {| session_description := session_description nwbfile;
     identifier := identifier nwbfile;
     session_start_time := session_start_time nwbfile;
     experimenter := experimenter nwbfile;
     experiment_description := experiment_description nwbfile;
     lab := lab nwbfile; institution := institution nwbfile;
     related_publications := related_publications nwbfile;
     subject := Some s; devices := devices nwbfile;
     imaging_planes := imaging_planes nwbfile;
     acquisition := acquisition nwbfile; processing := processing nwbfile |}.

Definition set_devices (nwbfile : NWBFile) (d : gmap string Device) : NWBFile :=
  {| session_description := session_description nwbfile;
     identifier := identifier nwbfile;
     session_start_time := session_start_time nwbfile;
     experimenter := experimenter nwbfile;
     experiment_description := experiment_description nwbfile;
     lab := lab nwbfile; institution := institution nwbfile;
     related_publications := related_publications nwbfile;
     subject := subject nwbfile; devices := d;
     imaging_planes := imaging_planes nwbfile;
     acquisition := acquisition nwbfile; processing := processing nwbfile |}.

Definition set_imaging_planes (nwbfile : NWBFile) (p : gmap string ImagingVolume)
    : NWBFile :=
  {| session_description := session_description nwbfile;
     identifier := identifier nwbfile;
     session_start_time := session_start_time nwbfile;
     experimenter := experimenter nwbfile;
     experiment_description := experiment_description nwbfile;
     lab := lab nwbfile; institution := institution nwbfile;
     related_publications := related_publications nwbfile;
     subject := subject nwbfile; devices := devices nwbfile;
     imaging_planes := p;
     acquisition := acquisition nwbfile; processing := processing nwbfile |}.

Definition set_acquisition (nwbfile : NWBFile) (a : gmap string acquisition_item)
    : NWBFile :=
  {| session_description := session_description nwbfile;
     identifier := identifier nwbfile;
     session_start_time := session_start_time nwbfile;
     experimenter := experimenter nwbfile;
     experiment_description := experiment_description nwbfile;
     lab := lab nwbfile; institution := institution nwbfile;
     related_publications := related_publications nwbfile;
     subject := subject nwbfile; devices := devices nwbfile;
     imaging_planes := imaging_planes nwbfile;
     acquisition := a; processing := processing nwbfile |}.

Definition set_processing (nwbfile : NWBFile) (p : gmap string ProcessingModule)
    : NWBFile :=
  {| session_description := session_description nwbfile;
     identifier := identifier nwbfile;
     session_start_time := session_start_time nwbfile;
     experimenter := experimenter nwbfile;
     experiment_description := experiment_description nwbfile;
     lab := lab nwbfile; institution := institution nwbfile;
     related_publications := related_publications nwbfile;
     subject := subject nwbfile; devices := devices nwbfile;
     imaging_planes := imaging_planes nwbfile;
     acquisition := acquisition nwbfile; processing := p |}.

(** [nwbfile.add_imaging_plane(ImVol)]. *)
Definition add_imaging_plane (nwbfile : NWBFile) (ImVol : ImagingVolume)
    : result NWBFile :=
  set_imaging_planes nwbfile <$> add_named (iv_name ImVol) ImVol (imaging_planes nwbfile).

(** [nwbfile.add_acquisition(x)]. *)
Definition add_acquisition (nwbfile : NWBFile) (x : acquisition_item) : result NWBFile :=
  set_acquisition nwbfile <$> add_named (acq_name x) x (acquisition nwbfile).

(** [nwbfile.create_processing_module(name=..., description=...)]; the
    module lives in the file and is addressed by its name afterwards. *)
Definition create_processing_module (nwbfile : NWBFile) (name description : string)
    : result NWBFile :=
  set_processing nwbfile <$>
    add_named name {| pm_name := name; pm_description := description;
                      data_interfaces := ∅ |} (processing nwbfile).

(** [module.add(x)] on the module named [name] of [nwbfile]. *)
Definition module_add (nwbfile : NWBFile) (name : string) (x : data_interface)
    : result NWBFile :=
  match processing nwbfile !! name with
  | None => Raise AttributeError
  | Some m =>
      dis ← add_named (di_name x) x (data_interfaces m);
      mret (set_processing nwbfile
              (<[name := {| pm_name := pm_name m; pm_description := pm_description m;
                            data_interfaces := dis |}]> (processing nwbfile)))
  end.

(** *** [gen_file], [create_subject], [create_device], lines 26-65 *)

Definition gen_file (description experimenter exp_descript identifier : string)
    (start_date_time : datetime) (lab institution : string) (pubs : list string)
    : NWBFile :=
  {| session_description := description;
     identifier := identifier;
     session_start_time := start_date_time;
     experimenter := experimenter;
     experiment_description := exp_descript;
     lab := lab; institution := institution;
     related_publications := pubs;
     subject := None; devices := ∅; imaging_planes := ∅;
     acquisition := ∅; processing := ∅ |}.

Definition create_subject (nwbfile : NWBFile) (description identifier : string)
    (date_of_birth : datetime) (growth_stage : string)
    (growth_stage_time : option string) (cultivation_temp : Q) (sex strain : string)
    : NWBFile :=
  set_subject nwbfile
    {| subject_id := identifier; subj_description := description;
       date_of_birth := date_of_birth; growth_stage := growth_stage;
       growth_stage_time := growth_stage_time;
       cultivation_temp := cultivation_temp;
       species := "http://purl.obolibrary.org/obo/NCBITaxon_6239";
       sex := sex; strain := strain |}.

Definition create_device (nwbfile : NWBFile) (name description manufacturer : string)
    : result (NWBFile * Device) :=
  let device := {| dev_name := name; dev_description := description;
                   dev_manufacturer := manufacturer |} in
  ds ← add_named name device (devices nwbfile);
  mret (set_devices nwbfile ds, device).

(** *** [create_im_vol], continued *)

Definition default_grid_spacing : list Q := [0.3208; 0.3208; 0.75]%Q.
Definition default_origin_coords : list Q := [0; 0; 0]%Q.

Definition create_im_vol (nwbfile : NWBFile) (name : string) (device : Device)
    (description : string) (channels : list channel_spec) (location : string)
    (grid_spacing : list Q) (grid_spacing_unit : string) (origin_coords : list Q)
    (origin_coords_unit reference_frame : string)
    : result (NWBFile * ImagingVolume * OpticalChannelReferences) :=
  OptChannels ← for_each create_im_vol_channel channels;
  let OptChanRefData := (λ ch : channel_spec, ch.2) <$> channels in
  let OptChanRefs := {| ocr_name := "OpticalChannelRefs";
                        ocr_channels := OptChanRefData |} in
  let ImVol := {| iv_name := name;
                  optical_channel_plus := OptChannels;
                  iv_order_optical_channels := OptChanRefs;
                  iv_description := description;
                  iv_device := device;
                  iv_location := location;
                  grid_spacing := grid_spacing;
                  grid_spacing_unit := grid_spacing_unit;
                  origin_coords := origin_coords;
                  origin_coords_unit := origin_coords_unit;
                  reference_frame := reference_frame |} in
  nwbfile ← add_imaging_plane nwbfile ImVol;
  mret (nwbfile, ImVol, OptChanRefs).

(** ** Module globals and effects *)

(** The module-level names the functions read without receiving them as
    parameters.  Both are bound only by the driver under
    [if __name__ == '__main__'] (lines 616 and 627); a name that is not bound
    is [None]. *)
Record Globals := {
  folder : option string;
  datapath : option string
}.

Definition load_global (x : option string) : result string :=
  match x with
  | Some v => Ok v
  | None => Raise NameError
  end.

(** Computations that may raise and that touch the [World]. *)
Definition M (A : Type) : Type := World → result A * World.

#[export] Instance M_ret : MRet M := λ A a w, (Ok a, w).
#[export] Instance M_bind : MBind M := λ A B f m w,
  match m w with
  | (Ok a, w') => f a w'
  | (Raise e, w') => (Raise e, w')
  end.
Definition lift {A} (r : result A) : M A := λ w, (r, w).

(** What [io.write] leaves on disk: the object graph and, for a chunked
    series, the chunks pulled from its iterator. *)
Record Written := {
  w_path : string;
  w_nwbfile : NWBFile;
  w_chunks : gmap string (list (ndarray Z))
}.

(** A number of [next()] calls that exhausts the generator [g]: one per
    timepoint still to come, and one for the end of the stream. *)
Definition drain_fuel (g : generator) (w : World) : nat :=
  match g with
  | Created filename _ => (length (default [] (tiffs w !! filename)) + 2)%nat
  | Suspended f => (Z.to_nat (f_timepoints f) + 2)%nat
  | Finished => 1%nat
  end.

(** Writing the [data] of one series: an iterator is drained to its end. *)
Fixpoint write_series_data (d : series_data) : M (option (list (ndarray Z))) :=
  match d with
  | ArrayData _ => mret None
  | H5DataIO d' _ _ => write_series_data d'
  | DataChunkIterator g _ => λ w,
      match consume (drain_fuel g w) g w with
      | Some (Ok vs, w') => (Ok (Some vs), w')
      | Some (Raise e, w') => (Raise e, w')
      | None => (Raise OSError, w)
      end
  end.

Definition write_acquisition (acq : list (string * acquisition_item))
    : M (gmap string (list (ndarray Z))) :=
  foldr (λ '(name, x) (rest : M (gmap string (list (ndarray Z)))),
           match x with
           | AcqVolume _ => rest
           | AcqSeries s =>
               c ← write_series_data (mcvs_data s);
               cs ← rest;
               mret (match c with Some vs => <[name := vs]> cs | None => cs end)
           end)
        (mret ∅) acq.

(** [io = NWBHDF5IO(path, mode='w'); io.write(nwbfile); io.close()]. *)
Definition write_nwb (path : string) (nwbfile : NWBFile) : M Written :=
  _ ← (λ w, (Ok (), open_handle w)) : M ();
  chunks ← write_acquisition (map_to_list (acquisition nwbfile));
  _ ← (λ w, (Ok (), close_handle w)) : M ();
  mret {| w_path := path; w_nwbfile := nwbfile; w_chunks := chunks |}.

(** ** [process_NP_FOCO_Ray], lines 215-413 *)

(** A row of [blobs.csv]; a missing [ID] is NaN. *)
Record blob_row := {
  b_X : Q; b_Y : Q; b_Z : Q;
  b_ID : option string
}.

(** A row of [*_gce_quantification.csv]. *)
Record gce_row := {
  g_X : Q; g_Y : Q; g_Z : Q;
  g_gce_quant : Q;
  g_ID : option string;
  g_T : Z;
  g_blob_ix : Z
}.

(** The decoded input files of one acquisition, apart from the calcium TIFF,
    which is read page by page from the [World]. *)
Record RayInputs := {
  mat_scale : list Q;            (* neuroPAL_image.mat: info.scale, flattened *)
  full_comp_tif : ndarray Q;     (* NP_Ray/<dataset>/full_comp.tif *)
  blobs_csv : list blob_row;     (* Manual_annotate/<dataset>/blobs.csv *)
  neuroPAL_image_tif : ndarray Q;(* manual_annotate/<dataset>/neuroPAL_image.tif *)
  gce_quantification_csv : list gce_row
}.

(** [IDs.replace(np.nan, '', regex=True)] as a list. *)
Definition labels_of_IDs (ids : list (option string)) : list string :=
  default "" <$> ids.

(** [Series.unique()]: the distinct values in order of first appearance. *)
Fixpoint unique (l : list Z) : list Z :=
  match l with
  | [] => []
  | x :: l' => x :: filter (λ y, y ≠ x) (unique l')
  end.

(** [blobquant]: a (B, T, 5) array whose last axis holds the columns
    X, Y, Z, gce_quant, ID of one row; kept as B lists of T rows. *)
Definition blobquant_t : Type := list (list gce_row).

Definition bq_shape1 (blobquant : blobquant_t) : nat :=
  length (default [] (head blobquant)).

(** [np.vstack((blobquant, blobarr))] with [blobarr] of shape (1, T', 5). *)
Definition vstack (blobquant : blobquant_t) (blobarr : list gce_row)
    : result blobquant_t :=
  if (bq_shape1 blobquant =? length blobarr)%nat
  then Ok (blobquant ++ [blobarr])%list
  else Raise ValueError.

(** Lines 354-363. *)
Definition build_blobquant (gce_quant : list gce_row) : result (option blobquant_t) :=
  foldl (λ acc idx,
           blobquant ← acc;
           let blob := filter (λ r, g_blob_ix r = idx) gce_quant in
           match blobquant with
           | None => mret (Some [blob])
           | Some bq => Some <$> vstack bq blob
           end)
        (Ok None) (unique (g_blob_ix <$> gce_quant)).

Definition bq_cell (blobquant : blobquant_t) (b t : nat) : option gce_row :=
  blobquant !! b ≫= (.!! t).

(** [blobquant[:, t, 0:3]]. *)
Definition bq_xyz (blobquant : blobquant_t) (t : nat) : ndarray Q :=
  {| shape := [length blobquant; 3%nat];
     item := λ idx,
       match idx with
       | [b; c] =>
           match bq_cell blobquant b t with
           | Some r => match c with
                       | O => g_X r
                       | S O => g_Y r
                       | _ => g_Z r
                       end
           | None => 0%Q
           end
       | _ => 0%Q
       end |}.

(** [blobquant[:, :, 3]]. *)
Definition bq_quant (blobquant : blobquant_t) : ndarray Q :=
  {| shape := [length blobquant; bq_shape1 blobquant];
     item := λ idx,
       match idx with
       | [b; t] => default 0%Q (g_gce_quant <$> bq_cell blobquant b t)
       | _ => 0%Q
       end |}.

(** [list(np.arange(n))]. *)
Definition arange (n : nat) : list Z := Z.of_nat <$> seq 0 n.

Definition channels_before_20230322 : list channel_spec :=
  [("mTagBFP2", "Chroma ET 460/50", "405-460-50m");
   ("CyOFP1", "Chroma ET 605/70", "488-605-70m");
   ("GFP-GCaMP", "Chroma ET 525/50", "488-525-50m");
   ("mNeptune 2.5", "Chroma ET 700/75", "561-700-75m");
   ("Tag RFP-T", "Chroma ET 605/70", "561-605-70m");
   ("mNeptune 2.5-far red", "Chroma ET 700/75", "639-700-75m")].

Definition channels_from_20230322 : list channel_spec :=
  [("mTagBFP2", "Chroma ET 460/50", "405-460-50m");
   ("CyOFP1", "Chroma ET 605/70", "488-605-70m");
   ("CyOFP1-high filter", "Chroma ET 700/75", "488-700-75m");
   ("GFP-GCaMP", "Chroma ET 525/50", "488-525-50m");
   ("mNeptune 2.5", "Chroma ET 700/75", "561-700-75m");
   ("Tag RFP-T", "Chroma ET 605/70", "561-605-70m");
   ("mNeptune 2.5-far red", "Chroma ET 700/75", "639-700-75m")].

(** Lines 217-219 and 229: the two timestamps read off the identifier. *)
Definition session_start_time_of (identifier : string) : result datetime :=
  y ← int (slice 0 4 identifier);
  mo ← int (slice 4 6 identifier);
  d ← int (slice 6 8 identifier);
  h ← int (slice 9 11 identifier);
  mi ← int (slice 12 14 identifier);
  s ← int (slice_from 15 identifier);
  mk_datetime y mo d h mi s "US/Pacific".

Definition dob_of (identifier : string) : result datetime :=
  y ← int (slice 0 4 identifier);
  mo ← int (slice 4 6 identifier);
  d ← int (slice 6 8 identifier);
  mk_datetime y mo d 0 0 0 "US/Pacific".

(** Lines 365-374 (and 534-543, 550-558 of [process_yemini]): one
    segmentation per timepoint [t], from [blobs_at t]. *)
Definition segment_timepoints (T : nat) (blobs_at : nat → ndarray Q)
    (describe : string → string) (Calc_ImVol : ImagingVolume)
    (Calc_ImSeries : MultiChannelVolumeSeries) : result (list PlaneSegmentation) :=
  for_each (λ t,
              let blobs := squeeze (blobs_at t) in
              let vsname := "Seg_tpoint_" +:+ pretty t in
              let description := describe (pretty t) in
              create_vol_seg_centers vsname description Calc_ImVol blobs None
                (Some Calc_ImSeries))
           (seq 0 T).

Definition process_NP_FOCO_Ray (g : Globals) (inp : RayInputs)
    (datapath dataset strain : string) : M Written :=
  let identifier := dataset in
  let session_description :=
    "NeuroPAL and calcium imaging of immobilized worm with optogenetic stimulus" in
  session_start_time ← lift (session_start_time_of identifier);
  let lab := "FOCO lab" in
  let institution := "UCSF" in
  let pubs := [""] in
  let experimenter := "Raymond Dunn" in
  let experiment_description := "optogenetic stimulation of single neurons" in
  let nwbfile := gen_file session_description experimenter experiment_description
                   identifier session_start_time lab institution pubs in
  let subject_description := "NeuroPAL worm in microfluidic chip" in
  dob ← lift (dob_of identifier);
  let growth_stage := "YA" in
  let gs_time := "P0DT2H30M0S" in
  let cultivation_temp := 20%Q in
  let sex := "O" in
  let nwbfile := create_subject nwbfile subject_description identifier dob
                   growth_stage (Some gs_time) cultivation_temp sex strain in
  let microname := "Spinning disk confocal" in
  let microdescrip :=
    "Leica DMi8 Inverted Microscope with Yokogawa CSU-W1 SoRA, 40x WI objective 1.1 NA" in
  let manufacturer := "Leica, Yokogawa" in
  '(nwbfile, microscope) ← lift (create_device nwbfile microname microdescrip manufacturer);
  let scale := mat_scale inp in
  (* line 247: [folder] is the module global, not a parameter *)
  fld ← lift (load_global (folder g));
  let '(channels, RGBW_channels) :=
    if str_lt fld "20230322"
    then (channels_before_20230322, [0; 1; 3; 4])
    else (channels_from_20230322, [0; 1; 4; 6]) in
  let NP_descrip := "NeuroPAL image of C. elegans brain" in
  '(nwbfile, NP_ImVol, NP_OptChanRef) ←
    lift (create_im_vol nwbfile "NeuroPALImVol" microscope NP_descrip channels "head"
            scale "micrometers" default_origin_coords "micrometers" "Worm head");
  let data := transpose (full_comp_tif inp) in
  let ImDescrip := "NeuroPAL structural image" in
  let NP_image := create_image "NeuroPALImageRaw" ImDescrip data NP_ImVol
                    NP_OptChanRef RGBW_channels in
  nwbfile ← lift (add_acquisition nwbfile (AcqVolume NP_image));
  let blobs := blobs_csv inp in
  let labels := labels_of_IDs (b_ID <$> blobs) in
  let positions := of_rows 0%Q 3 ((λ r, [b_X r; b_Y r; b_Z r]) <$> blobs) in
  let vs_descrip :=
    "Neuron centers for multichannel volumetric image. Weight set at 1 for all voxels. Labels refers to cell ID of segmented neurons." in
  NeuroPALNeurons ← lift (create_vol_seg_centers "NeuroPALNeurons" vs_descrip NP_ImVol
                            positions (Some labels) None);
  let NeuroPALImSeg := {| is_name := "NeuroPALSegmentation";
                          plane_segmentations := [NeuroPALNeurons] |} in
  nwbfile ← lift (create_processing_module nwbfile "NeuroPAL"
                    "NeuroPAL image data and metadata");
  nwbfile ← lift (module_add nwbfile "NeuroPAL" (DI_ImageSegmentation NeuroPALImSeg));
  nwbfile ← lift (module_add nwbfile "NeuroPAL" (DI_OpticalChannelReferences NP_OptChanRef));
  let Proc_descrip := "Processed NeuroPAL image" in
  proc_channels ← lift (for_each (λ i, index channels (Z.to_nat i)) RGBW_channels);
  '(nwbfile, Proc_ImVol, Proc_OptChanRef) ←
    lift (create_im_vol nwbfile "ProcessedImVol" microscope Proc_descrip proc_channels
            "head" default_grid_spacing "micrometers" default_origin_coords
            "micrometers" "Worm head");
  proc_data ← lift (transpose_axes (neuroPAL_image_tif inp) [2; 1; 0; 3]%nat);
  let ProcDescrip :=
    "NeuroPAL image with median filtering followed by color histogram matching to reference NeuroPAL images" in
  let Proc_image := create_image "ProcessedImage" ProcDescrip proc_data Proc_ImVol
                      Proc_OptChanRef [0; 1; 2; 3] in
  nwbfile ← lift (create_processing_module nwbfile "ProcessedImage"
                    "Data and metadata associated with the pre-processed neuroPAL image.");
  nwbfile ← lift (module_add nwbfile "ProcessedImage" (DI_MultiChannelVolume Proc_image));
  nwbfile ← lift (module_add nwbfile "ProcessedImage"
                    (DI_OpticalChannelReferences Proc_OptChanRef));
  let GCaMP_chan := [("GFP-GCaMP", "Chroma ET 525/50", "488-525-50m")] in
  (* line 312: the global again *)
  fld ← lift (load_global (folder g));
  let Calc_scale :=
    if str_lt fld "20230506" then [0.3208; 0.3208; 2.5]%Q else [0.1604; 0.1604; 3.0]%Q in
  let Calc_descrip := "Imaging volume used to acquire calcium imaging data" in
  '(nwbfile, Calc_ImVol, Calc_OptChanRef) ←
    lift (create_im_vol nwbfile "CalciumImVol" microscope Calc_descrip GCaMP_chan "head"
            Calc_scale "micrometers" default_origin_coords "micrometers" "Worm head");
  let Calc_file := datapath +:+ "/NP_Ray/" +:+ dataset +:+ "/" +:+ dataset +:+ ".tiff" in
  tif ← TiffFile Calc_file;
  page ← lift (index tif 0);
  let numx := (page_shape page).1 in
  let numy := (page_shape page).2 in
  let numz := 12%nat in
  let data := DataChunkIterator (iter_calc_tiff Calc_file (Z.of_nat numz)) 10 in
  let Calc_name := "CalciumImageSeries" in
  let description := "Raw GCaMP series images" in
  let comments := "single channel GFP-GCaMP representing GCaMP signal" in
  let Calc_unit := "Voxel gray counts" in
  let scan_line_rate := 2995%Q in
  let rate := 1.04%Q in
  let resolution := 1.0%Q in
  let Calc_ImSeries := create_calc_series Calc_name data description comments microscope
                         Calc_ImVol Calc_unit scan_line_rate [numx; numy; numz] rate
                         resolution true in
  nwbfile ← lift (add_acquisition nwbfile (AcqSeries Calc_ImSeries));
  let gce_quant := gce_quantification_csv inp in
  blobquant ← lift (build_blobquant gce_quant);
  blobquant ← lift (match blobquant with
                    | Some bq => Ok bq
                    | None => Raise AttributeError
                    end);
  volsegs ← lift (segment_timepoints (bq_shape1 blobquant) (bq_xyz blobquant)
                    (λ t, "Neuron segmentation for time point " +:+ t
                          +:+ " in calcium image series")
                    Calc_ImVol Calc_ImSeries);
  let CalcImSeg := {| is_name := "CalciumSeriesSegmentation";
                      plane_segmentations := volsegs |} in
  let gce_data := transpose (bq_quant blobquant) in
  volsegs0 ← lift (index volsegs 0);
  rt_region ← lift (create_roi_table_region volsegs0
    "Segmented neurons associated with calcium image series. This rt_region uses the location of the neurons at the first time point"
    (arange (length blobquant)));
  let RoiResponse := {| rrs_name := "SignalCalciumImResponseSeries";
                        rrs_description := "DF/F activity for calcium imaging data";
                        rrs_data := gce_data;
                        rois := rt_region;
                        rrs_unit := "Percentage";
                        rrs_rate := 1.04%Q |} in
  let SignalFluor := DI_DfOverF "SignalDFoF" RoiResponse in
  nwbfile ← lift (create_processing_module nwbfile "CalciumActivity"
                    "Data and metadata associated with time series of calcium images");
  nwbfile ← lift (module_add nwbfile "CalciumActivity" (DI_ImageSegmentation CalcImSeg));
  nwbfile ← lift (module_add nwbfile "CalciumActivity" SignalFluor);
  nwbfile ← lift (module_add nwbfile "CalciumActivity"
                    (DI_OpticalChannelReferences Calc_OptChanRef));
  write_nwb (datapath +:+ "/NWB_Ray/" +:+ identifier +:+ ".nwb") nwbfile.

(** ** [process_yemini], the calcium part: lines 431-446 and 512-613

    The function first builds the file, the subject, the device and the
    structural image (lines 416-510); the part below runs on the [nwbfile]
    and [device] so obtained and on the calcium inputs. *)

(** A (N, T, C) array as loaded from a [.mat] file. *)
Record array3 := {
  a3_shape : nat * nat * nat;
  a3_item : nat → nat → nat → Q
}.

(** [a[:, :, [1, 0, 2]]]. *)
Definition swap_xy (a : array3) : result array3 :=
  let '(n, t, c) := a3_shape a in
  if (3 <=? c)%nat
  then Ok {| a3_shape := (n, t, 3%nat);
             a3_item := λ i j k,
               a3_item a i j (match k with O => 1%nat | S O => 0%nat | _ => 2%nat end) |}
  else Raise IndexError.

(** [a[:, t, :]]. *)
Definition at_timepoint (a : array3) (t : nat) : ndarray Q :=
  let '(n, _, c) := a3_shape a in
  {| shape := [n; c];
     item := λ idx, match idx with
                    | [i; k] => a3_item a i t k
                    | _ => 0%Q
                    end |}.

Record YeminiCalciumInputs := {
  gcamp_data : ndarray Q;        (* gcamp.mat: data *)
  gcamp_scale : list Q;          (* gcamp.mat: worm_data.info scale, flattened *)
  neuron_activity : ndarray Q;   (* activity.mat *)
  neuron_positions : array3;     (* positions.mat *)
  old_neuron_activity : ndarray Q; (* old_act.mat *)
  old_neuron_positions : array3  (* old_pos.mat *)
}.

Definition process_yemini_calcium (g : Globals) (inp : YeminiCalciumInputs)
    (worm : string) (nwbfile : NWBFile) (device : Device) : M Written :=
  let activitydata := neuron_activity inp in
  let positiondata := neuron_positions inp in
  let oldact := old_neuron_activity inp in
  let oldpos := old_neuron_positions inp in
  gcdata ← lift (transpose_axes (gcamp_data inp) [3; 1; 0; 2]%nat);
  ydim ← lift (shape_at gcdata 2);
  zdim ← lift (shape_at gcdata 3);
  let gcscale := gcamp_scale inp in
  let gc_optchan := [("GFP-GCaMP", "Semrock FF02-525/40-25 Brightline", "488-525-25m")] in
  let Calc_descrip := "Imaging volume used to acquire calcium imaging data" in
  '(nwbfile, Calc_ImVol, Calc_OptChanRef) ←
    lift (create_im_vol nwbfile "CalciumImVol" device Calc_descrip gc_optchan "head"
            gcscale "micrometers" default_origin_coords "micrometers" "Worm head");
  let Calc_name := "CalciumImageSeries" in
  let description := "Raw GCaMP series images" in
  let comments := "single channel GFP-GCaMP representing GCaMP signal" in
  let Calc_unit := "Voxel gray counts" in
  let rate := 4.0%Q in
  let scan_line_rate := (inject_Z (Z.of_nat (ydim * zdim)) * rate)%Q in
  let resolution := 1.0%Q in
  let dimensions := shape gcdata in
  d1 ← lift (index dimensions 1);
  d2 ← lift (index dimensions 2);
  d3 ← lift (index dimensions 3);
  let Calc_ImSeries := create_calc_series Calc_name (ArrayData gcdata) description
                         comments device Calc_ImVol Calc_unit scan_line_rate
                         [d1; d2; d3] rate resolution false in
  nwbfile ← lift (add_acquisition nwbfile (AcqSeries Calc_ImSeries));
  positions ← lift (swap_xy positiondata);
  raw_pos ← lift (swap_xy oldpos);
  volsegs ← lift (segment_timepoints (a3_shape raw_pos).1.2 (at_timepoint raw_pos)
                    (λ t, "Neuron segmentation for time point " +:+ t
                          +:+ " in calcium image series")
                    Calc_ImVol Calc_ImSeries);
  let CalcImSeg := {| is_name := "CalciumSeriesSegmentation";
                      plane_segmentations := volsegs |} in
  procvolsegs ← lift (segment_timepoints (a3_shape positions).1.2 (at_timepoint positions)
                        (λ t, "Neuron positions for time point " +:+ t
                              +:+ " calculated via dNMF")
                        Calc_ImVol Calc_ImSeries);
  let ProcCalcImSeg := {| is_name := "CalciumSeriesSegmentationdNMF";
                          plane_segmentations := procvolsegs |} in
  let gce_data := transpose activitydata in
  volsegs0 ← lift (index volsegs 0);
  rt_region ← lift (create_roi_table_region volsegs0
    "Segmented neurons associated with calcium image series. This rt_region uses the location of the neurons at the first time point"
    (arange (a3_shape positions).1.1));
  let RoiResponse := {| rrs_name := "SignalCalciumImResponseSeries";
                        rrs_description := "Raw fluorescence activity for calcium imaging data";
                        rrs_data := gce_data;
                        rois := rt_region;
                        rrs_unit := "unitless";
                        rrs_rate := 4.0%Q |} in
  let SignalFluor := DI_Fluorescence "CalciumFluorescence" RoiResponse in
  let RoiResponsedNMF := {| rrs_name := "dNMFCalciumImResponseSeries";
                            rrs_description := "Raw fluorescence activity data computed using dNMF";
                            rrs_data := gce_data;
                            rois := rt_region;
                            rrs_unit := "unitless";
                            rrs_rate := 4.0%Q |} in
  let dNMFFluor := DI_Fluorescence "CalciumFluorescencedNMF" RoiResponsedNMF in
  nwbfile ← lift (create_processing_module nwbfile "CalciumActivity"
                    "Data and metadata associated with time series of calcium images");
  nwbfile ← lift (module_add nwbfile "CalciumActivity" (DI_ImageSegmentation CalcImSeg));
  nwbfile ← lift (module_add nwbfile "CalciumActivity" (DI_ImageSegmentation ProcCalcImSeg));
  nwbfile ← lift (module_add nwbfile "CalciumActivity" SignalFluor);
  nwbfile ← lift (module_add nwbfile "CalciumActivity" dNMFFluor);
  nwbfile ← lift (module_add nwbfile "CalciumActivity"
                    (DI_OpticalChannelReferences Calc_OptChanRef));
  (* line 611: [datapath] is a module global here *)
  dp ← lift (load_global (datapath g));
  write_nwb (dp +:+ "/Yemini_NWB/" +:+ worm +:+ ".nwb") nwbfile.

(** ** Wavelength codes as the specification describes them *)

(** A token made of decimal digits only, at least one. *)
Definition is_number (s : string) : bool :=
  negb (String.length s =? 0)%nat && forallb is_digit (String.list_ascii_of_string s).

(** The number a digit token denotes. *)
Definition number_value (s : string) : Z := default 0 (digits_value 0 s).

(** The spec's format ["EXC-EMID-WIDTHu"]: three digit tokens separated by
    dashes, the last one followed by a one-character unit. *)
Definition wavelength_code (exc emid width : string) (u : ascii) : string :=
  exc +:+ "-" +:+ emid +:+ "-" +:+ width +:+ String u "".

(** The spec's condition on a code: it splits at the dashes into exactly three
    tokens, each starting with a digit. *)
Definition numeric_leading (t : string) : bool :=
  match t with
  | String c _ => is_digit c
  | "" => false
  end.

Definition three_numeric_leading_tokens (wave : string) : bool :=
  match split "-" wave with
  | [a; b; c] => numeric_leading a && numeric_leading b && numeric_leading c
  | _ => false
  end.

(** ** Rounding as the specification describes it *)

(** "Rounded" in the usual sense, to the nearest integer (a half goes up). *)
Definition rounded (x : Q) : Z := Qfloor (x + (1 # 2))%Q.

(** The voxel mask [create_vol_seg_centers] gives row [i] of [positions]. *)
Definition roi_of_row (positions : ndarray Q) (i : nat) : list voxel :=
  [(uint (item positions [i; 0%nat]), uint (item positions [i; 1%nat]),
    uint (item positions [i; 2%nat]), 1)].

(** [vs] with further rows appended to its ROI table. *)
Definition with_rois (vs : PlaneSegmentation) (rows : list (list voxel))
    : PlaneSegmentation :=
  {| ps_name := ps_name vs; ps_description := ps_description vs;
     ps_imaging_plane := ps_imaging_plane vs;
     ps_reference_images := ps_reference_images vs;
     voxel_mask := (voxel_mask vs ++ rows)%list;
     columns := columns vs |}.

(** ** Example objects *)

Definition example_device : Device :=
  {| dev_name := "Spinning disk confocal"; dev_description := "microscope";
     dev_manufacturer := "Leica, Yokogawa" |}.

Definition example_ImVol : ImagingVolume :=
  {| iv_name := "CalciumImVol";
     optical_channel_plus := [];
     iv_order_optical_channels := {| ocr_name := "OpticalChannelRefs"; ocr_channels := [] |};
     iv_description := "Imaging volume used to acquire calcium imaging data";
     iv_device := example_device;
     iv_location := "head";
     grid_spacing := default_grid_spacing;
     grid_spacing_unit := "micrometers";
     origin_coords := default_origin_coords;
     origin_coords_unit := "micrometers";
     reference_frame := "Worm head" |}.

(** One neuron at (2.75, 4, 1). *)
Definition example_fractional_positions : ndarray Q :=
  of_rows 0%Q 3 [[2.75; 4; 1]%Q].

(** Two neurons at whole coordinates. *)
Definition example_positions : ndarray Q :=
  of_rows 0%Q 3 [[1; 2; 3]%Q; [4; 5; 6]%Q].

(** ** Paged sources as the specification describes them *)

(** A page that decodes to a 2-D array of the shape [sh] (rows, columns). *)
Definition page_ok (sh : nat * nat) (p : TiffPage) : bool :=
  match asarray p with
  | Ok a => bool_decide (shape a = [sh.1; sh.2])
  | Raise _ => false
  end.

(** [int(pages/numZ)] as a count. *)
Definition timepoints_of (tif : list TiffPage) (numZ : Z) : nat :=
  Z.to_nat (Z.quot (Z.of_nat (length tif)) numZ).

(** A source that has a first page and whose pages, as far as whole
    timepoints go, all decode to the shape of the first page. *)
Definition readable_timepoints (tif : list TiffPage) (numZ : Z) : bool :=
  match tif with
  | [] => false
  | p0 :: _ =>
      forallb (page_ok (page_shape p0))
              (take (timepoints_of tif numZ * Z.to_nat numZ) tif)
  end.

(** A page of [r] rows and [c] columns filled with the value [v]. *)
Definition example_page (r c : nat) (v : Q) : TiffPage :=
  {| page_shape := (r, c);
     asarray := Ok {| shape := [r; c]; item := λ _, v |} |}.

(** A page whose pixels cannot be decoded. *)
Definition example_broken_page (r c : nat) : TiffPage :=
  {| page_shape := (r, c); asarray := Raise OSError |}.

(** A world with one TIFF file and no open handle. *)
Definition example_world (filename : string) (tif : list TiffPage) : World :=
  {| tiffs := {[ filename := tif ]}; open_handles := 0 |}.

(** Seven pages of 2 rows and 3 columns, the last one broken. *)
Definition example_seven_pages : list TiffPage :=
  (replicate 6 (example_page 2 3 7) ++ [example_broken_page 2 3])%list.

(** Twenty-four readable pages of 2 rows and 3 columns: two timepoints of
    twelve planes. *)
Definition example_two_timepoints : list TiffPage :=
  replicate 24 (example_page 2 3 7).

(** The same with page 13 broken. *)
Definition example_broken_second_timepoint : list TiffPage :=
  (replicate 13 (example_page 2 3 7) ++ [example_broken_page 2 3]
   ++ replicate 10 (example_page 2 3 7))%list.

(** The frame of [iter_calc_tiff] suspended at the [yield] of iteration [i],
    for a file [tif] whose first page is [p0]. *)
Definition frame_at (tif : list TiffPage) (numZ : Z) (p0 : TiffPage) (i : nat) : frame :=
  {| f_tif := tif; f_numZ := numZ; f_pages := length tif;
     f_timepoints := Z.quot (Z.of_nat (length tif)) numZ;
     f_pageshape := page_shape p0; f_i := i |}.

(** What [consume] does with the outcome of one [next()]. *)
Definition consume_after (fuel : nat) (r : event * generator * World)
    : option (result (list (ndarray Z)) * World) :=
  match r with
  | (Yield v, g', w') =>
      match consume fuel g' w' with
      | Some (Ok vs, w'') => Some (Ok (v :: vs), w'')
      | other => other
      end
  | (StopIteration, _, w') => Some (Ok [], w')
  | (Raised e, _, w') => Some (Raise e, w')
  end.

(** The shape of every chunk read from a file whose first page is [p0]. *)
Definition chunk_shape (p0 : TiffPage) (numZ : Z) : list nat :=
  [(page_shape p0).2; (page_shape p0).1; Z.to_nat numZ].

(** What a consumer run shows from outside: how many chunks arrived (or the
    exception) and how many handles are open afterwards. *)
Definition consume_summary (r : option (result (list (ndarray Z)) * World))
    : option (result nat * nat) :=
  (λ p : result (list (ndarray Z)) * World, (length <$> p.1, open_handles p.2)) <$> r.

(** ** Reading the written file back *)

(** The item [name] of the processing module [module]. *)
Definition module_item (nwbfile : NWBFile) (module name : string)
    : option data_interface :=
  processing nwbfile !! module ≫= λ m, data_interfaces m !! name.

(** The per-timepoint segmentations stored under [module]/[name]. *)
Definition segmentations (nwbfile : NWBFile) (module name : string)
    : list PlaneSegmentation :=
  match module_item nwbfile module name with
  | Some (DI_ImageSegmentation s) => plane_segmentations s
  | _ => []
  end.

(** The response series held by the container [module]/[name]. *)
Definition response_series (nwbfile : NWBFile) (module name : string)
    : option RoiResponseSeries :=
  match module_item nwbfile module name with
  | Some (DI_DfOverF _ r) | Some (DI_Fluorescence _ r) => Some r
  | _ => None
  end.

(** The series stored under [name] among the acquisitions. *)
Definition acquired_series (nwbfile : NWBFile) (name : string)
    : option MultiChannelVolumeSeries :=
  match acquisition nwbfile !! name with
  | Some (AcqSeries s) => Some s
  | _ => None
  end.

Definition acquired_volume (nwbfile : NWBFile) (name : string)
    : option MultiChannelVolume :=
  match acquisition nwbfile !! name with
  | Some (AcqVolume v) => Some v
  | _ => None
  end.

(** ROI positions and labels of a segmentation, without the objects it
    points to. *)
Definition rois_and_labels (vs : PlaneSegmentation)
    : list (list voxel) * gmap string (list string) :=
  (voxel_mask vs, columns vs).

(** What the two-run comparison looks at in a file written by
    [process_NP_FOCO_Ray]: ROI positions and labels of the structural and of
    the per-timepoint segmentations, the ROI index region, and the response
    matrix. *)
Definition roi_observables (nwbfile : NWBFile)
    : list (list (list voxel) * gmap string (list string))
      * list (list (list voxel) * gmap string (list string))
      * option (list Z) * option (ndarray Q) :=
  (rois_and_labels <$> segmentations nwbfile "NeuroPAL" "NeuroPALSegmentation",
   rois_and_labels <$> segmentations nwbfile "CalciumActivity" "CalciumSeriesSegmentation",
   (λ r, region (rois r)) <$> response_series nwbfile "CalciumActivity" "SignalDFoF",
   rrs_data <$> response_series nwbfile "CalciumActivity" "SignalDFoF").

(** The channel metadata of a written file: the wavelength codes of the
    structural imaging volume in order, the display channels of the
    structural image, and the grid spacing of the calcium imaging volume. *)
Definition channel_metadata (nwbfile : NWBFile)
    : option (list string) * option (list Z) * option (list Q) :=
  ((λ iv, ocr_channels (iv_order_optical_channels iv))
     <$> imaging_planes nwbfile !! "NeuroPALImVol",
   RGBW_channels <$> acquired_volume nwbfile "NeuroPALImageRaw",
   grid_spacing <$> imaging_planes nwbfile !! "CalciumImVol").

(** The per-dataset choices of lines 247-252 and 312-315. *)
Definition channels_for (fld : string) : list channel_spec :=
  if str_lt fld "20230322" then channels_before_20230322 else channels_from_20230322.
Definition RGBW_for (fld : string) : list Z :=
  if str_lt fld "20230322" then [0; 1; 3; 4] else [0; 1; 4; 6].
Definition Calc_scale_for (fld : string) : list Q :=
  if str_lt fld "20230506" then [0.3208; 0.3208; 2.5]%Q else [0.1604; 0.1604; 3.0]%Q.

(** The path of the calcium TIFF of a dataset (line 321). *)
Definition Calc_file_of (datapath dataset : string) : string :=
  datapath +:+ "/NP_Ray/" +:+ dataset +:+ "/" +:+ dataset +:+ ".tiff".

(** [vs] with its name, description and links replaced; the ROI table and
    the columns stay. *)
Definition rebase (name description : string) (iv : ImagingVolume)
    (refs : option MultiChannelVolumeSeries) (vs : PlaneSegmentation)
    : PlaneSegmentation :=
  {| ps_name := name; ps_description := description; ps_imaging_plane := iv;
     ps_reference_images := refs;
     voxel_mask := voxel_mask vs; columns := columns vs |}.

(** ** Example acquisitions *)

Definition example_dataset : string := "20221028-18-48-00".
Definition example_datapath : string := "/data".

Definition example_gce_row (x q : Q) (t b : Z) : gce_row :=
  {| g_X := x; g_Y := x + 1; g_Z := 2; g_gce_quant := q;
     g_ID := None; g_T := t; g_blob_ix := b |}.

(** Two neurons (blobs 5 and 6) followed over three timepoints. *)
Definition example_ray_inputs : RayInputs :=
  {| mat_scale := [0.3; 0.3; 0.75]%Q;
     full_comp_tif := {| shape := [6; 4; 3; 2]%nat; item := λ _, 0%Q |};
     blobs_csv := [ {| b_X := 1; b_Y := 2; b_Z := 3; b_ID := Some "AVAL" |};
                    {| b_X := 4; b_Y := 5; b_Z := 6; b_ID := None |} ];
     neuroPAL_image_tif := {| shape := [3; 4; 2; 4]%nat; item := λ _, 0%Q |};
     gce_quantification_csv :=
       [ example_gce_row 1 10 0 5; example_gce_row 2 20 0 6;
         example_gce_row 3 30 1 5; example_gce_row 4 40 1 6;
         example_gce_row 5 50 2 5; example_gce_row 6 60 2 6 ] |}.

(** The calcium TIFF of the example: two timepoints of twelve pages of 2 rows
    and 3 columns. *)
Definition example_ray_world : World :=
  example_world (Calc_file_of example_datapath example_dataset) example_two_timepoints.

(** The driver's state while it processes the example dataset, and while it
    processes a later one. *)
Definition example_globals : Globals :=
  {| folder := Some "20221028-18-48-00"; datapath := Some "/data" |}.
Definition example_globals_later_folder : Globals :=
  {| folder := Some "20230506-12-56-00"; datapath := Some "/data" |}.
Definition example_globals_unset : Globals :=
  {| folder := None; datapath := None |}.

(** A (N, T, 3) array whose entries are all [v]. *)
Definition example_array3 (n t : nat) (v : Q) : array3 :=
  {| a3_shape := (n, t, 3%nat); a3_item := λ _ _ _, v |}.

(** Calcium inputs of a [process_yemini] run where [old_pos.mat] holds three
    neurons and [positions.mat] two, over two timepoints. *)
Definition example_yemini_inputs : YeminiCalciumInputs :=
  {| gcamp_data := {| shape := [4; 5; 3; 2]%nat; item := λ _, 0%Q |};
     gcamp_scale := [0.3; 0.3; 1.5]%Q;
     neuron_activity := {| shape := [2; 2]%nat; item := λ _, 1%Q |};
     neuron_positions := example_array3 2 2 4;
     old_neuron_activity := {| shape := [3; 2]%nat; item := λ _, 1%Q |};
     old_neuron_positions := example_array3 3 2 4 |}.

(** The file and the device as the first part of [process_yemini] leaves
    them. *)
Definition example_yemini_device : Device :=
  {| dev_name := "Spinning disk confocal";
     dev_description :=
       "Spinning Disk Confocal Nikon Ti-e 60x Objective, 1.2 NA";
     dev_manufacturer := "Nikon" |}.

Definition example_yemini_nwbfile : NWBFile :=
  set_devices
    (gen_file "C. elegans head NeuroPAL and Calcium imaging" "Yemini, Eviatar"
       "NeuroPAL and whole-brain calcium imaging with chemical stimuli" "20190924_01"
       {| year := 2019; month := 9; day := 24; hour := 0; minute := 0; second := 0;
          tzinfo := "US/Pacific" |}
       "Hobert lab" "Columbia University" [])
    {[ "Spinning disk confocal" := example_yemini_device ]}.

(** What the ROI linkage of a written file looks like from outside: the index
    region of the response series under [name], the ROI count of the table it
    points into, and the shape of the response matrix. *)
Definition linkage_summary (nwbfile : NWBFile) (name : string)
    : option (list Z * nat * list nat) :=
  (λ rs, (region (rois rs), length (voxel_mask (table (rois rs))), shape (rrs_data rs)))
    <$> response_series nwbfile "CalciumActivity" name.

(** The file written by a run, if it succeeded. *)
Definition written_file {A} (r : result Written * A) : option NWBFile :=
  match r.1 with
  | Ok out => Some (w_nwbfile out)
  | Raise _ => None
  end.

(** The exception a run ended with, if it failed. *)
Definition raised {A B} (r : result A * B) : option exn :=
  match r.1 with
  | Ok _ => None
  | Raise e => Some e
  end.

(** * Further definitions *)

(** ** The pixel a chunk takes from a page *)

(** [a.astype('uint16')] on one value. *)
Definition to_uint16 (x : Q) : Z := Qtrunc x mod 2 ^ 16.

(** The number of chunks a stream yields when it ends normally:
    [range(int(pages/numZ))]. *)
Definition chunk_count (tif : list TiffPage) (numZ : Z) : nat :=
  Z.to_nat (Z.quot (Z.of_nat (length tif)) numZ).

(** A page of [r] rows and [c] columns whose pixel [(y, x)] is [10 * y + x]. *)
Definition example_gradient_array (r c : nat) : ndarray Q :=
  {| shape := [r; c];
     item := λ idx, match idx with
                    | [y; x] => inject_Z (Z.of_nat (10 * y + x))
                    | _ => 0%Q
                    end |}.
Definition example_gradient_page (r c : nat) : TiffPage :=
  {| page_shape := (r, c); asarray := Ok (example_gradient_array r c) |}.

(** Four pages of 2 rows and 3 columns: blank, gradient, blank, gradient. *)
Definition example_four_pages : list TiffPage :=
  [example_page 2 3 0; example_gradient_page 2 3;
   example_page 2 3 0; example_gradient_page 2 3].

(** ** The quantification table grouped by blob *)

(** The rows of the table grouped by [blob_ix], the groups in order of first
    appearance and the rows of each group in file order. *)
Definition blobs_of (gce_quant : list gce_row) : list (list gce_row) :=
  (λ idx, filter (λ r, g_blob_ix r = idx) gce_quant)
    <$> unique (g_blob_ix <$> gce_quant).

(** A row with its [T] entry replaced. *)
Definition set_T (f : Z → Z) (r : gce_row) : gce_row :=
  {| g_X := g_X r; g_Y := g_Y r; g_Z := g_Z r; g_gce_quant := g_gce_quant r;
     g_ID := g_ID r; g_T := f (g_T r); g_blob_ix := g_blob_ix r |}.

(** [blobquant] with the [T] entries replaced. *)
Definition retime (f : Z → Z) (blobquant : blobquant_t) : blobquant_t :=
  (λ rows : list gce_row, set_T f <$> rows) <$> blobquant.

(** A table in which blob 5 has two rows and blob 6 one. *)
Definition example_ragged_gce : list gce_row :=
  [example_gce_row 1 10 0 5; example_gce_row 2 20 0 6; example_gce_row 3 30 1 5].

(** A table with a single blob followed over two timepoints. *)
Definition example_single_blob_gce : list gce_row :=
  [example_gce_row 1 10 0 5; example_gce_row 3 30 1 5].

(** ** The parts of the file [process_NP_FOCO_Ray] writes *)

(** The subject record of lines 228-235. *)
Definition ray_subject (dataset strain : string) (dob : datetime) : CElegansSubject :=
  {| subject_id := dataset;
     subj_description := "NeuroPAL worm in microfluidic chip";
     date_of_birth := dob; growth_stage := "YA";
     growth_stage_time := Some "P0DT2H30M0S"; cultivation_temp := 20;
     species := "http://purl.obolibrary.org/obo/NCBITaxon_6239";
     sex := "O"; strain := strain |}.

(** The path of the file written for a dataset (line 411). *)
Definition nwb_path_of (datapath dataset : string) : string :=
  datapath +:+ "/NWB_Ray/" +:+ dataset +:+ ".nwb".
(** * Properties *)

(** ** The channel parser: wavelength codes *)

Lemma is_digit_char c :
  is_digit c = true →
  is_space c = false ∧ lower c = c
  ∧ c ≠ "_"%char ∧ c ≠ "-"%char ∧ c ≠ "."%char ∧ c ≠ "+"%char
  ∧ c ≠ "i"%char ∧ c ≠ "n"%char.
Proof.
  destruct c as [[] [] [] [] [] [] [] []]; intros H; vm_compute in H;
    try discriminate H; repeat split; discriminate.
Qed.

Lemma is_digit_not_sep c : is_digit c = true → c ≠ "-"%char ∧ c ≠ "."%char ∧ c ≠ "+"%char.
Proof. intros H. apply is_digit_char in H. tauto. Qed.

Lemma is_number_cons s :
  is_number s = true →
  ∃ c s', s = String c s' ∧ is_digit c = true
          ∧ forallb is_digit (String.list_ascii_of_string s') = true.
Proof.
  unfold is_number. destruct s as [|c s']; simpl; [discriminate|].
  intros H. apply andb_prop in H as [Hc Hs]. eauto.
Qed.

Lemma split_digits_then (sep : ascii) (s rest : string) :
  forallb is_digit (String.list_ascii_of_string s) = true →
  is_digit sep = false →
  split sep (s +:+ String sep rest) = s :: split sep rest.
Proof.
  intros Hs Hsep. induction s as [|c s IH]; simpl in *.
  - by rewrite Ascii.eqb_refl.
  - apply andb_prop in Hs as [Hc Hs].
    destruct (Ascii.eqb_spec c sep) as [->|_]; [congruence|].
    by rewrite (IH Hs).
Qed.

Lemma split_digits_unit (s : string) (u : ascii) :
  forallb is_digit (String.list_ascii_of_string s) = true →
  u ≠ "-"%char →
  split "-" (s +:+ String u "") = [s +:+ String u ""].
Proof.
  intros Hs Hu. induction s as [|c s IH]; simpl in *.
  - destruct (Ascii.eqb_spec u "-") as [->|_]; done.
  - apply andb_prop in Hs as [Hc Hs].
    destruct (is_digit_not_sep c Hc) as (Hd & _ & _).
    destruct (Ascii.eqb_spec c "-") as [->|_]; [done|].
    by rewrite (IH Hs).
Qed.

Lemma drop_last_snoc (s : string) (u : ascii) : drop_last (s +:+ String u "") = s.
Proof.
  induction s as [|c s IH]; simpl; [done|].
  rewrite IH. by destruct s.
Qed.

Lemma digits_value_total (s : string) (acc : Z) :
  forallb is_digit (String.list_ascii_of_string s) = true →
  is_Some (digits_value acc s).
Proof.
  revert acc. induction s as [|c s IH]; intros acc Hs; simpl in *; [by eexists|].
  apply andb_prop in Hs as [-> Hs]. by apply IH.
Qed.

Lemma digits_value_nonneg (s : string) :
  ∀ acc n, 0 <= acc → digits_value acc s = Some n → 0 <= n.
Proof.
  induction s as [|c s IH]; intros acc n Hacc; simpl; [by intros [= <-]|].
  destruct (is_digit c) eqn:Hc; [|done]. apply IH.
  unfold is_digit in Hc. apply andb_prop in Hc as [Hlo _].
  apply Nat.leb_le in Hlo. lia.
Qed.

Lemma number_value_nonneg (s : string) : 0 <= number_value s.
Proof.
  unfold number_value. destruct (digits_value 0 s) as [n|] eqn:Hn; [|done].
  simpl. by apply (digits_value_nonneg s 0 n).
Qed.

Lemma string_app_empty (s : string) : s +:+ "" = s.
Proof.
  induction s as [|c s IH]; [done|].
  change (String c s +:+ "") with (String c (s +:+ "")). by rewrite IH.
Qed.

(** *** [float] on a digit token *)

Lemma lstrip_digits c s : is_digit c = true → lstrip (String c s) = String c s.
Proof. intros Hc. apply is_digit_char in Hc as (Hsp & _). simpl. by rewrite Hsp. Qed.

Lemma rstrip_digits (s : string) :
  forallb is_digit (String.list_ascii_of_string s) = true → rstrip s = s.
Proof.
  induction s as [|c s IH]; simpl; [done|]. intros H.
  apply andb_prop in H as [Hc Hs]. rewrite (IH Hs).
  apply is_digit_char in Hc as (Hsp & _). destruct s; [by rewrite Hsp | done].
Qed.

Lemma remove_underscores_digits (s : string) :
  ∀ prev, Ascii.eqb prev "_" = false →
    forallb is_digit (String.list_ascii_of_string s) = true →
    remove_underscores prev s = Some s.
Proof.
  induction s as [|c s IH]; intros prev Hprev; simpl; [by rewrite Hprev|].
  intros H. apply andb_prop in H as [Hc Hs].
  pose proof (is_digit_char c Hc) as (_ & _ & Hu & _).
  destruct (Ascii.eqb_spec c "_") as [->|_]; [done|].
  rewrite Hprev. cbn [andb]. rewrite IH; [done| |done].
  by destruct (Ascii.eqb_spec c "_").
Qed.

Lemma span_digits_digits (s : string) :
  forallb is_digit (String.list_ascii_of_string s) = true → span_digits s = (s, "").
Proof.
  induction s as [|c s IH]; simpl; [done|]. intros H.
  apply andb_prop in H as [-> Hs]. by rewrite (IH Hs).
Qed.

Lemma strip_sign_digit c s : is_digit c = true → strip_sign (String c s) = (false, String c s).
Proof.
  intros Hc. unfold strip_sign.
  destruct c as [[] [] [] [] [] [] [] []]; try done; vm_compute in Hc; discriminate.
Qed.

Lemma parse_inf_or_nan_digit neg c s :
  is_digit c = true → parse_inf_or_nan neg (String c s) = None.
Proof.
  intros Hc. pose proof (is_digit_char c Hc) as (_ & Hlow & _ & _ & _ & _ & Hi & Hn).
  unfold parse_inf_or_nan. cbn [lowercase]. rewrite Hlow. cbn [String.eqb].
  destruct (Ascii.eqb_spec c "i") as [->|_]; [done|].
  destruct (Ascii.eqb_spec c "n") as [->|_]; done.
Qed.

Lemma round64_proper (x y : Q) : (x == y)%Q → round64 x = round64 y.
Proof. intros H. unfold round64. by rewrite (Qred_complete x y H). Qed.

Lemma of_Q_proper (x y : Q) : (x == y)%Q → of_Q x = of_Q y.
Proof. intros H. unfold of_Q. by rewrite (Qred_complete x y H). Qed.

(** On a digit token [float] returns the binary64 value nearest to the
    number it denotes. *)
Lemma float_number (s : string) :
  is_number s = true → float s = Ok (round64 (inject_Z (number_value s))).
Proof.
  intros Hs. destruct (is_number_cons s Hs) as (c & s' & -> & Hc & Hs').
  assert (Hall : forallb is_digit (String.list_ascii_of_string (String c s')) = true)
    by (simpl; by rewrite Hc, Hs').
  unfold float. rewrite (lstrip_digits c s' Hc), (rstrip_digits _ Hall).
  rewrite (remove_underscores_digits _ "000" eq_refl Hall).
  rewrite (strip_sign_digit c s' Hc), (parse_inf_or_nan_digit false c s' Hc).
  unfold parse_decimal. rewrite (span_digits_digits _ Hall).
  cbn [span_digits]. rewrite string_app_empty.
  cbn [String.length Nat.add Nat.eqb].
  f_equal. apply round64_proper. fold (number_value (String c s')).
  change (10 ^ (- Z.of_nat 0))%Q with 1%Q. apply Qmult_1_r.
Qed.

(** *** Values that binary64 holds exactly *)

Lemma ilog2_upper (a b n : Z) :
  0 < a → 0 < b → 0 <= n → a < 2 ^ n * b → ilog2 a b < n.
Proof.
  intros Ha Hb Hn Hab. unfold ilog2.
  pose proof (Z.log2_spec a Ha) as [Ha1 Ha2].
  pose proof (Z.log2_spec b Hb) as [Hb1 Hb2].
  pose proof (Z.log2_nonneg a) as Hla. pose proof (Z.log2_nonneg b) as Hlb.
  set (la := Z.log2 a) in *. set (lb := Z.log2 b) in *.
  destruct (Z.leb_spec 0 (la - lb)) as [Hl|Hl]; [|destruct (_ <=? _); lia].
  destruct (Z.leb_spec (b * 2 ^ (la - lb)) a) as [Ht|Ht].
  - destruct (Z.lt_ge_cases (la - lb) n) as [|Hge]; [done|]. exfalso.
    pose proof (Z.pow_le_mono_r 2 n (la - lb) ltac:(lia) Hge). nia.
  - destruct (Z.le_gt_cases (la - lb) n) as [|Hgt]; [lia|]. exfalso.
    assert (H1 : 2 ^ (n + 1 + lb) <= 2 ^ la) by (apply Z.pow_le_mono_r; lia).
    rewrite Z.pow_add_r, Z.pow_add_r in H1 by lia.
    rewrite Z.pow_succ_r in Hb2 by lia.
    change (2 ^ 1) with 2 in H1.
    pose proof (Z.pow_pos_nonneg 2 n ltac:(lia) Hn).
    pose proof (Z.pow_pos_nonneg 2 lb ltac:(lia) Hlb). nia.
Qed.

Lemma round_half_even_exact (n d q : Z) : 0 < d → n = q * d → round_half_even n d = q.
Proof.
  intros Hd ->. unfold round_half_even.
  rewrite Z.mod_mul by lia. rewrite Z.div_mul by lia.
  change (2 * 0) with 0. by destruct (Z.compare_spec 0 d); try lia.
Qed.

(** A multiple of one half below [2^52] in size is its own rounding. *)
Lemma round64_half (x : Q) (k : Z) :
  (x == k # 2)%Q → Z.abs k < 2 ^ 53 → round64 x = of_Q x.
Proof.
  intros Hx Hk. unfold round64, of_Q.
  assert (Hx' : (Qred x == k # 2)%Q) by (by rewrite Qred_correct).
  set (x' := Qred x) in *. unfold Qeq in Hx'. cbn [Qnum Qden] in Hx'.
  set (a := Z.abs (Qnum x')). set (b := Z.pos (Qden x')) in *.
  assert (Hb : 0 < b) by done.
  destruct (Z.eqb_spec a 0) as [Ha|Ha].
  - f_equal. subst x'. change 0%Q with (Qred 0). apply Qred_complete.
    rewrite <- (Qred_correct x). unfold Qeq. cbn [Qnum Qden]. lia.
  - assert (Ha' : 0 < a) by lia.
    assert (H2a : 2 * a = Z.abs k * b) by lia.
    pose proof (ilog2_upper a b 52 Ha' Hb ltac:(lia) ltac:(nia)) as Hlog.
    set (e := Z.max (ilog2 a b - 52) (-1074)).
    assert (He : e < 0) by lia.
    destruct (Z.leb_spec 0 e) as [|_]; [lia|]. cbn [andb]. f_equal.
    assert (Hp : 0 < 2 ^ (- e)) by (apply Z.pow_pos_nonneg; lia).
    assert (Hm : round_half_even (a * 2 ^ (- e)) b = Z.abs k * 2 ^ (- e - 1)).
    { apply round_half_even_exact; [done|].
      replace (- e) with (1 + (- e - 1)) at 1 by lia.
      rewrite Z.pow_add_r by lia. change (2 ^ 1) with 2. nia. }
    rewrite Hm. apply Qred_complete. transitivity x'; [|apply Qred_correct].
    assert (Hpe : 2 ^ (- e) = 2 * 2 ^ (- e - 1)).
    { replace (- e) with (1 + (- e - 1)) at 1 by lia.
      rewrite Z.pow_add_r by lia. done. }
    destruct (Z.ltb_spec (Qnum x') 0) as [Hneg|Hpos];
      unfold Qeq, Qopp; cbn [Qnum Qden]; rewrite Z2Pos.id by done;
      fold b; rewrite Hpe; nia.
Qed.

Lemma round64_number (n : Z) : 0 <= n < 2 ^ 52 → round64 (inject_Z n) = of_Q (inject_Z n).
Proof.
  intros Hn. apply (round64_half _ (2 * n)); [|lia].
  unfold Qeq, inject_Z. cbn [Qnum Qden]. lia.
Qed.

(** Sums, differences and halves of such values, as [create_im_vol] forms
    them. *)
Lemma fadd_exact (x y : Q) (k : Z) :
  (x + y == k # 2)%Q → Z.abs k < 2 ^ 53 → fadd (of_Q x) (of_Q y) = of_Q (x + y).
Proof.
  intros Hxy Hk. unfold of_Q at 1 2. cbn [fadd].
  assert (H : (Qred x + Qred y == x + y)%Q) by (by rewrite !Qred_correct).
  rewrite (round64_proper _ _ H). by apply (round64_half _ k).
Qed.

Lemma fsub_exact (x y : Q) (k : Z) :
  (x - y == k # 2)%Q → Z.abs k < 2 ^ 53 → fsub (of_Q x) (of_Q y) = of_Q (x - y).
Proof.
  intros Hxy Hk. unfold fsub, of_Q at 1 2. cbn [fneg fadd].
  assert (H : (Qred x + Qred (- Qred y) == x - y)%Q) by (by rewrite !Qred_correct).
  rewrite (round64_proper _ _ H). by apply (round64_half _ k).
Qed.

Lemma fdiv2_exact (n : Z) :
  Z.abs n < 2 ^ 53 → fdiv2 (of_Q (inject_Z n)) = of_Q (inject_Z n / 2).
Proof.
  intros Hn. unfold of_Q at 1. cbn [fdiv2].
  assert (H : (Qred (inject_Z n) / 2 == inject_Z n / 2)%Q) by (by rewrite Qred_correct).
  rewrite (round64_proper _ _ H). apply (round64_half _ n); [|done].
  unfold Qeq, Qdiv, Qmult, Qinv, inject_Z. cbn [Qnum Qden]. lia.
Qed.

Lemma split_wavelength_code exc emid width u :
  is_number exc = true → is_number emid = true → is_number width = true →
  u ≠ "-"%char →
  split "-" (wavelength_code exc emid width u) = [exc; emid; width +:+ String u ""].
Proof.
  intros He Hm Hw Hu. unfold wavelength_code.
  apply andb_prop in He as [_ He]. apply andb_prop in Hm as [_ Hm].
  apply andb_prop in Hw as [_ Hw].
  change (exc +:+ "-" +:+ emid +:+ "-" +:+ width +:+ String u "")
    with (exc +:+ String "-" (emid +:+ String "-" (width +:+ String u ""))).
  rewrite !split_digits_then by done.
  by rewrite split_digits_unit.
Qed.

(** [float] raises nothing but [ValueError]. *)
Lemma float_raises (s : string) (e : exn) : float s = Raise e → e = ValueError.
Proof.
  unfold float. destruct (remove_underscores _ _) as [t|]; [|by intros [= <-]].
  destruct (strip_sign t) as [neg body].
  destruct (parse_inf_or_nan neg body); [done|].
  destruct (parse_decimal body) as [[n k]|]; [done | by intros [= <-]].
Qed.

(** C5.  For every well-formed wavelength code ["EXC-EMID-WIDTHu"] (three
    tokens of decimal digits, each denoting a number below [2^51], and a
    one-character unit) the channel parser succeeds, the excitation
    wavelength and the emission midpoint are the numbers written in the code,
    the excitation range is [[exc - 1.5, exc + 1.5]] and the emission range
    is [[emid - width/2, emid + width/2]], all of them exact in binary64;
    parsing ["488-525-50m"] gives excitation 488, emission range
    [[500, 550]] and emission midpoint 525. *)
Theorem C5_channel_ranges (fluor des exc emid width : string) (u : ascii) :
  is_number exc = true → is_number emid = true → is_number width = true →
  u ≠ "-"%char →
  number_value exc < 2 ^ 51 → number_value emid < 2 ^ 51 →
  number_value width < 2 ^ 51 →
  (∃ ch, create_im_vol_channel (fluor, des, wavelength_code exc emid width u) = Ok ch
         ∧ excitation_lambda ch = of_Q (inject_Z (number_value exc))
         ∧ emission_lambda ch = of_Q (inject_Z (number_value emid))
         ∧ excitation_range ch
           = [of_Q (inject_Z (number_value exc) - 1.5);
              of_Q (inject_Z (number_value exc) + 1.5)]
         ∧ emission_range ch
           = [of_Q (inject_Z (number_value emid) - inject_Z (number_value width) / 2);
              of_Q (inject_Z (number_value emid) + inject_Z (number_value width) / 2)])
  ∧ (∃ ch, create_im_vol_channel (fluor, des, "488-525-50m") = Ok ch
           ∧ excitation_lambda ch = of_Q 488
           ∧ emission_range ch = [of_Q 500; of_Q 550]
           ∧ emission_lambda ch = of_Q 525).
Proof.
  intros He Hm Hw Hu Hbe Hbm Hbw. split.
  - pose proof (number_value_nonneg exc) as Hne.
    pose proof (number_value_nonneg emid) as Hnm.
    pose proof (number_value_nonneg width) as Hnw.
    unfold create_im_vol_channel, parse_wave.
    rewrite (split_wavelength_code exc emid width u He Hm Hw Hu).
    cbn [index lookup list_lookup mbind result_bind].
    rewrite (float_number exc He), (float_number emid Hm).
    rewrite drop_last_snoc, (float_number width Hw).
    rewrite !round64_number by lia.
    cbn [mbind result_bind mret result_ret].
    set (e := number_value exc) in *. set (m := number_value emid) in *.
    set (w := number_value width) in *.
    eexists. split; [reflexivity|].
    cbn [excitation_lambda emission_lambda excitation_range emission_range].
    split; [done|]. split; [done|].
    rewrite (fdiv2_exact w) by lia.
    rewrite (fsub_exact (inject_Z e) 1.5 (2 * e - 3)),
            (fadd_exact (inject_Z e) 1.5 (2 * e + 3)),
            (fsub_exact (inject_Z m) (inject_Z w / 2) (2 * m - w)),
            (fadd_exact (inject_Z m) (inject_Z w / 2) (2 * m + w));
      try lia;
      try (unfold Qeq, Qminus, Qplus, Qopp, Qdiv, Qmult, Qinv, inject_Z;
           cbn [Qnum Qden]; lia).
    done.
  - eexists. split; [vm_compute; reflexivity|]. by vm_compute.
Qed.

(** The theorem at the code of the GCaMP channel. *)
Lemma C5_channel_ranges_witness :
  ∃ ch, create_im_vol_channel ("GFP-GCaMP", "Chroma ET 525/50", "488-525-50m") = Ok ch
        ∧ excitation_lambda ch = of_Q 488
        ∧ emission_lambda ch = of_Q 525
        ∧ excitation_range ch = [of_Q 486.5; of_Q 489.5]
        ∧ emission_range ch = [of_Q 500; of_Q 550].
Proof.
  destruct (C5_channel_ranges "GFP-GCaMP" "Chroma ET 525/50" "488" "525" "50" "m")
    as [(ch & Hch & Hexc & Hemid & Hr1 & Hr2) _];
    [reflexivity | reflexivity | reflexivity | discriminate
     | reflexivity | reflexivity | reflexivity |].
  exists ch. split; [exact Hch|]. split; [exact Hexc|]. split; [exact Hemid|].
  rewrite Hr1, Hr2. split; reflexivity.
Defined.

(** C7, as stated, fails: a code with a fourth token does not split into
    exactly three tokens, yet the parser accepts it. *)
Lemma C7_fourth_token_accepted :
  three_numeric_leading_tokens "488-525-50m-700" = false
  ∧ is_ok (create_im_vol_channel ("GFP-GCaMP", "Chroma ET 525/50", "488-525-50m-700"))
    = true.
Proof. split; reflexivity. Qed.

(** C7, amended.  The parsing of a wavelength code (lines 75-77) fails
    exactly when the code splits at the dashes into fewer than three tokens,
    or when the first token, the second token, or the third token without
    its last character is not accepted by [float]; tokens after the third
    are ignored.  The failure is an [IndexError] or a [ValueError]: the
    [IndexError] of the missing token exactly when there are fewer than three
    tokens and [float] accepts each of those that are read, the [ValueError]
    of [float] otherwise.  The channel is then not created: the exception
    leaves the loop body. *)
Theorem C7_parser_failure (wave : string) :
  (is_ok (parse_wave wave) = false
   ↔ (length (split "-" wave) < 3)%nat
     ∨ ∃ t0 t1 t2 rest,
         split "-" wave = t0 :: t1 :: t2 :: rest
         ∧ (is_ok (float t0) = false ∨ is_ok (float t1) = false
            ∨ is_ok (float (drop_last t2)) = false))
  ∧ (is_ok (parse_wave wave) = false →
     parse_wave wave = Raise IndexError ∨ parse_wave wave = Raise ValueError)
  ∧ (parse_wave wave = Raise IndexError
     ↔ (length (split "-" wave) < 3)%nat
       ∧ Forall (λ t, is_ok (float t) = true) (split "-" wave))
  ∧ ∀ fluor des e,
      parse_wave wave = Raise e → create_im_vol_channel (fluor, des, wave) = Raise e.
Proof.
  assert (Hfl : ∀ s, is_ok (float s) = false → float s = Raise ValueError).
  { intros s. destruct (float s) as [x|e] eqn:Hs; [done|].
    by rewrite (float_raises s e Hs). }
  split; [|split; [|split]].
  - unfold parse_wave.
    destruct (split "-" wave) as [|t0 [|t1 [|t2 rest]]] eqn:Hs;
      cbn [index lookup list_lookup mbind result_bind length].
    + split; [intros _; left; lia | done].
    + split; [intros _; left; lia|]. intros _. by destruct (float t0).
    + split; [intros _; left; lia|]. intros _.
      destruct (float t0); [|done]. by destruct (float t1).
    + split.
      * intros H. right. exists t0, t1, t2, rest. split; [done|].
        destruct (float t0); [|by left]. destruct (float t1); [|by right; left].
        destruct (float (drop_last t2)); [done | by right; right].
      * intros [H | (u0 & u1 & u2 & r & [= <- <- <- <-] & H)]; [lia|].
        destruct (float t0); [|done]. destruct (float t1); [|done].
        destruct (float (drop_last t2)); [|done].
        destruct H as [H|[H|H]]; discriminate.
  - unfold parse_wave.
    destruct (split "-" wave) as [|t0 [|t1 [|t2 rest]]];
      cbn [index lookup list_lookup mbind result_bind]; intros H; try (by left).
    + destruct (float t0) eqn:H0; [by left|]. rewrite (Hfl t0) in H0 by (by rewrite H0).
      injection H0 as <-. by right.
    + destruct (float t0) eqn:H0;
        [|rewrite (Hfl t0) in H0 by (by rewrite H0); injection H0 as <-; by right].
      destruct (float t1) eqn:H1; [by left|].
      rewrite (Hfl t1) in H1 by (by rewrite H1). injection H1 as <-. by right.
    + destruct (float t0) eqn:H0;
        [|rewrite (Hfl t0) in H0 by (by rewrite H0); injection H0 as <-; by right].
      destruct (float t1) eqn:H1;
        [|rewrite (Hfl t1) in H1 by (by rewrite H1); injection H1 as <-; by right].
      destruct (float (drop_last t2)) eqn:H2; [done|].
      rewrite (Hfl (drop_last t2)) in H2 by (by rewrite H2). injection H2 as <-.
      by right.
  - unfold parse_wave.
    destruct (split "-" wave) as [|t0 [|t1 [|t2 rest]]];
      cbn [index lookup list_lookup mbind result_bind length].
    + split; [intros _; split; [lia | constructor] | done].
    + destruct (float t0) eqn:H0; cbn [mbind result_bind].
      * split; [intros _; split; [lia|]; repeat constructor; by rewrite H0 | done].
      * split.
        -- intros [= ->]. by pose proof (float_raises _ _ H0).
        -- intros [_ H]. apply Forall_inv in H. by rewrite H0 in H.
    + destruct (float t0) eqn:H0; cbn [mbind result_bind].
      * destruct (float t1) eqn:H1; cbn [mbind result_bind].
        -- split; [intros _; split; [lia|]; repeat constructor;
                   [by rewrite H0 | by rewrite H1] | done].
        -- split.
           ++ intros [= ->]. by pose proof (float_raises _ _ H1).
           ++ intros [_ H]. apply Forall_inv_tail, Forall_inv in H. by rewrite H1 in H.
      * split.
        -- intros [= ->]. by pose proof (float_raises _ _ H0).
        -- intros [_ H]. apply Forall_inv in H. by rewrite H0 in H.
    + split; [|intros [H _]; simpl in H; lia].
      destruct (float t0) eqn:H0; cbn [mbind result_bind];
        [|intros [= ->]; by pose proof (float_raises _ _ H0)].
      destruct (float t1) eqn:H1; cbn [mbind result_bind];
        [|intros [= ->]; by pose proof (float_raises _ _ H1)].
      destruct (float (drop_last t2)) eqn:H2; cbn [mbind result_bind]; [done|].
      intros [= ->]. by pose proof (float_raises _ _ H2).
  - intros fluor des e H. unfold create_im_vol_channel. by rewrite H.
Qed.

(** The amended statement at a code with two tokens. *)
Lemma C7_parser_failure_witness :
  parse_wave "488-525" = Raise IndexError
  ∧ create_im_vol_channel ("GFP-GCaMP", "Chroma ET 525/50", "488-525") = Raise IndexError.
Proof.
  destruct (C7_parser_failure "488-525") as (_ & _ & Hindex & Hchannel).
  assert (H : parse_wave "488-525" = Raise IndexError).
  { apply Hindex. split; [vm_compute; lia|]. repeat constructor. }
  split; [exact H | exact (Hchannel _ _ _ H)].
Defined.

(** [float] on literals other than digit tokens, and its rounding: blanks
    and underscores, exponents, the special values, a number above [2^53]
    and one beyond the largest float. *)
Lemma float_literals :
  float " 488" = Ok (of_Q 488) ∧ float "5_0" = Ok (of_Q 50)
  ∧ float "4e2" = Ok (of_Q 400) ∧ float ".5" = Ok (of_Q 0.5)
  ∧ float "inf" = Ok (Inf false) ∧ float "-Infinity" = Ok (Inf true)
  ∧ float "nan" = Ok Nan
  ∧ float "0.1" = Ok (of_Q (3602879701896397 # 36028797018963968))
  ∧ float "9007199254740993" = Ok (of_Q 9007199254740992)
  ∧ float "1e400" = Ok (Inf false)
  ∧ float "" = Raise ValueError ∧ float "5_" = Raise ValueError
  ∧ float "1e" = Raise ValueError ∧ float "50m" = Raise ValueError.
Proof. by vm_compute. Qed.

(** Above [2^53] the numbers of a code are rounded, and so are the ranges. *)
Lemma create_im_vol_channel_rounds :
  ∃ ch, create_im_vol_channel ("a", "b", "9007199254740993-525-50m") = Ok ch
        ∧ excitation_lambda ch = of_Q 9007199254740992
        ∧ excitation_range ch = [of_Q 9007199254740990; of_Q 9007199254740994].
Proof. eexists. split; [vm_compute; reflexivity|]. by vm_compute. Qed.

(** ** The volumetric segmentation builder *)

Lemma with_rois_nil vs : with_rois vs [] = vs.
Proof. destruct vs. unfold with_rois. simpl. by rewrite app_nil_r. Qed.

Lemma add_roi_with_rois vs rows m :
  add_roi (with_rois vs rows) m = with_rois vs (rows ++ [m]).
Proof. unfold add_roi, with_rois. simpl. by rewrite app_assoc. Qed.

Lemma in_bounds_2 (i k n m : nat) :
  (i < n)%nat → (k < m)%nat → in_bounds [i; k] [n; m] = true.
Proof.
  intros Hi Hk. unfold in_bounds. simpl.
  apply Nat.ltb_lt in Hi, Hk. by rewrite Hi, Hk.
Qed.

(** One pass of the loop body on a row within the array. *)
Lemma create_vol_seg_centers_row_ok positions vs (i N : nat) :
  shape positions = [N; 3%nat] → (i < N)%nat →
  create_vol_seg_centers_row positions vs i = Ok (add_roi vs (roi_of_row positions i)).
Proof.
  intros Hsh Hi. unfold create_vol_seg_centers_row, getitem.
  rewrite Hsh, !in_bounds_2 by lia. reflexivity.
Qed.

(** The whole loop: the rows are appended in the order of the indices. *)
Lemma create_vol_seg_centers_loop positions (N : nat) (l : list nat) vs :
  shape positions = [N; 3%nat] → Forall (λ i, (i < N)%nat) l →
  foldl (λ acc i, vs ← acc; create_vol_seg_centers_row positions vs i) (Ok vs) l
  = Ok (with_rois vs (roi_of_row positions <$> l)).
Proof.
  intros Hsh. revert vs. induction l as [|i l IH]; intros vs Hl; simpl.
  - by rewrite with_rois_nil.
  - apply Forall_cons in Hl as [Hi Hl].
    cbn [mbind result_bind].
    rewrite (create_vol_seg_centers_row_ok positions vs i N Hsh Hi).
    rewrite (IH _ Hl). f_equal.
    rewrite <- (with_rois_nil vs) at 1.
    rewrite add_roi_with_rois. unfold with_rois; simpl.
    by rewrite <- app_assoc.
Qed.

Lemma Forall_seq_lt (N : nat) : Forall (λ i, (i < N)%nat) (seq 0 N).
Proof. apply Forall_forall. intros i Hi. apply elem_of_seq in Hi. lia. Qed.

(** What the builder returns before the label column is considered. *)
Lemma create_vol_seg_centers_unlabelled name description iv positions refs (N : nat) :
  shape positions = [N; 3%nat] →
  create_vol_seg_centers name description iv positions None refs
  = Ok {| ps_name := name; ps_description := description; ps_imaging_plane := iv;
          ps_reference_images := refs;
          voxel_mask := roi_of_row positions <$> seq 0 N;
          columns := ∅ |}.
Proof.
  intros Hsh. unfold create_vol_seg_centers, shape_at. rewrite Hsh.
  cbn [index lookup list_lookup mbind result_bind].
  rewrite (create_vol_seg_centers_loop positions N _ _ Hsh (Forall_seq_lt N)).
  reflexivity.
Qed.

Lemma create_vol_seg_centers_labelled name description iv positions labels refs (N : nat) :
  shape positions = [N; 3%nat] → length labels = N →
  create_vol_seg_centers name description iv positions (Some labels) refs
  = Ok {| ps_name := name; ps_description := description; ps_imaging_plane := iv;
          ps_reference_images := refs;
          voxel_mask := roi_of_row positions <$> seq 0 N;
          columns := {[ "ID_labels" := labels ]} |}.
Proof.
  intros Hsh Hlen. unfold create_vol_seg_centers, shape_at. rewrite Hsh.
  cbn [index lookup list_lookup mbind result_bind].
  rewrite (create_vol_seg_centers_loop positions N _ _ Hsh (Forall_seq_lt N)).
  unfold add_column, with_rois.
  cbn [mbind result_bind columns voxel_mask app ps_name ps_description
       ps_imaging_plane ps_reference_images].
  rewrite lookup_empty.
  rewrite bool_decide_eq_false_2 by (intros [? ?]; done).
  rewrite length_fmap, length_seq, Hlen, Nat.eqb_refl. reflexivity.
Qed.

(** [np.uint] on a coordinate within the unsigned range: the fraction is
    dropped. *)
Lemma uint_floor (x : Q) :
  (0 <= x)%Q → (x < inject_Z (2 ^ 64))%Q → uint x = Qfloor x.
Proof.
  intros H0 H1. unfold uint, Qtrunc. destruct x as [n d]. simpl.
  assert (0 <= n) by (unfold Qle in H0; simpl in H0; lia).
  assert (n < 2 ^ 64 * Z.pos d) by (unfold Qlt in H1; simpl in H1; lia).
  rewrite Z.quot_div_nonneg by lia.
  apply Z.mod_small. split; [apply Z.div_pos; lia|].
  apply Z.div_lt_upper_bound; lia.
Qed.

(** C2, as stated, fails on a fractional coordinate: [np.uint] drops the
    fraction, so the neuron at x = 2.75 is put at voxel x = 2, while 2.75
    rounded is 3. *)
Lemma C2_fraction_dropped_not_rounded :
  ∃ vs, create_vol_seg_centers "Seg_tpoint_0" "Neuron segmentation" example_ImVol
          example_fractional_positions None None = Ok vs
        ∧ voxel_mask vs = [[(2, 4, 1, 1)]]
        ∧ (rounded 2.75, rounded 4, rounded 1) = (3, 4, 1).
Proof. eexists. repeat split; vm_compute; reflexivity. Qed.

(** C2, amended.  For every N x 3 coordinate array (with N labels when labels
    are given) the builder succeeds, the ROI table has exactly N rows, and
    row i is the single voxel [[np.uint(x), np.uint(y), np.uint(z), 1]] of
    input row i: input order is ROI order, in every call.  [np.uint] drops
    the fraction of a coordinate within the unsigned range (it does not round
    to the nearest integer). *)
Theorem C2_rois_follow_rows (name description : string) (iv : ImagingVolume)
    (positions : ndarray Q) (labels : option (list string))
    (refs : option MultiChannelVolumeSeries) (N : nat) :
  shape positions = [N; 3%nat] →
  (∀ l, labels = Some l → length l = N) →
  ∃ vs, create_vol_seg_centers name description iv positions labels refs = Ok vs
        ∧ length (voxel_mask vs) = N
        ∧ (∀ i, (i < N)%nat →
             voxel_mask vs !! i
             = Some [(uint (item positions [i; 0%nat]),
                      uint (item positions [i; 1%nat]),
                      uint (item positions [i; 2%nat]), 1)])
        ∧ (∀ i k, (0 <= item positions [i; k])%Q →
             (item positions [i; k] < inject_Z (2 ^ 64))%Q →
             uint (item positions [i; k]) = Qfloor (item positions [i; k])).
Proof.
  intros Hsh Hlab.
  assert (Hrows : ∀ i, (i < N)%nat →
            (roi_of_row positions <$> seq 0 N) !! i = Some (roi_of_row positions i)).
  { intros i Hi. rewrite list_lookup_fmap, lookup_seq_lt by done. reflexivity. }
  destruct labels as [l|].
  - rewrite (create_vol_seg_centers_labelled _ _ _ _ l _ N Hsh (Hlab l eq_refl)).
    eexists. split; [reflexivity|]. cbn [voxel_mask].
    rewrite length_fmap, length_seq. repeat split; [exact Hrows|].
    intros i k. apply uint_floor.
  - rewrite (create_vol_seg_centers_unlabelled _ _ _ _ _ N Hsh).
    eexists. split; [reflexivity|]. cbn [voxel_mask].
    rewrite length_fmap, length_seq. repeat split; [exact Hrows|].
    intros i k. apply uint_floor.
Qed.

(** The amended statement on two labelled neurons. *)
Lemma C2_rois_follow_rows_witness :
  ∃ vs, create_vol_seg_centers "NeuroPALNeurons" "Neuron centers" example_ImVol
          example_positions (Some ["AVAL"; ""]) None = Ok vs
        ∧ length (voxel_mask vs) = 2%nat
        ∧ voxel_mask vs !! 0%nat = Some [(1, 2, 3, 1)]
        ∧ voxel_mask vs !! 1%nat = Some [(4, 5, 6, 1)].
Proof.
  destruct (C2_rois_follow_rows "NeuroPALNeurons" "Neuron centers" example_ImVol
              example_positions (Some ["AVAL"; ""]) None 2)
    as (vs & Hvs & Hlen & Hrow & _).
  - reflexivity.
  - intros l [= <-]. reflexivity.
  - exists vs. split; [exact Hvs|]. split; [exact Hlen|].
    split; [apply (Hrow 0%nat); lia | apply (Hrow 1%nat); lia].
Defined.

(** C6 does not hold of the code.  When the label array is omitted, line 156
    builds the list of empty strings but only binds it to the local name:
    the table gets no ["ID_labels"] column at all, while a call that supplies
    the same empty labels gets one. *)
Theorem C6_omitted_labels_leave_no_column (name description : string)
    (iv : ImagingVolume) (positions : ndarray Q)
    (refs : option MultiChannelVolumeSeries) (N : nat) :
  shape positions = [N; 3%nat] →
  ∃ vs vs',
    create_vol_seg_centers name description iv positions None refs = Ok vs
    ∧ columns vs !! "ID_labels" = None
    ∧ create_vol_seg_centers name description iv positions (Some (replicate N "")) refs
      = Ok vs'
    ∧ columns vs' !! "ID_labels" = Some (replicate N "").
Proof.
  intros Hsh.
  rewrite (create_vol_seg_centers_unlabelled _ _ _ _ _ N Hsh).
  rewrite (create_vol_seg_centers_labelled _ _ _ _ (replicate N "") _ N Hsh)
    by apply length_replicate.
  do 2 eexists. split; [reflexivity|]. split; [apply lookup_empty|].
  split; [reflexivity|]. cbn [columns]. apply lookup_singleton_eq.
Qed.

(** The statement on two neurons without labels. *)
Lemma C6_omitted_labels_witness :
  ∃ vs, create_vol_seg_centers "Seg_tpoint_0" "Neuron segmentation" example_ImVol
          example_positions None None = Ok vs
        ∧ columns vs !! "ID_labels" = None.
Proof.
  destruct (C6_omitted_labels_leave_no_column "Seg_tpoint_0" "Neuron segmentation"
              example_ImVol example_positions None 2 eq_refl)
    as (vs & vs' & Hvs & Hcol & _).
  exists vs. split; [exact Hvs | exact Hcol].
Defined.

(** ** The chunked volume reader *)

Lemma close_open_handle w : close_handle (open_handle w) = w.
Proof. by destruct w. Qed.

Lemma set_plane_ok (tpoint image : ndarray Q) (X Y Zn j : nat) :
  shape tpoint = [X; Y; Zn] → (j < Zn)%nat → shape image = [X; Y] →
  ∃ t', set_plane tpoint j image = Ok t' ∧ shape t' = [X; Y; Zn].
Proof.
  intros Ht Hj Hi. unfold set_plane. rewrite Ht, Hi.
  apply Nat.ltb_lt in Hj. rewrite Hj. unfold broadcastable.
  rewrite !Nat.eqb_refl. cbn [negb orb andb].
  eexists. split; reflexivity.
Qed.

(** Filling the planes [l] of one timepoint keeps the shape of [tpoint]. *)
Lemma read_planes_ok (tif : list TiffPage) (sh : nat * nat) (i nz : nat)
    (l : list nat) (tpoint : ndarray Q) :
  shape tpoint = [sh.2; sh.1; nz] →
  Forall (λ j, (j < nz)%nat ∧ ∃ p, tif !! (i * nz + j)%nat = Some p ∧ page_ok sh p = true) l →
  ∃ t', foldl (λ acc j,
                 t ← acc;
                 page ← index tif (i * nz + j);
                 arr ← asarray page;
                 set_plane t j (transpose arr)) (Ok tpoint) l = Ok t'
        ∧ shape t' = [sh.2; sh.1; nz].
Proof.
  revert tpoint. induction l as [|j l IH]; intros tpoint Ht Hl; simpl.
  - eauto.
  - apply Forall_cons in Hl as [(Hj & p & Hp & Hok) Hl].
    unfold index at 2. rewrite Hp. cbn [mbind result_bind].
    unfold page_ok in Hok. destruct (asarray p) as [arr|]; [|done].
    apply bool_decide_eq_true in Hok. cbn [mbind result_bind].
    destruct (set_plane_ok tpoint (transpose arr) sh.2 sh.1 nz j Ht Hj)
      as (t' & -> & Ht').
    { unfold transpose. cbn [shape]. by rewrite Hok. }
    by apply IH.
Qed.

Lemma read_timepoint_ok (tif : list TiffPage) (numZ : Z) (sh : nat * nat) (i : nat) :
  (∀ k, (k < (i + 1) * Z.to_nat numZ)%nat →
        ∃ p, tif !! k = Some p ∧ page_ok sh p = true) →
  ∃ v, read_timepoint tif numZ sh i = Ok v
       ∧ shape v = [sh.2; sh.1; Z.to_nat numZ].
Proof.
  intros Hpages. unfold read_timepoint.
  destruct (read_planes_ok tif sh i (Z.to_nat numZ) (seq 0 (Z.to_nat numZ))
              (zeros [sh.2; sh.1; Z.to_nat numZ]) eq_refl) as (t' & Ht' & Hsh).
  { apply Forall_forall. intros j Hj. apply elem_of_seq in Hj.
    split; [lia|]. apply Hpages. nia. }
  cbv zeta. rewrite Ht'. cbn [mbind result_bind mret result_ret].
  eexists. split; [reflexivity|]. exact Hsh.
Qed.

Lemma timepoints_of_spec (tif : list TiffPage) (numZ : Z) :
  0 < numZ →
  Z.of_nat (timepoints_of tif numZ) = Z.of_nat (length tif) / numZ
  ∧ Z.quot (Z.of_nat (length tif)) numZ = Z.of_nat (length tif) / numZ
  ∧ (timepoints_of tif numZ * Z.to_nat numZ <= length tif)%nat.
Proof.
  intros Hz. unfold timepoints_of.
  rewrite Z.quot_div_nonneg by lia.
  assert (0 <= Z.of_nat (length tif) / numZ) by (apply Z.div_pos; lia).
  assert (numZ * (Z.of_nat (length tif) / numZ) <= Z.of_nat (length tif))
    by (apply Z.mul_div_le; lia).
  repeat split; nia.
Qed.

Lemma readable_timepoints_pages (tif : list TiffPage) (numZ : Z) :
  0 < numZ → readable_timepoints tif numZ = true →
  ∃ p0, tif !! 0%nat = Some p0
        ∧ ∀ k, (k < timepoints_of tif numZ * Z.to_nat numZ)%nat →
               ∃ p, tif !! k = Some p ∧ page_ok (page_shape p0) p = true.
Proof.
  intros Hz Hr. unfold readable_timepoints in Hr.
  destruct tif as [|p0 tif'] eqn:Htif; [done|]. rewrite <- Htif in *.
  exists p0. split; [by rewrite Htif|]. intros k Hk.
  destruct (timepoints_of_spec tif numZ Hz) as (_ & _ & Hle).
  destruct (lookup_lt_is_Some_2 tif k) as [p Hp]; [lia|].
  exists p. split; [done|].
  rewrite forallb_forall in Hr. apply Hr.
  apply list_elem_of_In. apply list_elem_of_lookup. exists k.
  by rewrite lookup_take_lt.
Qed.

(** From a frame suspended at iteration [i], with [k] timepoints still to
    come, the consumer gets exactly [k] more chunks, then the stream ends and
    line 210 closes the file. *)
Lemma consume_suspended (tif : list TiffPage) (numZ : Z) (p0 : TiffPage) :
  0 < numZ →
  (∀ k, (k < timepoints_of tif numZ * Z.to_nat numZ)%nat →
        ∃ p, tif !! k = Some p ∧ page_ok (page_shape p0) p = true) →
  ∀ (k i fuel : nat) (w : World),
    (S i + k = timepoints_of tif numZ)%nat → (k < fuel)%nat →
    ∃ chunks,
      consume fuel (Suspended (frame_at tif numZ p0 i)) w
      = Some (Ok chunks, close_handle w)
      ∧ length chunks = k
      ∧ Forall (λ v, shape v = chunk_shape p0 numZ) chunks.
Proof.
  intros Hz Hpages.
  destruct (timepoints_of_spec tif numZ Hz) as (HT & Hquot & _).
  induction k as [|k IH]; intros i fuel w Hik Hfuel;
    (destruct fuel as [|fuel]; [lia|]);
    cbn [consume next frame_at f_i]; unfold iter_calc_tiff_loop;
    cbn [f_timepoints f_tif f_numZ f_pageshape f_pages frame_at].
  - rewrite (proj2 (Z.ltb_ge _ _)) by lia.
    exists []. by repeat split.
  - rewrite (proj2 (Z.ltb_lt _ _)) by lia.
    destruct (read_timepoint_ok tif numZ (page_shape p0) (S i)) as (v & -> & Hv).
    { intros j Hj. apply Hpages. nia. }
    destruct (IH (S i) fuel w) as (chunks & Hc & Hlen & Hsh); [lia|lia|].
    change {| f_tif := tif; f_numZ := numZ; f_pages := length tif;
              f_timepoints := Z.quot (Z.of_nat (length tif)) numZ;
              f_pageshape := page_shape p0; f_i := S i |}
      with (frame_at tif numZ p0 (S i)).
    rewrite Hc. exists (v :: chunks).
    repeat split; [simpl; lia|]. by constructor.
Qed.

(** The whole stream of a readable source. *)
Lemma consume_iter_calc_tiff (filename : string) (numZ : Z) (tif : list TiffPage)
    (w : World) (fuel : nat) :
  tiffs w !! filename = Some tif → 0 < numZ → readable_timepoints tif numZ = true →
  (timepoints_of tif numZ + 1 < fuel)%nat →
  ∃ p0 chunks,
    tif !! 0%nat = Some p0
    ∧ consume fuel (iter_calc_tiff filename numZ) w = Some (Ok chunks, w)
    ∧ length chunks = timepoints_of tif numZ
    ∧ Forall (λ v, shape v = chunk_shape p0 numZ) chunks.
Proof.
  intros Hfile Hz Hr Hfuel.
  destruct (readable_timepoints_pages tif numZ Hz Hr) as (p0 & Hp0 & Hpages).
  destruct (timepoints_of_spec tif numZ Hz) as (HT & Hquot & _).
  exists p0. destruct fuel as [|fuel]; [lia|].
  cbn [consume iter_calc_tiff next]. unfold TiffFile. rewrite Hfile.
  rewrite (proj2 (Z.eqb_neq numZ 0)) by lia.
  unfold index. rewrite Hp0. unfold iter_calc_tiff_loop.
  cbn [f_timepoints f_tif f_numZ f_pageshape f_pages].
  destruct (Nat.eq_dec (timepoints_of tif numZ) 0%nat) as [HT0|HT0].
  - rewrite (proj2 (Z.ltb_ge _ _)) by lia.
    exists []. rewrite close_open_handle.
    split; [done|]. split; [reflexivity|]. split; [simpl; lia | constructor].
  - rewrite (proj2 (Z.ltb_lt _ _)) by lia.
    destruct (read_timepoint_ok tif numZ (page_shape p0) 0) as (v & -> & Hv).
    { intros j Hj. apply Hpages. nia. }
    destruct (consume_suspended tif numZ p0 Hz Hpages
                (timepoints_of tif numZ - 1) 0 fuel (open_handle w))
      as (chunks & Hc & Hlen & Hsh); [lia|lia|].
    change {| f_tif := tif; f_numZ := numZ; f_pages := length tif;
              f_timepoints := Z.quot (Z.of_nat (length tif)) numZ;
              f_pageshape := page_shape p0; f_i := 0 |}
      with (frame_at tif numZ p0 0).
    rewrite Hc, close_open_handle. exists (v :: chunks).
    split; [done|]. split; [reflexivity|].
    split; [simpl; lia | by constructor].
Qed.

(** C1, as stated, fails: seven pages with two pages per timepoint do not
    divide evenly, yet the reader yields three chunks and ends normally; the
    seventh page is never read (here it could not even be decoded). *)
Lemma C1_uneven_pages_no_error :
  7 mod 2 ≠ 0
  ∧ length example_seven_pages = 7%nat
  ∧ consume_summary
      (consume 10 (iter_calc_tiff "calcium.tiff" 2)
         (example_world "calcium.tiff" example_seven_pages))
    = Some (Ok 3%nat, 0%nat).
Proof. split; [done|]. split; vm_compute; reflexivity. Qed.

(** C1, amended.  For a source whose pages decode to one shape as far as
    whole timepoints go, and every declared page count Z >= 1, the reader
    yields exactly the integer quotient totalPages / Z chunks and then ends
    normally, with the world as it was before: that is totalPages / Z chunks
    covering every page when Z divides totalPages, and when it does not the
    trailing totalPages mod Z pages are left out without any error. *)
Theorem C1_chunk_count (filename : string) (numZ : Z) (tif : list TiffPage)
    (w : World) (fuel : nat) :
  tiffs w !! filename = Some tif → 0 < numZ →
  readable_timepoints tif numZ = true →
  (timepoints_of tif numZ + 1 < fuel)%nat →
  ∃ chunks,
    consume fuel (iter_calc_tiff filename numZ) w = Some (Ok chunks, w)
    ∧ Z.of_nat (length chunks) = Z.of_nat (length tif) / numZ
    ∧ (Z.of_nat (length tif) mod numZ = 0 →
       Z.of_nat (length chunks) * numZ = Z.of_nat (length tif))
    ∧ Z.of_nat (length tif) - Z.of_nat (length chunks) * numZ
      = Z.of_nat (length tif) mod numZ.
Proof.
  intros Hfile Hz Hr Hfuel.
  destruct (consume_iter_calc_tiff filename numZ tif w fuel Hfile Hz Hr Hfuel)
    as (p0 & chunks & _ & Hc & Hlen & _).
  destruct (timepoints_of_spec tif numZ Hz) as (HT & _ & _).
  exists chunks. split; [exact Hc|]. rewrite Hlen, HT.
  pose proof (Z.div_mod (Z.of_nat (length tif)) numZ ltac:(lia)) as Hdm.
  repeat split; [intros H0|]; lia.
Qed.

(** The amended statement on 24 pages with 12 pages per timepoint. *)
Lemma C1_chunk_count_witness :
  ∃ chunks,
    consume 4 (iter_calc_tiff "calcium.tiff" 12)
      (example_world "calcium.tiff" example_two_timepoints)
    = Some (Ok chunks, example_world "calcium.tiff" example_two_timepoints)
    ∧ Z.of_nat (length chunks) = 2.
Proof.
  destruct (C1_chunk_count "calcium.tiff" 12 example_two_timepoints
              (example_world "calcium.tiff" example_two_timepoints) 4)
    as (chunks & Hc & Hlen & _).
  - reflexivity.
  - lia.
  - reflexivity.
  - vm_compute. lia.
  - exists chunks. split; [exact Hc | exact Hlen].
Defined.

(** With a page count of zero the division of line 196 raises, after the
    file has been opened. *)
Lemma iter_calc_tiff_zero_pages_per_timepoint (filename : string)
    (tif : list TiffPage) (w : World) :
  tiffs w !! filename = Some tif →
  next (iter_calc_tiff filename 0) w = (Raised ZeroDivisionError, Finished, open_handle w).
Proof. intros H. cbn [next iter_calc_tiff]. unfold TiffFile. by rewrite H. Qed.

(** A suspended generator holds the open file.  Only the normal end of the
    stream closes it; an exception and [close()] leave the handle count as it
    is. *)
Lemma next_suspended_handles (f : frame) (w : World) :
  match next (Suspended f) w with
  | (Yield _, _, w') => w' = w
  | (StopIteration, _, w') => w' = close_handle w
  | (Raised _, g', w') => g' = Finished ∧ w' = w
  end.
Proof.
  cbn [next]. unfold iter_calc_tiff_loop.
  destruct (_ <? _); [|reflexivity].
  destruct (read_timepoint _ _ _ _); [reflexivity | by split].
Qed.

(** C8 does not hold of the code.  On two timepoints of twelve pages: after
    the stream is read to its end no handle is open; when the consumer takes
    one chunk and abandons the stream the handle opened by the reader stays
    open; when a page of the second timepoint cannot be decoded the exception
    leaves the handle open as well. *)
Theorem C8_handle_released_only_at_normal_end :
  consume_summary
    (consume 4 (iter_calc_tiff "calcium.tiff" 12)
       (example_world "calcium.tiff" example_two_timepoints))
  = Some (Ok 2%nat, 0%nat)
  ∧ (let '(evs, g, w) :=
       take_then_close 1 (iter_calc_tiff "calcium.tiff" 12)
         (example_world "calcium.tiff" example_two_timepoints) in
     (length evs, match g with Finished => true | _ => false end, open_handles w))
    = (1%nat, true, 1%nat)
  ∧ consume_summary
      (consume 4 (iter_calc_tiff "calcium.tiff" 12)
         (example_world "calcium.tiff" example_broken_second_timepoint))
    = Some (Raise OSError, 1%nat).
Proof. repeat split; vm_compute; reflexivity. Qed.

(** ** Stepping through the pipelines *)

Lemma bind_lift_inv {A B} (r : result A) (k : A → M B) w out w' :
  (lift r ≫= k) w = (Ok out, w') → ∃ a, r = Ok a ∧ k a w = (Ok out, w').
Proof.
  unfold mbind, M_bind, lift. destruct r as [a|e]; [eauto | discriminate].
Qed.

Lemma bind_inv {A B} (m : M A) (k : A → M B) w out w' :
  (m ≫= k) w = (Ok out, w') → ∃ a w1, m w = (Ok a, w1) ∧ k a w1 = (Ok out, w').
Proof.
  unfold mbind, M_bind. destruct (m w) as [[a|e] w1]; [eauto | discriminate].
Qed.

Lemma add_named_Ok {V} (name : string) (v : V) (m m' : gmap string V) :
  add_named name v m = Ok m' → m' = <[name := v]> m.
Proof. unfold add_named. destruct (m !! name); [done|]. by intros [= <-]. Qed.

Lemma create_device_Ok nwbfile name description manufacturer nwbfile' device :
  create_device nwbfile name description manufacturer = Ok (nwbfile', device) →
  device = {| dev_name := name; dev_description := description;
              dev_manufacturer := manufacturer |}
  ∧ nwbfile' = set_devices nwbfile (<[name := device]> (devices nwbfile)).
Proof.
  unfold create_device.
  destruct (add_named _ _ _) as [ds|] eqn:Hds; [|done].
  apply add_named_Ok in Hds as ->. by intros [= <- <-].
Qed.

Lemma add_imaging_plane_Ok nwbfile ImVol nwbfile' :
  add_imaging_plane nwbfile ImVol = Ok nwbfile' →
  nwbfile' = set_imaging_planes nwbfile (<[iv_name ImVol := ImVol]> (imaging_planes nwbfile)).
Proof.
  unfold add_imaging_plane.
  destruct (add_named _ _ _) as [ps|] eqn:Hps; [|done].
  apply add_named_Ok in Hps as ->. by intros [= <-].
Qed.

Lemma add_acquisition_Ok nwbfile x nwbfile' :
  add_acquisition nwbfile x = Ok nwbfile' →
  nwbfile' = set_acquisition nwbfile (<[acq_name x := x]> (acquisition nwbfile)).
Proof.
  unfold add_acquisition.
  destruct (add_named _ _ _) as [ps|] eqn:Hps; [|done].
  apply add_named_Ok in Hps as ->. by intros [= <-].
Qed.

Lemma create_processing_module_Ok nwbfile name description nwbfile' :
  create_processing_module nwbfile name description = Ok nwbfile' →
  nwbfile' = set_processing nwbfile
               (<[name := {| pm_name := name; pm_description := description;
                             data_interfaces := ∅ |}]> (processing nwbfile)).
Proof.
  unfold create_processing_module.
  destruct (add_named _ _ _) as [ps|] eqn:Hps; [|done].
  apply add_named_Ok in Hps as ->. by intros [= <-].
Qed.

Lemma module_add_Ok nwbfile name x nwbfile' :
  module_add nwbfile name x = Ok nwbfile' →
  ∃ m, processing nwbfile !! name = Some m
       ∧ nwbfile' = set_processing nwbfile
                      (<[name := {| pm_name := pm_name m;
                                    pm_description := pm_description m;
                                    data_interfaces :=
                                      <[di_name x := x]> (data_interfaces m) |}]>
                         (processing nwbfile)).
Proof.
  unfold module_add. destruct (processing nwbfile !! name) as [m|]; [|done].
  destruct (add_named _ _ _) as [ds|] eqn:Hds; [|done].
  apply add_named_Ok in Hds as ->. intros [= <-]. eauto.
Qed.

Lemma create_im_vol_Ok nwbfile name device description channels location gs gsu oc ocu rf
    nwbfile' ImVol OptChanRefs :
  create_im_vol nwbfile name device description channels location gs gsu oc ocu rf
  = Ok (nwbfile', ImVol, OptChanRefs) →
  ∃ OptChannels,
    for_each create_im_vol_channel channels = Ok OptChannels
    ∧ OptChanRefs = {| ocr_name := "OpticalChannelRefs";
                       ocr_channels := (λ ch : channel_spec, ch.2) <$> channels |}
    ∧ ImVol = {| iv_name := name; optical_channel_plus := OptChannels;
                 iv_order_optical_channels := OptChanRefs;
                 iv_description := description; iv_device := device;
                 iv_location := location; grid_spacing := gs;
                 grid_spacing_unit := gsu; origin_coords := oc;
                 origin_coords_unit := ocu; reference_frame := rf |}
    ∧ nwbfile' = set_imaging_planes nwbfile (<[name := ImVol]> (imaging_planes nwbfile)).
Proof.
  unfold create_im_vol.
  destruct (for_each create_im_vol_channel channels) as [chs|]; [|done].
  cbn [mbind result_bind].
  destruct (add_imaging_plane _ _) as [n|] eqn:Hn; [|done].
  apply add_imaging_plane_Ok in Hn as ->. intros [= <- <- <-].
  exists chs. by repeat split.
Qed.

Lemma write_nwb_inv path nwbfile w out w' :
  write_nwb path nwbfile w = (Ok out, w') →
  w_path out = path ∧ w_nwbfile out = nwbfile.
Proof.
  unfold write_nwb. intros H.
  apply bind_inv in H as (? & ? & _ & H).
  apply bind_inv in H as (chunks & ? & _ & H).
  apply bind_inv in H as (? & ? & _ & H).
  injection H as <- _. by split.
Qed.

Lemma channel_choice (fld : string) :
  (if str_lt fld "20230322"
   then (channels_before_20230322, [0; 1; 3; 4])
   else (channels_from_20230322, [0; 1; 4; 6]))
  = (channels_for fld, RGBW_for fld).
Proof. unfold channels_for, RGBW_for. by destruct (str_lt _ _). Qed.

Ltac step H x Hx := apply bind_lift_inv in H as (x & Hx & H).
Ltac nwb_fields :=
  cbn [processing imaging_planes acquisition devices set_processing
       set_imaging_planes set_acquisition set_devices set_subject
       create_subject gen_file w_nwbfile] in *.
Ltac map_lookup :=
  repeat first [rewrite lookup_insert_eq | rewrite lookup_insert_ne by done].
Ltac step_module_add H :=
  let n := fresh "nwbfile" in
  let Hn := fresh "Hn" in
  let m := fresh "m" in
  let Hm := fresh "Hm" in
  apply bind_lift_inv in H as (n & Hn & H);
  apply module_add_Ok in Hn as (m & Hm & ->);
  nwb_fields; rewrite lookup_insert_eq in Hm; injection Hm as <-;
  cbn [pm_name pm_description data_interfaces di_name is_name ocr_name] in H.

(** What a successful run of [process_NP_FOCO_Ray] has gone through, and
    where its results sit in the written file. *)
Lemma process_NP_FOCO_Ray_inv g inp dp ds strain w out w' :
  process_NP_FOCO_Ray g inp dp ds strain w = (Ok out, w') →
  ∃ fld NP_ImVol Calc_ImVol Calc_ImSeries NeuroPALNeurons blobquant volsegs
    volsegs0 rt_region rs tif page nm de de' de'',
    folder g = Some fld
    ∧ channel_metadata (w_nwbfile out)
      = (Some ((λ ch : channel_spec, ch.2) <$> channels_for fld),
         Some (RGBW_for fld), Some (Calc_scale_for fld))
    ∧ create_vol_seg_centers nm de NP_ImVol
        (of_rows 0%Q 3 ((λ r, [b_X r; b_Y r; b_Z r]) <$> blobs_csv inp))
        (Some (labels_of_IDs (b_ID <$> blobs_csv inp))) None = Ok NeuroPALNeurons
    ∧ segmentations (w_nwbfile out) "NeuroPAL" "NeuroPALSegmentation" = [NeuroPALNeurons]
    ∧ build_blobquant (gce_quantification_csv inp) = Ok (Some blobquant)
    ∧ segment_timepoints (bq_shape1 blobquant) (bq_xyz blobquant) de'
        Calc_ImVol Calc_ImSeries = Ok volsegs
    ∧ segmentations (w_nwbfile out) "CalciumActivity" "CalciumSeriesSegmentation" = volsegs
    ∧ volsegs !! 0%nat = Some volsegs0
    ∧ create_roi_table_region volsegs0 de'' (arange (length blobquant)) = Ok rt_region
    ∧ response_series (w_nwbfile out) "CalciumActivity" "SignalDFoF" = Some rs
    ∧ rois rs = rt_region
    ∧ rrs_data rs = transpose (bq_quant blobquant)
    ∧ tiffs w !! Calc_file_of dp ds = Some tif
    ∧ tif !! 0%nat = Some page
    ∧ acquired_series (w_nwbfile out) "CalciumImageSeries" = Some Calc_ImSeries
    ∧ dimension Calc_ImSeries = [(page_shape page).1; (page_shape page).2; 12%nat]
    ∧ mcvs_data Calc_ImSeries
      = H5DataIO (DataChunkIterator (iter_calc_tiff (Calc_file_of dp ds) 12) 10) "gzip" 4.
Proof.
  intros H. unfold process_NP_FOCO_Ray in H.
  step H sst Hsst. step H dob Hdob.
  step H nd Hnd. destruct nd as [nwb1 microscope].
  apply create_device_Ok in Hnd as [-> ->].
  step H fld Hfld.
  rewrite channel_choice in H.
  step H r1 Hr1. destruct r1 as [[nwb2 NP_ImVol] NP_OptChanRef].
  apply create_im_vol_Ok in Hr1 as (NPch & HNPch & -> & HNPvol & ->).
  step H nwb3 Hnwb3. apply add_acquisition_Ok in Hnwb3 as ->.
  step H NeuroPALNeurons HNP.
  step H nwb4 Hnwb4. apply create_processing_module_Ok in Hnwb4 as ->.
  step_module_add H. step_module_add H.
  step H proc_channels Hpc.
  step H r2 Hr2. destruct r2 as [[nwb5 Proc_ImVol] Proc_OptChanRef].
  apply create_im_vol_Ok in Hr2 as (Pch & HPch & -> & HPvol & ->).
  step H proc_data Hproc.
  step H nwb6 Hnwb6. apply create_processing_module_Ok in Hnwb6 as ->.
  step_module_add H. step_module_add H.
  step H fld2 Hfld2. rewrite Hfld in Hfld2. injection Hfld2 as <-.
  step H r3 Hr3. destruct r3 as [[nwb7 Calc_ImVol] Calc_OptChanRef].
  apply create_im_vol_Ok in Hr3 as (Cch & HCch & -> & HCvol & ->).
  apply bind_inv in H as (tif & w1 & Htif & H).
  step H page Hpage. cbv zeta in H.
  step H nwb8 Hnwb8. apply add_acquisition_Ok in Hnwb8 as ->.
  step H bq0 Hbq.
  destruct bq0 as [blobquant|]; [|apply bind_lift_inv in H as (? & [=] & _)].
  apply bind_lift_inv in H as (bq' & [= <-] & H).
  step H volsegs Hvolsegs. step H volsegs0 Hv0. step H rt_region Hrt.
  step H nwb9 Hnwb9. apply create_processing_module_Ok in Hnwb9 as ->.
  step_module_add H. step_module_add H. step_module_add H.
  apply write_nwb_inv in H as [Hpath Hnwb].
  unfold TiffFile in Htif. fold (Calc_file_of dp ds) in Htif.
  destruct (tiffs w !! Calc_file_of dp ds) as [tif'|] eqn:Hfile; [|done].
  injection Htif as <- <-.
  unfold index in Hpage, Hv0.
  destruct (tif' !! 0%nat) as [page'|] eqn:Hp0; [|done]. injection Hpage as <-.
  destruct (volsegs !! 0%nat) as [v0|] eqn:Hvs0; [|done]. injection Hv0 as <-.
  unfold load_global in Hfld. destruct (folder g) as [f|] eqn:Hfolder; [|done].
  injection Hfld as <-.
  do 16 eexists.
  split; [reflexivity|].
  split.
  { unfold channel_metadata, acquired_volume. rewrite Hnwb. nwb_fields.
    cbn [acq_name create_image create_calc_series mcv_name mcvs_name].
    map_lookup. rewrite HNPvol, HCvol. reflexivity. }
  split; [exact HNP|].
  split.
  { unfold segmentations, module_item. rewrite Hnwb. nwb_fields.
    map_lookup. cbn [mbind option_bind data_interfaces].
    map_lookup. reflexivity. }
  split; [exact Hbq|].
  split; [exact Hvolsegs|].
  split.
  { unfold segmentations, module_item. rewrite Hnwb. nwb_fields.
    map_lookup. cbn [mbind option_bind data_interfaces].
    map_lookup. reflexivity. }
  split; [exact Hvs0|].
  split; [exact Hrt|].
  split.
  { unfold response_series, module_item. rewrite Hnwb. nwb_fields.
    map_lookup. cbn [mbind option_bind data_interfaces].
    map_lookup. reflexivity. }
  split; [reflexivity|]. split; [reflexivity|].
  split; [reflexivity|]. split; [exact Hp0|].
  split.
  { unfold acquired_series. rewrite Hnwb. nwb_fields.
    cbn [acq_name create_image create_calc_series mcv_name mcvs_name].
    map_lookup. reflexivity. }
  split; reflexivity.
Qed.

(** The same for the calcium part of [process_yemini]. *)
Lemma process_yemini_calcium_inv g inp worm nwbfile device w out w' :
  process_yemini_calcium g inp worm nwbfile device w = (Ok out, w') →
  ∃ positions raw_pos Calc_ImVol Calc_ImSeries volsegs volsegs0 rt_region rs rs' de de',
    swap_xy (neuron_positions inp) = Ok positions
    ∧ swap_xy (old_neuron_positions inp) = Ok raw_pos
    ∧ segment_timepoints (a3_shape raw_pos).1.2 (at_timepoint raw_pos) de
        Calc_ImVol Calc_ImSeries = Ok volsegs
    ∧ segmentations (w_nwbfile out) "CalciumActivity" "CalciumSeriesSegmentation" = volsegs
    ∧ volsegs !! 0%nat = Some volsegs0
    ∧ create_roi_table_region volsegs0 de' (arange (a3_shape positions).1.1) = Ok rt_region
    ∧ response_series (w_nwbfile out) "CalciumActivity" "CalciumFluorescence" = Some rs
    ∧ response_series (w_nwbfile out) "CalciumActivity" "CalciumFluorescencedNMF" = Some rs'
    ∧ rois rs = rt_region ∧ rois rs' = rt_region
    ∧ rrs_data rs = transpose (neuron_activity inp)
    ∧ rrs_data rs' = transpose (neuron_activity inp).
Proof.
  intros H. unfold process_yemini_calcium in H.
  step H gcdata Hgc. step H ydim Hy. step H zdim Hz.
  step H r1 Hr1. destruct r1 as [[nwb1 Calc_ImVol] Calc_OptChanRef].
  apply create_im_vol_Ok in Hr1 as (Cch & HCch & -> & HCvol & ->).
  step H d1 Hd1. step H d2 Hd2. step H d3 Hd3.
  step H nwb2 Hnwb2. apply add_acquisition_Ok in Hnwb2 as ->.
  step H positions Hpos. step H raw_pos Hraw.
  step H volsegs Hvolsegs. step H procvolsegs Hproc.
  step H volsegs0 Hv0. step H rt_region Hrt.
  step H nwb3 Hnwb3. apply create_processing_module_Ok in Hnwb3 as ->.
  step_module_add H. step_module_add H. step_module_add H.
  step_module_add H. step_module_add H.
  step H dp Hdp.
  apply write_nwb_inv in H as [Hpath Hnwb].
  unfold index in Hv0.
  destruct (volsegs !! 0%nat) as [v0|] eqn:Hvs0; [|done]. injection Hv0 as <-.
  do 11 eexists.
  split; [exact Hpos|]. split; [exact Hraw|]. split; [exact Hvolsegs|].
  split.
  { unfold segmentations, module_item. rewrite Hnwb. nwb_fields.
    map_lookup. cbn [mbind option_bind data_interfaces].
    map_lookup. reflexivity. }
  split; [exact Hvs0|]. split; [exact Hrt|].
  split.
  { unfold response_series, module_item. rewrite Hnwb. nwb_fields.
    map_lookup. cbn [mbind option_bind data_interfaces].
    map_lookup. reflexivity. }
  split.
  { unfold response_series, module_item. rewrite Hnwb. nwb_fields.
    map_lookup. cbn [mbind option_bind data_interfaces].
    map_lookup. reflexivity. }
  repeat split.
Qed.

(** ** Per-timepoint segmentations and the ROI linkage *)

Lemma for_each_lookup {A B} (f : A → result B) (l : list A) (ys : list B) :
  for_each f l = Ok ys →
  length ys = length l
  ∧ ∀ i x, l !! i = Some x → ∃ y, ys !! i = Some y ∧ f x = Ok y.
Proof.
  revert ys. induction l as [|x l IH]; intros ys; simpl.
  - intros [= <-]. split; [done|]. intros i x [=].
  - destruct (f x) as [y|] eqn:Hy; [|done]. cbn [mbind result_bind].
    destruct (for_each f l) as [ys'|]; [|done]. cbn [mbind result_bind].
    intros [= <-]. destruct (IH ys' eq_refl) as [Hlen Hl].
    split; [simpl; by rewrite Hlen|].
    intros [|i] x'; simpl; [intros [= <-]; eauto | apply Hl].
Qed.

(** A single row collapses under [np.squeeze], and the builder then fails on
    the 1-D array. *)
Lemma create_vol_seg_centers_single_row name description iv positions labels refs :
  shape positions = [1%nat; 3%nat] →
  create_vol_seg_centers name description iv (squeeze positions) labels refs
  = Raise IndexError.
Proof.
  intros Hsh. unfold create_vol_seg_centers, shape_at, squeeze. cbn [shape].
  rewrite Hsh. reflexivity.
Qed.

Lemma squeeze_rows (positions : ndarray Q) (N : nat) :
  shape positions = [N; 3%nat] → N ≠ 1%nat → shape (squeeze positions) = [N; 3%nat].
Proof.
  intros Hsh HN. unfold squeeze. cbn [shape]. rewrite Hsh.
  rewrite filter_cons_True by done. by rewrite filter_cons_True by done.
Qed.

(** Every segmentation of [segment_timepoints] has one ROI per row of its
    timepoint's coordinates, in row order. *)
Lemma segment_timepoints_rois (T N : nat) (blobs_at : nat → ndarray Q) describe iv series
    (volsegs : list PlaneSegmentation) :
  (∀ t, shape (blobs_at t) = [N; 3%nat]) →
  segment_timepoints T blobs_at describe iv series = Ok volsegs →
  length volsegs = T
  ∧ ∀ t vs, volsegs !! t = Some vs →
      voxel_mask vs = roi_of_row (squeeze (blobs_at t)) <$> seq 0 N.
Proof.
  intros Hsh Hsegs. unfold segment_timepoints in Hsegs.
  apply for_each_lookup in Hsegs as [Hlen Hl].
  rewrite length_seq in Hlen. split; [done|]. intros t vs Hvs.
  assert (Ht : (t < T)%nat) by (apply lookup_lt_Some in Hvs; lia).
  destruct (Hl t t) as (vs' & Hvs' & Hc); [by apply lookup_seq_lt|].
  rewrite Hvs in Hvs'. injection Hvs' as <-.
  destruct (decide (N = 1%nat)) as [->|HN].
  - by rewrite create_vol_seg_centers_single_row in Hc.
  - rewrite (create_vol_seg_centers_unlabelled _ _ _ _ _ N) in Hc
      by by apply squeeze_rows.
    by injection Hc as <-.
Qed.

Lemma create_roi_table_region_Ok vs description reg r :
  create_roi_table_region vs description reg = Ok r →
  table r = vs ∧ region r = reg
  ∧ Forall (λ idx, 0 <= idx < Z.of_nat (length (voxel_mask vs))) reg.
Proof.
  unfold create_roi_table_region.
  destruct (forallb _ reg) eqn:Hall; [|done]. intros [= <-].
  repeat split. apply Forall_forall. intros idx Hidx.
  rewrite forallb_forall in Hall. apply list_elem_of_In, Hall in Hidx. lia.
Qed.

Lemma arange_bound (P N : nat) :
  Forall (λ idx, 0 <= idx < Z.of_nat N) (arange P) → (P <= N)%nat.
Proof.
  intros H. destruct P as [|P]; [lia|].
  rewrite Forall_forall in H. specialize (H (Z.of_nat P)).
  unfold arange in H. rewrite list_elem_of_fmap in H.
  assert (0 <= Z.of_nat P < Z.of_nat N); [|lia].
  apply H. exists P. split; [done|]. apply elem_of_seq. lia.
Qed.

Lemma bq_xyz_shape (blobquant : blobquant_t) (t : nat) :
  shape (bq_xyz blobquant t) = [length blobquant; 3%nat].
Proof. reflexivity. Qed.

Lemma swap_xy_Ok (a b : array3) :
  swap_xy a = Ok b →
  (a3_shape b).1.1 = (a3_shape a).1.1
  ∧ ∀ t, shape (at_timepoint b t) = [(a3_shape a).1.1; 3%nat].
Proof.
  unfold swap_xy. destruct (a3_shape a) as [[n t] c] eqn:Hsh.
  destruct (3 <=? c)%nat; [|done]. intros [= <-]. split; reflexivity.
Qed.

(** C3, as stated, fails in [process_yemini]: with three neurons in
    [old_pos.mat] and two in [positions.mat] the timepoint-0 segmentation has
    N = 3 ROIs, but the index region is [[0, 1]] and the response matrix has
    two columns. *)
Lemma C3_region_shorter_than_roi_table :
  (written_file
     (process_yemini_calcium example_globals example_yemini_inputs "20190924_01"
        example_yemini_nwbfile example_yemini_device (example_world "" []))
   ≫= λ nwbfile, linkage_summary nwbfile "CalciumFluorescence")
  = Some ([0; 1], 3%nat, [2; 2]%nat).
Proof. vm_compute. reflexivity. Qed.

(** C3, amended.  In [process_NP_FOCO_Ray] the ROI linkage takes the
    timepoint-0 segmentation as the canonical ROI set and builds the index
    region [[0, 1, ..., N-1]] over it, N being the timepoint-0 ROI count; the
    response matrix has one row per timepoint and N columns.  In
    [process_yemini] both response series are addressed against one and the
    same region over the timepoint-0 segmentation of the raw positions; with
    N the ROI count of that segmentation (the neuron count of [old_pos.mat])
    and P the neuron count of [positions.mat], the region is
    [[0, 1, ..., P-1]] with P <= N, and the response matrix is the transposed
    activity array. *)
Theorem C3_roi_linkage :
  (∀ g inp dp ds strain w out w',
     process_NP_FOCO_Ray g inp dp ds strain w = (Ok out, w') →
     ∃ vs0 rs N T,
       segmentations (w_nwbfile out) "CalciumActivity" "CalciumSeriesSegmentation" !! 0%nat
       = Some vs0
       ∧ length (segmentations (w_nwbfile out) "CalciumActivity"
                   "CalciumSeriesSegmentation") = T
       ∧ length (voxel_mask vs0) = N
       ∧ response_series (w_nwbfile out) "CalciumActivity" "SignalDFoF" = Some rs
       ∧ table (rois rs) = vs0
       ∧ region (rois rs) = Z.of_nat <$> seq 0 N
       ∧ shape (rrs_data rs) = [T; N])
  ∧ (∀ g inp worm nwbfile device w out w',
       process_yemini_calcium g inp worm nwbfile device w = (Ok out, w') →
       ∃ vs0 rs rs' N P,
         segmentations (w_nwbfile out) "CalciumActivity" "CalciumSeriesSegmentation" !! 0%nat
         = Some vs0
         ∧ length (voxel_mask vs0) = N
         ∧ N = (a3_shape (old_neuron_positions inp)).1.1
         ∧ P = (a3_shape (neuron_positions inp)).1.1
         ∧ response_series (w_nwbfile out) "CalciumActivity" "CalciumFluorescence"
           = Some rs
         ∧ response_series (w_nwbfile out) "CalciumActivity" "CalciumFluorescencedNMF"
           = Some rs'
         ∧ rois rs = rois rs'
         ∧ table (rois rs) = vs0
         ∧ region (rois rs) = Z.of_nat <$> seq 0 P
         ∧ (P <= N)%nat
         ∧ rrs_data rs = transpose (neuron_activity inp)
         ∧ rrs_data rs' = transpose (neuron_activity inp)).
Proof.
  split.
  - intros g inp dp ds strain w out w' Hrun.
    destruct (process_NP_FOCO_Ray_inv _ _ _ _ _ _ _ _ Hrun)
      as (fld & NP_ImVol & Calc_ImVol & Calc_ImSeries & NPN & bq & volsegs & vs0
          & rt & rs & tif & page & nm & de & de' & de'' & _ & _ & _ & _ & _
          & Hsegs & Hout & Hvs0 & Hrt & Hrs & Hrois & Hdata & _).
    destruct (segment_timepoints_rois _ (length bq) _ _ _ _ _ (bq_xyz_shape bq) Hsegs)
      as [HT Hmask].
    apply create_roi_table_region_Ok in Hrt as (Htab & Hreg & _).
    exists vs0, rs, (length bq), (bq_shape1 bq).
    rewrite Hout, Hrois, Htab, Hreg, Hdata.
    repeat split; try done.
    rewrite (Hmask _ _ Hvs0). by rewrite length_fmap, length_seq.
  - intros g inp worm nwbfile device w out w' Hrun.
    destruct (process_yemini_calcium_inv _ _ _ _ _ _ _ _ Hrun)
      as (positions & raw_pos & Calc_ImVol & Calc_ImSeries & volsegs & vs0 & rt
          & rs & rs' & de & de' & Hpos & Hraw & Hsegs & Hout & Hvs0 & Hrt
          & Hrs & Hrs' & Hrois & Hrois' & Hdata & Hdata').
    apply swap_xy_Ok in Hpos as [HP _]. apply swap_xy_Ok in Hraw as [_ Hsh].
    destruct (segment_timepoints_rois _ _ _ _ _ _ _ Hsh Hsegs) as [_ Hmask].
    apply create_roi_table_region_Ok in Hrt as (Htab & Hreg & Hbound).
    assert (HN : length (voxel_mask vs0) = (a3_shape (old_neuron_positions inp)).1.1).
    { rewrite (Hmask _ _ Hvs0). by rewrite length_fmap, length_seq. }
    exists vs0, rs, rs', (a3_shape (old_neuron_positions inp)).1.1,
      (a3_shape (neuron_positions inp)).1.1.
    rewrite Hout, Hrois, Hrois', Htab, Hreg, HP.
    repeat split; try done.
    rewrite HP, HN in Hbound. by apply arange_bound.
Qed.

(** The amended statement on the example acquisition: two neurons over three
    timepoints. *)
Lemma C3_roi_linkage_witness :
  ∃ out w',
    process_NP_FOCO_Ray example_globals example_ray_inputs example_datapath
      example_dataset "FC121" example_ray_world = (Ok out, w')
    ∧ ∃ vs0 rs N T,
        segmentations (w_nwbfile out) "CalciumActivity" "CalciumSeriesSegmentation" !! 0%nat
        = Some vs0
        ∧ length (segmentations (w_nwbfile out) "CalciumActivity"
                    "CalciumSeriesSegmentation") = T
        ∧ length (voxel_mask vs0) = N
        ∧ response_series (w_nwbfile out) "CalciumActivity" "SignalDFoF" = Some rs
        ∧ table (rois rs) = vs0
        ∧ region (rois rs) = Z.of_nat <$> seq 0 N
        ∧ shape (rrs_data rs) = [T; N].
Proof.
  destruct (process_NP_FOCO_Ray example_globals example_ray_inputs example_datapath
              example_dataset "FC121" example_ray_world) as [[out|e] w'] eqn:Hrun.
  - exists out, w'. split; [reflexivity|].
    exact (proj1 C3_roi_linkage _ _ _ _ _ _ _ _ Hrun).
  - exfalso.
    assert (H : raised (process_NP_FOCO_Ray example_globals example_ray_inputs
                          example_datapath example_dataset "FC121" example_ray_world)
                = None) by (vm_compute; reflexivity).
    rewrite Hrun in H. discriminate H.
Defined.

(** ** Chunk shapes and the declared dimension *)

Lemma set_plane_shape (tpoint image t' : ndarray Q) (j : nat) :
  set_plane tpoint j image = Ok t' → shape t' = shape tpoint.
Proof.
  unfold set_plane.
  destruct (shape tpoint) as [|X [|Y [|Zn [|? ?]]]]; try done;
    destruct (shape image) as [|a [|b [|? ?]]]; try done;
    destruct (negb _); try done; destruct (negb _); try done.
  by intros [= <-].
Qed.

(** Whatever the pages hold, a chunk that is yielded has the shape
    (columns, rows, numZ) of the first page: the chunk shape is constant along
    a stream. *)
Lemma read_timepoint_shape (tif : list TiffPage) (numZ : Z) (sh : nat * nat)
    (i : nat) (v : ndarray Z) :
  read_timepoint tif numZ sh i = Ok v → shape v = [sh.2; sh.1; Z.to_nat numZ].
Proof.
  unfold read_timepoint.
  set (body := λ (acc : result (ndarray Q)) (j : nat), _).
  assert (Hfold : ∀ l acc t', foldl body acc l = Ok t' →
            ∃ t, acc = Ok t ∧ shape t' = shape t).
  { induction l as [|j l IH]; intros acc t' H; simpl in H.
    - eauto.
    - apply IH in H as (t1 & Hstep & Hsh). unfold body in Hstep.
      destruct acc as [t|]; [|done]. cbn [mbind result_bind] in Hstep.
      destruct (index tif _) as [page|]; [|done]. cbn [mbind result_bind] in Hstep.
      destruct (asarray page) as [arr|]; [|done]. cbn [mbind result_bind] in Hstep.
      apply set_plane_shape in Hstep. exists t. split; [done | congruence]. }
  destruct (foldl body _ _) as [t'|] eqn:Ht'; [|done].
  apply Hfold in Ht' as (t & [= <-] & Hsh).
  cbn [mbind result_bind mret result_ret]. intros [= <-]. exact Hsh.
Qed.

Lemma consume_S (fuel : nat) (g : generator) (w : World) :
  consume (S fuel) g w = consume_after fuel (next g w).
Proof. reflexivity. Qed.

(** The consumer of [write_series_data] always sees the end of the stream:
    the fuel it is given is never used up. *)
Lemma consume_after_loop (k : nat) :
  ∀ (f : frame) (i fuel : nat) (w : World),
    (Z.to_nat (f_timepoints f - Z.of_nat i) <= k)%nat → (k <= fuel)%nat →
    is_Some (consume_after fuel (iter_calc_tiff_loop f i w)).
Proof.
  induction k as [|k IH]; intros f i fuel w Hk Hfuel; unfold iter_calc_tiff_loop.
  - rewrite (proj2 (Z.ltb_ge _ _)) by lia. by eexists.
  - destruct (Z.ltb_spec (Z.of_nat i) (f_timepoints f)) as [Hlt|Hge]; [|by eexists].
    destruct (read_timepoint _ _ _ _) as [v|e]; [|by eexists].
    destruct fuel as [|fuel]; [lia|]. cbn [consume_after].
    rewrite consume_S. cbn [next f_i].
    match goal with
    | |- context [iter_calc_tiff_loop ?f' ?i' ?w'] =>
        destruct (IH f' i' fuel w') as [[[vs|e'] w''] Hr];
          [cbn [f_timepoints]; lia | lia | rewrite Hr; by eexists ..]
    end.
Qed.

Lemma consume_drain_fuel (g : generator) (w : World) :
  is_Some (consume (drain_fuel g w) g w).
Proof.
  destruct g as [filename numZ|f|]; cbn [drain_fuel].
  - rewrite Nat.add_comm. cbn [Nat.add]. rewrite consume_S. cbn [next].
    unfold TiffFile.
    destruct (tiffs w !! filename) as [tif|]; [|by eexists]. cbn [from_option id].
    destruct (numZ =? 0) eqn:Hz; [by eexists|]. apply Z.eqb_neq in Hz.
    destruct (index tif 0) as [p0|]; [|by eexists].
    apply (consume_after_loop (length tif)); [|lia].
    cbn [f_timepoints]. rewrite Z.sub_0_r.
    assert (Z.abs (Z.quot (Z.of_nat (length tif)) numZ) <= Z.of_nat (length tif)).
    { rewrite <- (Z.abs_eq (Z.of_nat (length tif))) at 2 by lia.
      rewrite <- Z.quot_abs by lia. apply Z.quot_le_upper_bound; [lia|].
      pose proof (Z.abs_nonneg (Z.of_nat (length tif))). nia. }
    lia.
  - rewrite Nat.add_comm. cbn [Nat.add]. rewrite consume_S. cbn [next].
    apply (consume_after_loop (Z.to_nat (f_timepoints f))); lia.
  - by eexists.
Qed.

(** C4 does not hold of the code.  On pages of 2 rows and 3 columns every
    chunk the reader yields has shape (3, 2, 12), while the [dimension]
    recorded on the calcium image series is [[2, 3, 12]]: lines 326-327 take
    [numx] and [numy] from the page shape in the order (rows, columns), and
    lines 202-205 build the chunk as (columns, rows, numZ). *)
Theorem C4_declared_dimension_swapped :
  (written_file
     (process_NP_FOCO_Ray example_globals example_ray_inputs example_datapath
        example_dataset "FC121" example_ray_world)
   ≫= λ nwbfile, dimension <$> acquired_series nwbfile "CalciumImageSeries")
  = Some [2; 3; 12]%nat
  ∧ match (process_NP_FOCO_Ray example_globals example_ray_inputs example_datapath
             example_dataset "FC121" example_ray_world).1 with
    | Ok out => fmap (M := list) shape <$> w_chunks out !! "CalciumImageSeries"
    | Raise _ => None
    end = Some [[3; 2; 12]; [3; 2; 12]]%nat.
Proof. split; vm_compute; reflexivity. Qed.

(** ** The global [folder] *)

Lemma dob_of_session_start_time (identifier : string) :
  is_ok (session_start_time_of identifier) = true → is_ok (dob_of identifier) = true.
Proof.
  unfold session_start_time_of, dob_of.
  destruct (int (slice 0 4 identifier)) as [y|]; [|done].
  destruct (int (slice 4 6 identifier)) as [mo|]; [|done].
  destruct (int (slice 6 8 identifier)) as [d|]; [|done].
  cbn [mbind result_bind].
  destruct (int (slice 9 11 identifier)) as [h|]; [|done].
  destruct (int (slice 12 14 identifier)) as [mi|]; [|done].
  destruct (int (slice_from 15 identifier)) as [s|]; [|done].
  cbn [mbind result_bind]. unfold mk_datetime.
  destruct (_ && _) eqn:Hc; [|done]. intros _.
  repeat (apply andb_prop in Hc as [Hc ?]).
  repeat (rewrite (proj2 (andb_true_iff _ _)); [|split]); done.
Qed.

(** With [folder] unbound the function stops at line 247. *)
Lemma process_NP_FOCO_Ray_unbound_folder g inp dp ds strain w :
  folder g = None → is_ok (session_start_time_of ds) = true →
  process_NP_FOCO_Ray g inp dp ds strain w = (Raise NameError, w).
Proof.
  intros Hf Hsst. pose proof (dob_of_session_start_time ds Hsst) as Hdob.
  unfold process_NP_FOCO_Ray.
  destruct (session_start_time_of ds) as [sst|]; [|done].
  destruct (dob_of ds) as [dob|]; [|done].
  rewrite Hf. reflexivity.
Qed.

Lemma process_NP_FOCO_Ray_unbound_folder_fails g inp dp ds strain w :
  folder g = None →
  ∃ e w', process_NP_FOCO_Ray g inp dp ds strain w = (Raise e, w').
Proof.
  intros Hf.
  destruct (process_NP_FOCO_Ray g inp dp ds strain w) as [[out|e] w'] eqn:Hrun; [|eauto].
  apply process_NP_FOCO_Ray_inv in Hrun as (fld & Hrest).
  destruct Hrest as (? & ? & ? & ? & ? & ? & ? & ? & ? & ? & ? & ? & ? & ? & ? & Hfld & _).
  congruence.
Qed.

(** C10.  [process_NP_FOCO_Ray] is not a function of its parameters alone.
    With the global [folder] unbound every call fails, at line 247 with a
    [NameError] once the identifier has been read as a timestamp.  In every
    successful call the channel table, the RGBW selection and the calcium grid
    spacing are the ones chosen by comparing the value of the global [folder],
    whatever the [dataset] argument is.  Two calls with identical arguments
    and inputs but different values of [folder] write different channel
    metadata. *)
Theorem C10_channel_metadata_follows_global_folder :
  (∀ g inp dp ds strain w,
     folder g = None →
     (∃ e w', process_NP_FOCO_Ray g inp dp ds strain w = (Raise e, w'))
     ∧ (is_ok (session_start_time_of ds) = true →
        process_NP_FOCO_Ray g inp dp ds strain w = (Raise NameError, w)))
  ∧ (∀ g inp dp ds strain w out w',
       process_NP_FOCO_Ray g inp dp ds strain w = (Ok out, w') →
       ∃ fld, folder g = Some fld
              ∧ channel_metadata (w_nwbfile out)
                = (Some ((λ ch : channel_spec, ch.2) <$> channels_for fld),
                   Some (RGBW_for fld), Some (Calc_scale_for fld)))
  ∧ (written_file
       (process_NP_FOCO_Ray example_globals example_ray_inputs example_datapath
          example_dataset "FC121" example_ray_world)
     ≫= λ nwbfile, Some (channel_metadata nwbfile))
    ≠ (written_file
         (process_NP_FOCO_Ray example_globals_later_folder example_ray_inputs
            example_datapath example_dataset "FC121" example_ray_world)
       ≫= λ nwbfile, Some (channel_metadata nwbfile)).
Proof.
  split; [|split].
  - intros g inp dp ds strain w Hf. split.
    + by apply process_NP_FOCO_Ray_unbound_folder_fails.
    + by apply process_NP_FOCO_Ray_unbound_folder.
  - intros g inp dp ds strain w out w' Hrun.
    apply process_NP_FOCO_Ray_inv in Hrun as (fld & Hrest).
    destruct Hrest
      as (? & ? & ? & ? & ? & ? & ? & ? & ? & ? & ? & ? & ? & ? & ? & Hfld & Hmeta & _).
    eauto.
  - vm_compute. discriminate.
Qed.

(** The statement on the example acquisition: no [folder], and the [folder]
    of the dataset itself. *)
Lemma C10_channel_metadata_witness :
  process_NP_FOCO_Ray example_globals_unset example_ray_inputs example_datapath
    example_dataset "FC121" example_ray_world
  = (Raise NameError, example_ray_world)
  ∧ ∃ out w',
      process_NP_FOCO_Ray example_globals example_ray_inputs example_datapath
        example_dataset "FC121" example_ray_world = (Ok out, w')
      ∧ ∃ fld, folder example_globals = Some fld
               ∧ channel_metadata (w_nwbfile out)
                 = (Some ((λ ch : channel_spec, ch.2) <$> channels_for fld),
                    Some (RGBW_for fld), Some (Calc_scale_for fld)).
Proof.
  destruct C10_channel_metadata_follows_global_folder as (Hunset & Hset & _).
  split.
  - apply (Hunset example_globals_unset); reflexivity.
  - destruct (process_NP_FOCO_Ray example_globals example_ray_inputs example_datapath
                example_dataset "FC121" example_ray_world) as [[out|e] w'] eqn:Hrun.
    + exists out, w'. split; [reflexivity|]. exact (Hset _ _ _ _ _ _ _ _ Hrun).
    + exfalso.
      assert (H : raised (process_NP_FOCO_Ray example_globals example_ray_inputs
                            example_datapath example_dataset "FC121" example_ray_world)
                  = None) by (vm_compute; reflexivity).
      rewrite Hrun in H. discriminate H.
Defined.

(** ** Two runs on the same inputs *)

Lemma create_vol_seg_centers_row_rebase n d iv refs positions vs i :
  create_vol_seg_centers_row positions (rebase n d iv refs vs) i
  = rebase n d iv refs <$> create_vol_seg_centers_row positions vs i.
Proof.
  unfold create_vol_seg_centers_row.
  destruct (getitem positions [i; 0%nat]); [|done].
  destruct (getitem positions [i; 1%nat]); [|done].
  destruct (getitem positions [i; 2%nat]); done.
Qed.

Lemma create_vol_seg_centers_loop_rebase n d iv refs positions (l : list nat) acc :
  foldl (λ acc i, vs ← acc; create_vol_seg_centers_row positions vs i)
        (rebase n d iv refs <$> acc) l
  = rebase n d iv refs
      <$> foldl (λ acc i, vs ← acc; create_vol_seg_centers_row positions vs i) acc l.
Proof.
  revert acc. induction l as [|i l IH]; intros acc; simpl; [done|].
  rewrite <- IH. f_equal. destruct acc as [vs|]; [|done].
  cbn [fmap result_fmap mbind result_bind].
  apply create_vol_seg_centers_row_rebase.
Qed.

Lemma add_column_rebase n d iv refs vs name data :
  add_column (rebase n d iv refs vs) name data
  = rebase n d iv refs <$> add_column vs name data.
Proof.
  unfold add_column. cbn [rebase columns voxel_mask].
  destruct (bool_decide _); [done|]. by destruct (negb _).
Qed.

(** The ROI table and the label column the builder makes depend on the
    coordinates and labels only, not on the name, the imaging volume or the
    reference images it is given. *)
Lemma create_vol_seg_centers_rebase n d iv refs n' d' iv' refs' positions labels :
  create_vol_seg_centers n' d' iv' positions labels refs'
  = rebase n' d' iv' refs' <$> create_vol_seg_centers n d iv positions labels refs.
Proof.
  unfold create_vol_seg_centers.
  destruct (shape_at positions 0) as [N|]; [|done]. cbn [mbind result_bind].
  change (Ok {| ps_name := n'; ps_description := d'; ps_imaging_plane := iv';
                ps_reference_images := refs'; voxel_mask := []; columns := ∅ |})
    with (rebase n' d' iv' refs'
            <$> Ok {| ps_name := n; ps_description := d; ps_imaging_plane := iv;
                      ps_reference_images := refs; voxel_mask := [];
                      columns := ∅ |}).
  rewrite create_vol_seg_centers_loop_rebase.
  destruct (foldl _ _ _) as [vs|]; [|done].
  cbn [fmap result_fmap mbind result_bind].
  destruct labels as [l|]; [apply add_column_rebase | done].
Qed.

Lemma create_vol_seg_centers_rois_indep n d iv refs n' d' iv' refs' positions labels
    vs vs' :
  create_vol_seg_centers n d iv positions labels refs = Ok vs →
  create_vol_seg_centers n' d' iv' positions labels refs' = Ok vs' →
  rois_and_labels vs = rois_and_labels vs'.
Proof.
  intros H H'.
  rewrite (create_vol_seg_centers_rebase n d iv refs n' d' iv' refs'), H in H'.
  by injection H' as <-.
Qed.

Lemma segment_timepoints_rois_indep T blobs_at de iv series de' iv' series' vss vss' :
  segment_timepoints T blobs_at de iv series = Ok vss →
  segment_timepoints T blobs_at de' iv' series' = Ok vss' →
  rois_and_labels <$> vss = rois_and_labels <$> vss'.
Proof.
  unfold segment_timepoints. generalize (seq 0 T). intros l.
  revert vss vss'. induction l as [|t l IH]; intros vss vss'; simpl.
  - by intros [= <-] [= <-].
  - destruct (create_vol_seg_centers _ (de _) iv _ _ _) as [vs|] eqn:Hvs; [|done].
    destruct (create_vol_seg_centers _ (de' _) iv' _ _ _) as [vs'|] eqn:Hvs'; [|done].
    cbn [mbind result_bind].
    destruct (for_each _ l) as [r|]; [|done].
    destruct (for_each _ l) as [r'|]; [|done].
    cbn [mbind result_bind]. intros [= <-] [= <-].
    rewrite !fmap_cons. f_equal.
    + exact (create_vol_seg_centers_rois_indep _ _ _ _ _ _ _ _ _ _ _ _ Hvs Hvs').
    + by apply IH.
Qed.

(** C9.  Two successful runs of [process_NP_FOCO_Ray] on identical inputs and
    arguments write identical ROI positions, identical labels, the same index
    region and identical response-matrix contents.  This holds whatever the
    state of the world each run starts in (the first run leaves a file handle
    behind) and whatever the global [folder] is bound to in each run. *)
Theorem C9_two_runs_same_rois (g1 g2 : Globals) (inp : RayInputs)
    (dp ds strain : string) (w1 w2 : World) (out1 out2 : Written) (w1' w2' : World) :
  process_NP_FOCO_Ray g1 inp dp ds strain w1 = (Ok out1, w1') →
  process_NP_FOCO_Ray g2 inp dp ds strain w2 = (Ok out2, w2') →
  roi_observables (w_nwbfile out1) = roi_observables (w_nwbfile out2).
Proof.
  intros Hrun1 Hrun2.
  destruct (process_NP_FOCO_Ray_inv _ _ _ _ _ _ _ _ Hrun1)
    as (fld1 & NPv1 & Cv1 & Cs1 & NPN1 & bq1 & vss1 & vs01 & rt1 & rs1 & tif1 & page1
        & nm1 & de1 & de1' & de1'' & _ & _ & HNP1 & HNPout1 & Hbq1 & Hsegs1 & Hout1
        & _ & Hrt1 & Hrs1 & Hrois1 & Hdata1 & _).
  destruct (process_NP_FOCO_Ray_inv _ _ _ _ _ _ _ _ Hrun2)
    as (fld2 & NPv2 & Cv2 & Cs2 & NPN2 & bq2 & vss2 & vs02 & rt2 & rs2 & tif2 & page2
        & nm2 & de2 & de2' & de2'' & _ & _ & HNP2 & HNPout2 & Hbq2 & Hsegs2 & Hout2
        & _ & Hrt2 & Hrs2 & Hrois2 & Hdata2 & _).
  rewrite Hbq1 in Hbq2. injection Hbq2 as <-.
  apply create_roi_table_region_Ok in Hrt1 as (_ & Hreg1 & _).
  apply create_roi_table_region_Ok in Hrt2 as (_ & Hreg2 & _).
  unfold roi_observables.
  rewrite HNPout1, HNPout2, Hout1, Hout2, Hrs1, Hrs2.
  cbn [fmap option_fmap option_map].
  rewrite Hrois1, Hrois2, Hreg1, Hreg2, Hdata1, Hdata2.
  rewrite (segment_timepoints_rois_indep _ _ _ _ _ _ _ _ _ _ Hsegs1 Hsegs2).
  rewrite !fmap_cons, !fmap_nil.
  by rewrite (create_vol_seg_centers_rois_indep _ _ _ _ _ _ _ _ _ _ _ _ HNP1 HNP2).
Qed.

(** The statement on the example acquisition, the second run starting in the
    world the first run has left. *)
Lemma C9_two_runs_same_rois_witness :
  ∃ out1 out2,
    (process_NP_FOCO_Ray example_globals example_ray_inputs example_datapath
       example_dataset "FC121" example_ray_world).1 = Ok out1
    ∧ (process_NP_FOCO_Ray example_globals example_ray_inputs example_datapath
         example_dataset "FC121"
         (process_NP_FOCO_Ray example_globals example_ray_inputs example_datapath
            example_dataset "FC121" example_ray_world).2).1 = Ok out2
    ∧ roi_observables (w_nwbfile out1) = roi_observables (w_nwbfile out2).
Proof.
  assert (H1 : raised (process_NP_FOCO_Ray example_globals example_ray_inputs
                         example_datapath example_dataset "FC121" example_ray_world)
               = None) by (vm_compute; reflexivity).
  assert (H2 : raised (process_NP_FOCO_Ray example_globals example_ray_inputs
                         example_datapath example_dataset "FC121"
                         (process_NP_FOCO_Ray example_globals example_ray_inputs
                            example_datapath example_dataset "FC121"
                            example_ray_world).2)
               = None) by (vm_compute; reflexivity).
  destruct (process_NP_FOCO_Ray example_globals example_ray_inputs example_datapath
              example_dataset "FC121" example_ray_world) as [[out1|e1] w1'] eqn:Hrun1;
    [|discriminate H1].
  cbn [snd] in *.
  destruct (process_NP_FOCO_Ray example_globals example_ray_inputs example_datapath
              example_dataset "FC121" w1') as [[out2|e2] w2'] eqn:Hrun2;
    [|discriminate H2].
  exists out1, out2. split; [reflexivity|]. split; [reflexivity|].
  exact (C9_two_runs_same_rois _ _ _ _ _ _ _ _ _ _ _ _ Hrun1 Hrun2).
Defined.

(** * Further properties of the code *)

(** ** [iter_calc_tiff]: what a stream holds *)

Lemma set_plane_item (tpoint image t' : ndarray Q) (j a b x y z : nat) :
  set_plane tpoint j image = Ok t' → shape image = [a; b] →
  item t' [x; y; z]
  = if (z =? j)%nat
    then item image [if (a =? 1)%nat then 0%nat else x; if (b =? 1)%nat then 0%nat else y]
    else item tpoint [x; y; z].
Proof.
  unfold set_plane. intros H Him. rewrite Him in H.
  destruct (shape tpoint) as [|X [|Y [|Zn [|? ?]]]]; try done.
  destruct (negb _); [done|]. destruct (negb _); [done|].
  injection H as <-. reflexivity.
Qed.

Lemma set_plane_image_shape (tpoint image t' : ndarray Q) (j : nat) :
  set_plane tpoint j image = Ok t' → ∃ a b, shape image = [a; b].
Proof.
  unfold set_plane.
  destruct (shape tpoint) as [|X [|Y [|Zn [|? ?]]]]; try done;
    destruct (shape image) as [|a [|b [|? ?]]]; try done; eauto;
    by destruct (negb _).
Qed.

(** The planes of one timepoint, filled in the order [l]: plane [j] of the
    result is the transposed page [i * nz + j] for every [j] in [l], and the
    other planes are as before. *)
Lemma read_planes_item (tif : list TiffPage) (i nz : nat) (l : list nat) :
  ∀ (acc : result (ndarray Q)) (t' : ndarray Q),
    NoDup l →
    foldl (λ acc j,
             t ← acc;
             page ← index tif (i * nz + j);
             arr ← asarray page;
             set_plane t j (transpose arr)) acc l = Ok t' →
    ∃ t, acc = Ok t
         ∧ ∀ x y j,
             (j ∈ l →
              ∀ p arr r c, tif !! (i * nz + j)%nat = Some p → asarray p = Ok arr →
                shape arr = [r; c] → (x < c)%nat → (y < r)%nat →
                item t' [x; y; j] = item arr [y; x])
             ∧ (j ∉ l → item t' [x; y; j] = item t [x; y; j]).
Proof.
  induction l as [|j0 l IH]; intros acc t' Hnd H; simpl in H.
  - exists t'. split; [done|]. intros x y j. split; [by intros ?%elem_of_nil | done].
  - apply NoDup_cons in Hnd as [Hj0 Hnd].
    apply (IH _ _ Hnd) in H as (t1 & Hstep & Hitems).
    destruct acc as [t|]; [|done]. cbn [mbind result_bind] in Hstep.
    destruct (index tif (i * nz + j0)) as [p0|] eqn:Hp0; [|done].
    cbn [mbind result_bind] in Hstep.
    destruct (asarray p0) as [arr0|] eqn:Harr0; [|done].
    cbn [mbind result_bind] in Hstep.
    exists t. split; [done|]. intros x y j. split.
    + intros [->|Hj]%elem_of_cons.
      * intros p arr r c Hp Harr Hsh Hx Hy.
        unfold index in Hp0. rewrite Hp in Hp0. injection Hp0 as <-.
        rewrite Harr in Harr0. injection Harr0 as <-.
        rewrite (proj2 (Hitems x y j0) Hj0).
        rewrite (set_plane_item _ _ _ _ c r x y j0 Hstep)
          by (unfold transpose; cbn [shape]; by rewrite Hsh).
        rewrite Nat.eqb_refl. unfold transpose. cbn [item reverse rev_append].
        repeat f_equal.
        -- destruct (Nat.eqb_spec r 1); [lia | done].
        -- destruct (Nat.eqb_spec c 1); [lia | done].
      * by apply (Hitems x y j).
    + intros Hj. apply not_elem_of_cons in Hj as [Hne Hj].
      rewrite (proj2 (Hitems x y j) Hj).
      destruct (set_plane_image_shape _ _ _ _ Hstep) as (a & b & Hsh0).
      rewrite (set_plane_item _ _ _ _ a b x y j Hstep Hsh0).
      destruct (Nat.eqb_spec j j0); [done | reflexivity].
Qed.

(** Chunk [i] holds, at [(x, y, j)], the pixel [(y, x)] of page
    [i * numZ + j], cast to 16 bits. *)
Lemma read_timepoint_item (tif : list TiffPage) (numZ : Z) (sh : nat * nat)
    (i : nat) (v : ndarray Z) (x y j r c : nat) (p : TiffPage) (arr : ndarray Q) :
  read_timepoint tif numZ sh i = Ok v →
  tif !! (i * Z.to_nat numZ + j)%nat = Some p → asarray p = Ok arr →
  shape arr = [r; c] → (x < c)%nat → (y < r)%nat → (j < Z.to_nat numZ)%nat →
  item v [x; y; j] = to_uint16 (item arr [y; x]).
Proof.
  unfold read_timepoint. intros H Hp Harr Hsh Hx Hy Hj.
  destruct (foldl _ _ _) as [t'|] eqn:Ht'; [|done].
  cbn [mbind result_bind mret result_ret] in H. injection H as <-.
  apply read_planes_item in Ht' as (t & _ & Hitems); [|apply NoDup_seq].
  unfold astype_uint16, to_uint16. cbn [item].
  rewrite (proj1 (Hitems x y j) ltac:(apply elem_of_seq; lia) p arr r c); done.
Qed.

(** What a consumer has seen when [consume] returns, from the loop entered at
    iteration [i]. *)
Lemma consume_after_loop_inv (fuel : nat) :
  ∀ (f : frame) (i : nat) (w : World) r w',
    consume_after fuel (iter_calc_tiff_loop f i w) = Some (r, w') →
    match r with
    | Ok chunks =>
        w' = close_handle w
        ∧ length chunks = Z.to_nat (f_timepoints f - Z.of_nat i)
        ∧ ∀ k v, chunks !! k = Some v →
                 read_timepoint (f_tif f) (f_numZ f) (f_pageshape f) (i + k) = Ok v
    | Raise _ => w' = w
    end.
Proof.
  induction fuel as [|fuel IH]; intros f i w r w'; unfold iter_calc_tiff_loop;
    destruct (Z.ltb_spec (Z.of_nat i) (f_timepoints f)) as [Hlt|Hge];
    try (cbn [consume_after]; intros [= <- <-];
         split; [done|]; split; [simpl; lia | by intros k v ?]).
  - destruct (read_timepoint _ _ _ i) as [v|e]; cbn [consume_after consume];
      [done | by intros [= <- <-]].
  - destruct (read_timepoint _ _ _ i) as [v|e] eqn:Hv; cbn [consume_after];
      [|by intros [= <- <-]].
    rewrite consume_S. cbn [next f_i].
    match goal with
    | |- context [iter_calc_tiff_loop ?f' ?i' ?w'] =>
        specialize (IH f' i' w');
          destruct (consume_after fuel (iter_calc_tiff_loop f' i' w'))
            as [[[vs|e] w'']|] eqn:Hr; [| |done]
    end.
    + intros [= <- <-]. destruct (IH _ _ eq_refl) as (-> & Hlen & Hk).
      cbn [f_timepoints f_tif f_numZ f_pageshape] in *.
      split; [done|]. split; [simpl; lia|].
      intros [|k] v'; simpl.
      * intros [= <-]. by rewrite Nat.add_0_r.
      * intros Hv'. apply Hk in Hv'. by replace (i + S k)%nat with (S i + k)%nat by lia.
    + intros [= <- <-]. exact (IH _ _ eq_refl).
Qed.

(** What a consumer that reached the end of the stream has been given. *)
Lemma consume_iter_calc_tiff_Ok (filename : string) (numZ : Z) (w w' : World)
    (fuel : nat) (chunks : list (ndarray Z)) :
  consume fuel (iter_calc_tiff filename numZ) w = Some (Ok chunks, w') →
  ∃ tif p0,
    tiffs w !! filename = Some tif ∧ tif !! 0%nat = Some p0 ∧ numZ ≠ 0
    ∧ w' = w
    ∧ length chunks = Z.to_nat (Z.quot (Z.of_nat (length tif)) numZ)
    ∧ ∀ k v, chunks !! k = Some v →
             read_timepoint tif numZ (page_shape p0) k = Ok v.
Proof.
  destruct fuel as [|fuel]; [done|]. rewrite consume_S.
  cbn [iter_calc_tiff next]. unfold TiffFile.
  destruct (tiffs w !! filename) as [tif|]; [|done].
  destruct (Z.eqb_spec numZ 0) as [->|Hz]; [done|].
  unfold index. destruct (tif !! 0%nat) as [p0|] eqn:Hp0; [|done].
  intros H. apply consume_after_loop_inv in H as (-> & Hlen & Hk).
  cbn [f_timepoints f_tif f_numZ f_pageshape] in *.
  exists tif, p0. rewrite close_open_handle.
  repeat split; try done.
  rewrite Hlen. f_equal. lia.
Qed.

(** X1: a stream that ends normally.  Whatever the pages hold, if the consumer
    reaches the end of the stream then the file existed and had a first page,
    the world is as before, exactly [int(pages/numZ)] chunks were yielded
    (none when that is negative), chunk [k] is the timepoint [k] of the file,
    and every chunk has the shape (columns, rows, numZ) of the first page. *)
Theorem iter_calc_tiff_normal_end (filename : string) (numZ : Z) (w w' : World)
    (fuel : nat) (chunks : list (ndarray Z)) :
  consume fuel (iter_calc_tiff filename numZ) w = Some (Ok chunks, w') →
  ∃ tif p0,
    tiffs w !! filename = Some tif ∧ tif !! 0%nat = Some p0 ∧ numZ ≠ 0
    ∧ w' = w
    ∧ length chunks = chunk_count tif numZ
    ∧ ∀ k v, chunks !! k = Some v →
             read_timepoint tif numZ (page_shape p0) k = Ok v
             ∧ shape v = chunk_shape p0 numZ.
Proof.
  intros H.
  apply consume_iter_calc_tiff_Ok in H as (tif & p0 & Htif & Hp0 & Hz & -> & Hlen & Hk).
  exists tif, p0. repeat split; try done.
  - by apply Hk.
  - apply Hk in H. by apply read_timepoint_shape in H.
Qed.

Lemma iter_calc_tiff_normal_end_witness :
  ∃ tif p0,
    tiffs (example_world "calcium.tiff" example_seven_pages) !! "calcium.tiff" = Some tif
    ∧ tif !! 0%nat = Some p0
    ∧ chunk_count tif 2 = 3%nat.
Proof.
  destruct (consume 10 (iter_calc_tiff "calcium.tiff" 2)
              (example_world "calcium.tiff" example_seven_pages))
    as [[[chunks|e] w']|] eqn:Hrun.
  - destruct (iter_calc_tiff_normal_end _ _ _ _ _ _ Hrun)
      as (tif & p0 & Htif & Hp0 & _ & _ & Hlen & _).
    exists tif, p0. split; [exact Htif|]. split; [exact Hp0|].
    rewrite <- Hlen.
    assert (H : consume_summary
                  (consume 10 (iter_calc_tiff "calcium.tiff" 2)
                     (example_world "calcium.tiff" example_seven_pages))
                = Some (Ok 3%nat, 0%nat)) by (vm_compute; reflexivity).
    rewrite Hrun in H. by injection H.
  - exfalso.
    assert (H : consume_summary
                  (consume 10 (iter_calc_tiff "calcium.tiff" 2)
                     (example_world "calcium.tiff" example_seven_pages))
                = Some (Ok 3%nat, 0%nat)) by (vm_compute; reflexivity).
    rewrite Hrun in H. discriminate H.
  - exfalso.
    assert (H : consume_summary
                  (consume 10 (iter_calc_tiff "calcium.tiff" 2)
                     (example_world "calcium.tiff" example_seven_pages))
                = Some (Ok 3%nat, 0%nat)) by (vm_compute; reflexivity).
    rewrite Hrun in H. discriminate H.
Defined.

(** X2: the pixels of a chunk.  In a stream that ends normally, chunk [i]
    holds at [(x, y, j)] the pixel (row [y], column [x]) of page
    [i * numZ + j], taken to 16 bits: pages are transposed and stacked along
    the last axis. *)
Theorem iter_calc_tiff_chunk_pixels (filename : string) (numZ : Z) (w w' : World)
    (fuel : nat) (chunks : list (ndarray Z)) (tif : list TiffPage)
    (i j x y r c : nat) (v : ndarray Z) (p : TiffPage) (arr : ndarray Q) :
  consume fuel (iter_calc_tiff filename numZ) w = Some (Ok chunks, w') →
  tiffs w !! filename = Some tif →
  chunks !! i = Some v →
  tif !! (i * Z.to_nat numZ + j)%nat = Some p → asarray p = Ok arr →
  shape arr = [r; c] → (x < c)%nat → (y < r)%nat → (j < Z.to_nat numZ)%nat →
  item v [x; y; j] = to_uint16 (item arr [y; x]).
Proof.
  intros Hrun Htif Hv Hp Harr Hsh Hx Hy Hj.
  destruct (consume_iter_calc_tiff_Ok _ _ _ _ _ _ Hrun)
    as (tif' & p0 & Htif' & _ & _ & _ & _ & Hk).
  rewrite Htif in Htif'. injection Htif' as <-.
  pose proof (Hk i v Hv) as Hread.
  exact (read_timepoint_item _ _ _ _ _ _ _ _ _ _ _ _ Hread Hp Harr Hsh Hx Hy Hj).
Qed.

Lemma iter_calc_tiff_chunk_pixels_witness :
  ∃ chunks v,
    fst <$> consume 5 (iter_calc_tiff "calcium.tiff" 2)
              (example_world "calcium.tiff" example_four_pages) = Some (Ok chunks)
    ∧ chunks !! 1%nat = Some v
    ∧ item v [2; 1; 1]%nat = 12.
Proof.
  destruct (consume 5 (iter_calc_tiff "calcium.tiff" 2)
              (example_world "calcium.tiff" example_four_pages))
    as [[[chunks|e] w']|] eqn:Hrun.
  - assert (Hlen : consume_summary
                     (consume 5 (iter_calc_tiff "calcium.tiff" 2)
                        (example_world "calcium.tiff" example_four_pages))
                   = Some (Ok 2%nat, 0%nat)) by (vm_compute; reflexivity).
    rewrite Hrun in Hlen. injection Hlen as Hlen.
    destruct (lookup_lt_is_Some_2 chunks 1) as [v Hv]; [lia|].
    exists chunks, v. split; [reflexivity|]. split; [exact Hv|].
    rewrite (iter_calc_tiff_chunk_pixels "calcium.tiff" 2 _ _ _ _ example_four_pages
               1 1 2 1 2 3 v (example_gradient_page 2 3) (example_gradient_array 2 3)
               Hrun); try reflexivity; try lia; try exact Hv.
  - exfalso.
    assert (H : consume_summary
                  (consume 5 (iter_calc_tiff "calcium.tiff" 2)
                     (example_world "calcium.tiff" example_four_pages))
                = Some (Ok 2%nat, 0%nat)) by (vm_compute; reflexivity).
    rewrite Hrun in H. discriminate H.
  - exfalso.
    assert (H : consume_summary
                  (consume 5 (iter_calc_tiff "calcium.tiff" 2)
                     (example_world "calcium.tiff" example_four_pages))
                = Some (Ok 2%nat, 0%nat)) by (vm_compute; reflexivity).
    rewrite Hrun in H. discriminate H.
Defined.

(** X3: a stream that raises.  If the file is missing, the first [next()]
    raises [FileNotFoundError] and no handle is opened.  In every other case
    in which the stream raises (a page count of zero, a file without pages,
    a page that cannot be decoded or does not fit the chunk), the handle the
    reader has opened is still open afterwards: the world is the one before
    with one more open handle. *)
Theorem iter_calc_tiff_raises (filename : string) (numZ : Z) (w w' : World)
    (fuel : nat) (e : exn) :
  consume fuel (iter_calc_tiff filename numZ) w = Some (Raise e, w') →
  (tiffs w !! filename = None ∧ e = FileNotFoundError ∧ w' = w)
  ∨ (is_Some (tiffs w !! filename) ∧ w' = open_handle w).
Proof.
  destruct fuel as [|fuel]; [done|]. rewrite consume_S.
  cbn [iter_calc_tiff next]. unfold TiffFile.
  destruct (tiffs w !! filename) as [tif|]; [|intros [= <- <-]; by left].
  intros H. right. split; [by eexists|].
  destruct (numZ =? 0); [by injection H as <- <-|].
  destruct (index tif 0) as [p0|]; [|by injection H as <- <-].
  by apply consume_after_loop_inv in H.
Qed.

Lemma iter_calc_tiff_raises_witness :
  ∃ e w',
    consume 4 (iter_calc_tiff "calcium.tiff" 12)
      (example_world "calcium.tiff" example_broken_second_timepoint)
    = Some (Raise e, w')
    ∧ open_handles w' = 1%nat.
Proof.
  assert (H : consume_summary
                (consume 4 (iter_calc_tiff "calcium.tiff" 12)
                   (example_world "calcium.tiff" example_broken_second_timepoint))
              = Some (Raise OSError, 1%nat)) by (vm_compute; reflexivity).
  destruct (consume 4 (iter_calc_tiff "calcium.tiff" 12)
              (example_world "calcium.tiff" example_broken_second_timepoint))
    as [[[chunks|e] w']|] eqn:Hrun; [discriminate H | | discriminate H].
  exists e, w'. split; [reflexivity|].
  destruct (iter_calc_tiff_raises _ _ _ _ _ _ Hrun) as [(Hnone & _)|(_ & ->)].
  - exfalso. vm_compute in Hnone. discriminate Hnone.
  - reflexivity.
Defined.

(** X4: degenerate page counts.  With [numZ = 0] the first [next()] raises
    [ZeroDivisionError] after the file has been opened.  With [numZ < 0], or
    with fewer pages than [numZ], the stream of a file that has a first page
    is empty and ends normally with the file closed.  A file without pages
    raises [IndexError] at line 198, whatever [numZ] is. *)
Theorem iter_calc_tiff_degenerate (filename : string) (numZ : Z)
    (tif : list TiffPage) (w : World) :
  tiffs w !! filename = Some tif →
  (numZ = 0 →
   next (iter_calc_tiff filename numZ) w
   = (Raised ZeroDivisionError, Finished, open_handle w))
  ∧ (numZ ≠ 0 → tif = [] →
     next (iter_calc_tiff filename numZ) w
     = (Raised IndexError, Finished, open_handle w))
  ∧ (tif ≠ [] → numZ < 0 ∨ Z.of_nat (length tif) < numZ →
     next (iter_calc_tiff filename numZ) w = (StopIteration, Finished, w)).
Proof.
  intros Hfile. cbn [iter_calc_tiff next]. unfold TiffFile. rewrite Hfile.
  repeat split.
  - by intros ->.
  - intros Hz ->. by rewrite (proj2 (Z.eqb_neq _ _) Hz).
  - intros Hne Hz. rewrite (proj2 (Z.eqb_neq numZ 0)) by lia.
    destruct tif as [|p0 tif']; [done|]. cbn [index lookup list_lookup].
    unfold iter_calc_tiff_loop. cbn [f_timepoints].
    rewrite (proj2 (Z.ltb_ge _ _)), close_open_handle; [done|].
    destruct Hz as [Hz|Hz].
    + rewrite <- (Z.opp_involutive numZ), Z.quot_opp_r by lia.
      pose proof (Z.quot_pos (Z.of_nat (length (p0 :: tif'))) (- numZ)
                    ltac:(lia) ltac:(lia)).
      lia.
    + rewrite Z.quot_small; lia.
Qed.

Lemma iter_calc_tiff_degenerate_witness :
  next (iter_calc_tiff "calcium.tiff" 0)
    (example_world "calcium.tiff" example_two_timepoints)
  = (Raised ZeroDivisionError, Finished,
     open_handle (example_world "calcium.tiff" example_two_timepoints)).
Proof.
  apply (iter_calc_tiff_degenerate "calcium.tiff" 0 example_two_timepoints);
    reflexivity.
Defined.

(** ** [process_NP_FOCO_Ray], lines 350-363: the table grouped by blob *)

Lemma unique_elem_of (l : list Z) (x : Z) : x ∈ unique l ↔ x ∈ l.
Proof.
  induction l as [|y l IH]; simpl; [done|].
  rewrite !elem_of_cons, list_elem_of_filter, IH.
  destruct (decide (x = y)); tauto.
Qed.

Lemma unique_NoDup (l : list Z) : NoDup (unique l).
Proof.
  induction l as [|y l IH]; simpl; [constructor|].
  apply NoDup_cons. split.
  - rewrite list_elem_of_filter. tauto.
  - by apply NoDup_filter.
Qed.

Lemma bq_shape1_app (acc : blobquant_t) (bs : list (list gce_row)) :
  acc ≠ [] → bq_shape1 (acc ++ bs)%list = bq_shape1 acc.
Proof. by destruct acc. Qed.

(** The loop of lines 355-363 once [blobquant] is bound. *)
Lemma build_blobquant_loop (gce_quant : list gce_row) (ids : list Z) :
  ∀ acc : blobquant_t,
    acc ≠ [] →
    foldl (λ acc idx,
             blobquant ← acc;
             let blob := filter (λ r, g_blob_ix r = idx) gce_quant in
             match blobquant with
             | None => mret (Some [blob])
             | Some bq => Some <$> vstack bq blob
             end) (Ok (Some acc)) ids
    = if forallb (λ b, (length b =? bq_shape1 acc)%nat)
                 ((λ idx, filter (λ r, g_blob_ix r = idx) gce_quant) <$> ids)
      then Ok (Some (acc ++ ((λ idx, filter (λ r, g_blob_ix r = idx) gce_quant) <$> ids))%list)
      else Raise ValueError.
Proof.
  induction ids as [|idx ids IH]; intros acc Hacc; simpl.
  - by rewrite app_nil_r.
  - cbn [mbind result_bind]. unfold vstack. rewrite (Nat.eqb_sym (length _)).
    destruct (bq_shape1 acc =? _)%nat eqn:Hlen; cbn [fmap result_fmap andb].
    + rewrite IH by (by destruct acc). rewrite bq_shape1_app by done.
      by rewrite <- app_assoc.
    + clear. induction ids as [|? ? IH']; simpl; [done|]. exact IH'.
Qed.

(** The loop of lines 354-363 in closed form: [None] on an empty table;
    otherwise the rows grouped by [blob_ix], if the groups all have as many
    rows as the first one, and the [ValueError] of [np.vstack] if not. *)
Lemma build_blobquant_blobs_of (gce_quant : list gce_row) :
  build_blobquant gce_quant
  = match blobs_of gce_quant with
    | [] => Ok None
    | b0 :: rest =>
        if forallb (λ b, (length b =? length b0)%nat) rest
        then Ok (Some (b0 :: rest))
        else Raise ValueError
    end.
Proof.
  unfold build_blobquant, blobs_of.
  destruct (unique (g_blob_ix <$> gce_quant)) as [|idx ids]; [done|].
  cbn [foldl mbind result_bind mret result_ret fmap list_fmap].
  by rewrite build_blobquant_loop.
Qed.

Lemma blobs_of_concat_aux (l : list gce_row) :
  ∀ ids : list Z,
    NoDup ids → (∀ r, r ∈ l → g_blob_ix r ∈ ids) →
    concat ((λ idx, filter (λ r, g_blob_ix r = idx) l) <$> ids) ≡ₚ l.
Proof.
  induction l as [|r l IH]; intros ids Hnd Hin.
  - clear. induction ids as [|? ? IH']; simpl; [done|]. exact IH'.
  - assert (Hr : g_blob_ix r ∈ ids) by (apply Hin; left).
    trans (r :: concat ((λ idx, filter (λ r0, g_blob_ix r0 = idx) l) <$> ids));
      [|constructor; apply (IH ids Hnd); intros r' Hr'; apply Hin; by right].
    clear IH Hin. induction ids as [|id ids IHids]; [by apply elem_of_nil in Hr|].
    apply NoDup_cons in Hnd as [Hid Hnd]. cbn [fmap list_fmap concat].
    rewrite filter_cons. destruct (decide (g_blob_ix r = id)) as [Heq|Hne].
    + simpl. constructor. apply Permutation_app_head.
      assert (Hsame : ∀ ids' : list Z, g_blob_ix r ∉ ids' →
                (λ idx, filter (λ r0, g_blob_ix r0 = idx) (r :: l)) <$> ids'
                = (λ idx, filter (λ r0, g_blob_ix r0 = idx) l) <$> ids').
      { clear. induction ids' as [|id' ids' IH']; intros Hni; [done|].
        apply not_elem_of_cons in Hni as [Hne Hni]. cbn [fmap list_fmap].
        rewrite filter_cons_False by done. f_equal. by apply IH'. }
      rewrite Hsame by (by rewrite Heq). done.
    + apply elem_of_cons in Hr as [Hr|Hr]; [done|].
      rewrite (IHids Hnd Hr). symmetry. apply Permutation_middle.
Qed.

(** X5: the groups partition the table.  When [blobquant] is built, it has one
    group per distinct [blob_ix], every group has the same number T >= 1 of
    rows, all rows of a group carry the same [blob_ix] and stand in file
    order, and the groups together hold exactly the rows of the table: no row
    is lost or used twice. *)
Theorem build_blobquant_partition (gce_quant : list gce_row) (blobquant : blobquant_t) :
  build_blobquant gce_quant = Ok (Some blobquant) →
  length blobquant = length (unique (g_blob_ix <$> gce_quant))
  ∧ (0 < bq_shape1 blobquant)%nat
  ∧ Forall (λ b, length b = bq_shape1 blobquant
                 ∧ b `sublist_of` gce_quant
                 ∧ ∃ idx, Forall (λ r, g_blob_ix r = idx) b) blobquant
  ∧ concat blobquant ≡ₚ gce_quant.
Proof.
  rewrite build_blobquant_blobs_of. intros H.
  assert (Hbq : blobquant = blobs_of gce_quant
                ∧ Forall (λ b, length b = bq_shape1 blobquant) blobquant).
  { destruct (blobs_of gce_quant) as [|b0 rest]; [done|].
    destruct (forallb _ rest) eqn:Hall; [|done]. injection H as <-.
    split; [done|]. constructor; [done|].
    apply Forall_forall. intros b Hb. rewrite forallb_forall in Hall.
    apply list_elem_of_In, Hall, Nat.eqb_eq in Hb. done. }
  destruct Hbq as [-> Hlen]. unfold blobs_of in *.
  split; [by rewrite length_fmap|]. split.
  - destruct (unique (g_blob_ix <$> gce_quant)) as [|idx ids] eqn:Hids; [done|].
    assert (Hin : idx ∈ g_blob_ix <$> gce_quant)
      by (apply unique_elem_of; rewrite Hids; left).
    apply list_elem_of_fmap in Hin as (r & Hidx & Hr).
    assert (Hmem : r ∈ filter (λ r0, g_blob_ix r0 = idx) gce_quant)
      by by apply list_elem_of_filter.
    unfold bq_shape1. cbn [fmap list_fmap head from_option id].
    destruct (filter (λ r0, g_blob_ix r0 = idx) gce_quant) as [|? ?];
      [by apply elem_of_nil in Hmem | simpl; lia].
  - split.
    + apply Forall_forall. intros b Hb.
      split; [by apply (proj1 (Forall_forall _ _) Hlen)|].
      apply list_elem_of_fmap in Hb as (idx & -> & _).
      split; [apply sublist_filter|]. exists idx.
      apply Forall_forall. by intros r [? _]%list_elem_of_filter.
    + apply blobs_of_concat_aux; [apply unique_NoDup|].
      intros r Hr. apply unique_elem_of, list_elem_of_fmap. eauto.
Qed.

Lemma build_blobquant_partition_witness :
  ∃ blobquant,
    build_blobquant (gce_quantification_csv example_ray_inputs) = Ok (Some blobquant)
    ∧ length blobquant = 2%nat
    ∧ concat blobquant ≡ₚ gce_quantification_csv example_ray_inputs.
Proof.
  eexists. split; [vm_compute; reflexivity|].
  split; [reflexivity|].
  eapply (build_blobquant_partition (gce_quantification_csv example_ray_inputs)).
  vm_compute. reflexivity.
Defined.

Lemma filter_blob_set_T (f : Z → Z) (idx : Z) (l : list gce_row) :
  filter (λ r, g_blob_ix r = idx) (set_T f <$> l)
  = set_T f <$> filter (λ r, g_blob_ix r = idx) l.
Proof.
  induction l as [|r l IH]; [done|]. cbn [fmap list_fmap].
  rewrite !filter_cons. cbn [set_T g_blob_ix].
  destruct (decide (g_blob_ix r = idx)); cbn [fmap list_fmap]; by rewrite IH.
Qed.

Lemma blobs_of_set_T (f : Z → Z) (gce_quant : list gce_row) :
  blobs_of (set_T f <$> gce_quant) = retime f (blobs_of gce_quant).
Proof.
  unfold blobs_of, retime. rewrite <- list_fmap_compose.
  rewrite (list_fmap_ext (g_blob_ix ∘ set_T f) g_blob_ix gce_quant) by done.
  rewrite <- list_fmap_compose. apply list_fmap_ext.
  intros i idx _. apply filter_blob_set_T.
Qed.

(** X6: the [T] column is never consulted.  Rewriting the [T] entries of the
    table in any way changes nothing but those entries in [blobquant]: the
    grouping, its success or failure, and the coordinates and signal values
    taken per blob and position are the same.  Timepoint [t] of a blob is its
    [t]-th row in file order. *)
Theorem build_blobquant_ignores_T (f : Z → Z) (gce_quant : list gce_row) :
  build_blobquant (set_T f <$> gce_quant)
  = (λ o : option blobquant_t, retime f <$> o) <$> build_blobquant gce_quant
  ∧ ∀ (blobquant : blobquant_t) (t : nat) (idx : list nat),
      shape (bq_xyz (retime f blobquant) t) = shape (bq_xyz blobquant t)
      ∧ item (bq_xyz (retime f blobquant) t) idx = item (bq_xyz blobquant t) idx
      ∧ shape (bq_quant (retime f blobquant)) = shape (bq_quant blobquant)
      ∧ item (bq_quant (retime f blobquant)) idx = item (bq_quant blobquant) idx.
Proof.
  split.
  - rewrite !build_blobquant_blobs_of, blobs_of_set_T.
    destruct (blobs_of gce_quant) as [|b0 rest]; [done|].
    unfold retime. cbn [fmap list_fmap]. rewrite length_fmap.
    assert (forallb (λ b, (length b =? length b0)%nat)
                    ((λ rows : list gce_row, set_T f <$> rows) <$> rest)
            = forallb (λ b, (length b =? length b0)%nat) rest) as ->.
    { clear. induction rest as [|b rest IH]; [done|].
      cbn [fmap list_fmap forallb]. by rewrite length_fmap, IH. }
    by destruct (forallb _ rest).
  - intros blobquant t idx.
    assert (Hcell : ∀ b t', bq_cell (retime f blobquant) b t'
                            = set_T f <$> bq_cell blobquant b t').
    { intros b t'. unfold bq_cell, retime, blobquant_t in *.
      rewrite list_lookup_fmap.
      destruct (blobquant !! b) as [rows|]; [|done]. simpl.
      by rewrite list_lookup_fmap. }
    assert (Hsh1 : bq_shape1 (retime f blobquant) = bq_shape1 blobquant).
    { unfold bq_shape1, retime. destruct blobquant as [|b0 ?]; [done|].
      cbn [fmap list_fmap head from_option id]. by rewrite length_fmap. }
    unfold bq_xyz, bq_quant. cbn [shape item].
    rewrite Hsh1. unfold retime at 1 3. rewrite !length_fmap. repeat split.
    + destruct idx as [|b [|c [|? ?]]]; try done. rewrite Hcell.
      by destruct (bq_cell blobquant b t).
    + destruct idx as [|b [|t' [|? ?]]]; try done. rewrite Hcell.
      by destruct (bq_cell blobquant b t').
Qed.

(** X7: ragged and empty tables.  A table in which two blobs have different
    numbers of rows makes line 363 raise [ValueError]; an empty table leaves
    [blobquant] at [None]. *)
Theorem build_blobquant_ragged (gce_quant : list gce_row) (b0 b : list gce_row)
    (rest : list (list gce_row)) :
  blobs_of gce_quant = b0 :: rest → b ∈ rest → length b ≠ length b0 →
  build_blobquant gce_quant = Raise ValueError.
Proof.
  intros Hblobs Hb Hlen. rewrite build_blobquant_blobs_of, Hblobs.
  destruct (forallb _ rest) eqn:Hall; [|done].
  rewrite forallb_forall in Hall. apply list_elem_of_In, Hall, Nat.eqb_eq in Hb. done.
Qed.

Lemma build_blobquant_ragged_witness :
  build_blobquant example_ragged_gce = Raise ValueError.
Proof.
  eapply (build_blobquant_ragged example_ragged_gce).
  - vm_compute. reflexivity.
  - apply list_elem_of_here.
  - vm_compute. discriminate.
Defined.

(** ** [process_NP_FOCO_Ray]: the file as a whole *)

Ltac conj_split :=
  lazymatch goal with
  | |- _ ∧ _ => split; [|conj_split]
  | _ => idtac
  end.

Lemma TiffFile_Ok (filename : string) (w w1 : World) (tif : list TiffPage) :
  TiffFile filename w = (Ok tif, w1) →
  tiffs w !! filename = Some tif ∧ w1 = open_handle w.
Proof.
  unfold TiffFile. destruct (tiffs w !! filename) as [t|]; [|done].
  by intros [= <- <-].
Qed.

Lemma index_Ok {A} (l : list A) (i : nat) (x : A) :
  index l i = Ok x → l !! i = Some x.
Proof. unfold index. destruct (l !! i); [|done]. by intros [= <-]. Qed.

Lemma load_global_Ok (x : option string) (v : string) :
  load_global x = Ok v → x = Some v.
Proof. destruct x; [|done]. by intros [= <-]. Qed.

Lemma write_nwb_Ok path nwbfile w out w' :
  write_nwb path nwbfile w = (Ok out, w') →
  ∃ w1, write_acquisition (map_to_list (acquisition nwbfile)) (open_handle w)
        = (Ok (w_chunks out), w1)
        ∧ w' = close_handle w1
        ∧ w_path out = path ∧ w_nwbfile out = nwbfile.
Proof.
  unfold write_nwb. intros H.
  apply bind_inv in H as (u0 & w0 & H0 & H).
  apply bind_inv in H as (chunks & w1 & Hacq & H).
  apply bind_inv in H as (u2 & w2 & H2 & H).
  simpl in H0, H2. injection H0 as <-. injection H2 as <-.
  unfold mret, M_ret in H. injection H as <- <-. simpl. subst. eauto.
Qed.

(** What a successful run has fixed in the file outside the processing
    modules, and the write it ends with. *)
Lemma process_NP_FOCO_Ray_file g inp dp ds strain w out w' :
  process_NP_FOCO_Ray g inp dp ds strain w = (Ok out, w') →
  ∃ sst dob fld NP_ImVol Proc_ImVol Calc_ImVol NP_image Calc_ImSeries proc_channels
    tif page,
    session_start_time_of ds = Ok sst ∧ dob_of ds = Ok dob
    ∧ folder g = Some fld
    ∧ identifier (w_nwbfile out) = ds
    ∧ session_start_time (w_nwbfile out) = sst
    ∧ subject (w_nwbfile out) = Some (ray_subject ds strain dob)
    ∧ imaging_planes (w_nwbfile out)
      = <["CalciumImVol" := Calc_ImVol]>
          (<["ProcessedImVol" := Proc_ImVol]> (<["NeuroPALImVol" := NP_ImVol]> ∅))
    ∧ ocr_channels (iv_order_optical_channels NP_ImVol)
      = (λ ch : channel_spec, ch.2) <$> channels_for fld
    ∧ length (optical_channel_plus NP_ImVol) = length (channels_for fld)
    ∧ for_each (λ i, index (channels_for fld) (Z.to_nat i)) (RGBW_for fld)
      = Ok proc_channels
    ∧ ocr_channels (iv_order_optical_channels Proc_ImVol)
      = (λ ch : channel_spec, ch.2) <$> proc_channels
    ∧ length (optical_channel_plus Proc_ImVol) = length proc_channels
    ∧ grid_spacing NP_ImVol = mat_scale inp
    ∧ grid_spacing Proc_ImVol = default_grid_spacing
    ∧ grid_spacing Calc_ImVol = Calc_scale_for fld
    ∧ acquisition (w_nwbfile out)
      = <["CalciumImageSeries" := AcqSeries Calc_ImSeries]>
          (<["NeuroPALImageRaw" := AcqVolume NP_image]> ∅)
    ∧ RGBW_channels NP_image = RGBW_for fld
    ∧ mcv_imaging_volume NP_image = NP_ImVol
    ∧ mcv_data NP_image = transpose (full_comp_tif inp)
    ∧ mcvs_data Calc_ImSeries
      = H5DataIO (DataChunkIterator (iter_calc_tiff (Calc_file_of dp ds) 12) 10) "gzip" 4
    ∧ mcvs_imaging_volume Calc_ImSeries = Calc_ImVol
    ∧ dimension Calc_ImSeries = [(page_shape page).1; (page_shape page).2; 12%nat]
    ∧ tiffs w !! Calc_file_of dp ds = Some tif
    ∧ tif !! 0%nat = Some page
    ∧ write_nwb (nwb_path_of dp ds) (w_nwbfile out) (open_handle w) = (Ok out, w').
Proof.
  intros H. unfold process_NP_FOCO_Ray in H.
  step H sst Hsst. step H dob Hdob.
  step H nd Hnd. destruct nd as [nwb1 microscope].
  apply create_device_Ok in Hnd as [-> ->].
  step H fld Hfld.
  rewrite channel_choice in H.
  step H r1 Hr1. destruct r1 as [[nwb2 NP_ImVol] NP_OptChanRef].
  apply create_im_vol_Ok in Hr1 as (NPch & HNPch & -> & HNPvol & ->).
  step H nwb3 Hnwb3. apply add_acquisition_Ok in Hnwb3 as ->.
  step H NeuroPALNeurons HNP.
  step H nwb4 Hnwb4. apply create_processing_module_Ok in Hnwb4 as ->.
  step_module_add H. step_module_add H.
  step H proc_channels Hpc.
  step H r2 Hr2. destruct r2 as [[nwb5 Proc_ImVol] Proc_OptChanRef].
  apply create_im_vol_Ok in Hr2 as (Pch & HPch & -> & HPvol & ->).
  step H proc_data Hproc.
  step H nwb6 Hnwb6. apply create_processing_module_Ok in Hnwb6 as ->.
  step_module_add H. step_module_add H.
  step H fld2 Hfld2. rewrite Hfld in Hfld2. injection Hfld2 as <-.
  step H r3 Hr3. destruct r3 as [[nwb7 Calc_ImVol] Calc_OptChanRef].
  apply create_im_vol_Ok in Hr3 as (Cch & HCch & -> & HCvol & ->).
  apply bind_inv in H as (tif & w1 & Htif & H).
  step H page Hpage. cbv zeta in H.
  step H nwb8 Hnwb8. apply add_acquisition_Ok in Hnwb8 as ->.
  step H bq0 Hbq.
  destruct bq0 as [blobquant|]; [|apply bind_lift_inv in H as (? & [=] & _)].
  apply bind_lift_inv in H as (bq' & [= <-] & H).
  step H volsegs Hvolsegs. step H volsegs0 Hv0. step H rt_region Hrt.
  step H nwb9 Hnwb9. apply create_processing_module_Ok in Hnwb9 as ->.
  step_module_add H. step_module_add H. step_module_add H.
  apply TiffFile_Ok in Htif as [Hfile ->]. fold (Calc_file_of dp ds) in Hfile.
  apply index_Ok in Hpage. apply load_global_Ok in Hfld.
  pose proof (write_nwb_inv _ _ _ _ _ H) as [_ Hnwb].
  rewrite <- Hnwb in H at 1.
  change (_ +:+ _) with (nwb_path_of dp ds) in H.
  apply for_each_lookup in HNPch as [HNPlen _].
  apply for_each_lookup in HPch as [HPlen _].
  exists sst, dob, fld, NP_ImVol, Proc_ImVol, Calc_ImVol.
  do 2 eexists. exists proc_channels, tif, page.
  split; [done|]. split; [done|]. split; [done|].
  conj_split; [..|exact H]; clear H;
    rewrite ?Hnwb; nwb_fields;
    cbn [identifier session_start_time subject acq_name create_image create_calc_series
         mcv_name mcvs_name];
    subst NP_ImVol Proc_ImVol Calc_ImVol;
    cbn [iv_order_optical_channels ocr_channels optical_channel_plus grid_spacing];
    first [reflexivity | eassumption].
Qed.

(** X8: the world and the chunks after a successful run.  The handle of the
    [TiffFile] of line 323 is never closed by the code: the run returns with
    one more open handle and the same files.  The file is written at
    [datapath/NWB_Ray/dataset.nwb]; the only chunked data set in it is
    "CalciumImageSeries", holding [int(pages/12)] chunks, chunk [k] being
    timepoint [k] of the calcium TIFF in the shape (columns, rows, 12). *)
Theorem process_NP_FOCO_Ray_written g inp dp ds strain w out w' :
  process_NP_FOCO_Ray g inp dp ds strain w = (Ok out, w') →
  w' = open_handle w
  ∧ w_path out = nwb_path_of dp ds
  ∧ ∃ tif page chunks,
      tiffs w !! Calc_file_of dp ds = Some tif ∧ tif !! 0%nat = Some page
      ∧ w_chunks out = {[ "CalciumImageSeries" := chunks ]}
      ∧ length chunks = chunk_count tif 12
      ∧ ∀ k v, chunks !! k = Some v →
               read_timepoint tif 12 (page_shape page) k = Ok v
               ∧ shape v = chunk_shape page 12.
Proof.
  intros H.
  apply process_NP_FOCO_Ray_file in H
    as (sst & dob & fld & NP_ImVol & Proc_ImVol & Calc_ImVol & NP_image
        & Calc_ImSeries & proc_channels & tif & page & _ & _ & _ & _ & _ & _ & _
        & _ & _ & _ & _ & _ & _ & _ & _ & Hacq & _ & _ & _ & Hdata & _ & _
        & Htif & Hpage & Hwrite).
  apply write_nwb_Ok in Hwrite as (w1 & Hw & -> & Hpath & _).
  rewrite Hacq in Hw.
  assert (Hlist : map_to_list
            (<["CalciumImageSeries" := AcqSeries Calc_ImSeries]>
               (<["NeuroPALImageRaw" := AcqVolume NP_image]> ∅))
          = [("CalciumImageSeries", AcqSeries Calc_ImSeries);
             ("NeuroPALImageRaw", AcqVolume NP_image)]) by (vm_compute; reflexivity).
  rewrite Hlist in Hw. clear Hlist.
  cbn [write_acquisition foldr] in Hw. rewrite Hdata in Hw.
  apply bind_inv in Hw as (c & w2 & Hc & Hw).
  cbn [write_series_data] in Hc.
  destruct (consume _ _ _) as [[[vs|e] w3]|] eqn:Hrun in Hc; [|done|done].
  injection Hc as <- <-.
  apply consume_iter_calc_tiff_Ok in Hrun
    as (tif' & page' & Htif' & Hpage' & _ & -> & Hlen & Hk).
  cbn [tiffs open_handle] in Htif'. rewrite Htif in Htif'. injection Htif' as <-.
  rewrite Hpage in Hpage'. injection Hpage' as <-.
  apply bind_inv in Hw as (cs & w4 & Hcs & Hw).
  injection Hcs as <- <-. injection Hw as Hchunks <-.
  rewrite !close_open_handle.
  split; [done|]. split; [done|].
  exists tif, page, vs. rewrite <- Hchunks.
  split; [done|]. split; [done|]. split; [done|]. split; [exact Hlen|].
  intros k v Hv. split; [by apply Hk|].
  apply Hk in Hv. by apply read_timepoint_shape in Hv.
Qed.

Lemma process_NP_FOCO_Ray_written_witness :
  ∃ out,
    (process_NP_FOCO_Ray example_globals example_ray_inputs example_datapath
       example_dataset "FC121" example_ray_world)
    = (Ok out, open_handle example_ray_world)
    ∧ w_path out = "/data/NWB_Ray/20221028-18-48-00.nwb".
Proof.
  assert (H : raised (process_NP_FOCO_Ray example_globals example_ray_inputs
                        example_datapath example_dataset "FC121" example_ray_world)
              = None) by (vm_compute; reflexivity).
  destruct (process_NP_FOCO_Ray example_globals example_ray_inputs example_datapath
              example_dataset "FC121" example_ray_world) as [[out|e] w'] eqn:Hrun;
    [|discriminate H].
  destruct (process_NP_FOCO_Ray_written _ _ _ _ _ _ _ _ Hrun) as (-> & Hpath & _).
  exists out. split; [reflexivity | exact Hpath].
Defined.


(** ** [process_NP_FOCO_Ray]: the segmentations and the responses *)

(** A built [blobquant] is the grouped table, all groups of one length. *)
Lemma build_blobquant_Some (gce_quant : list gce_row) (blobquant : blobquant_t) :
  build_blobquant gce_quant = Ok (Some blobquant) →
  blobquant = blobs_of gce_quant
  ∧ blobquant ≠ []
  ∧ Forall (λ b, length b = bq_shape1 blobquant) blobquant.
Proof.
  rewrite build_blobquant_blobs_of. intros H.
  destruct (blobs_of gce_quant) as [|b0 rest]; [done|].
  destruct (forallb _ rest) eqn:Hall; [|done]. injection H as <-.
  split; [done|]. split; [done|]. constructor; [done|].
  apply Forall_forall. intros b Hb. rewrite forallb_forall in Hall.
  apply list_elem_of_In, Hall, Nat.eqb_eq in Hb. done.
Qed.

(** Every group of the grouped table has a row. *)
Lemma blobs_of_nonempty (gce_quant : list gce_row) :
  Forall (λ b, b ≠ []) (blobs_of gce_quant).
Proof.
  apply Forall_forall. intros b Hb. unfold blobs_of in Hb.
  apply list_elem_of_fmap in Hb as (idx & -> & Hidx).
  apply unique_elem_of, list_elem_of_fmap in Hidx as (r & Hidx & Hr).
  assert (Hmem : r ∈ filter (λ r0, g_blob_ix r0 = idx) gce_quant)
    by by apply list_elem_of_filter.
  intros Hnil. rewrite Hnil in Hmem. by apply elem_of_nil in Hmem.
Qed.

(** Squeezing a (N, 3) array with N other than 1 leaves its entries. *)
Lemma squeeze_item (positions : ndarray Q) (N b c : nat) :
  shape positions = [N; 3%nat] → N ≠ 1%nat →
  item (squeeze positions) [b; c] = item positions [b; c].
Proof.
  intros Hsh HN. unfold squeeze. cbn [item]. rewrite Hsh. cbn [unsqueeze].
  destruct (Nat.eqb_spec N 1); [done|]. reflexivity.
Qed.

(** The number of blobs and of timepoints of a successful run, and its
    segmentations in terms of [blobquant]. *)
Lemma process_NP_FOCO_Ray_blobs g inp dp ds strain w out w' :
  process_NP_FOCO_Ray g inp dp ds strain w = (Ok out, w') →
  ∃ T rs,
    (2 <= length (blobs_of (gce_quantification_csv inp)))%nat ∧ (0 < T)%nat
    ∧ Forall (λ b, length b = T) (blobs_of (gce_quantification_csv inp))
    ∧ length (segmentations (w_nwbfile out) "CalciumActivity" "CalciumSeriesSegmentation")
      = T
    ∧ (∀ t vs,
         segmentations (w_nwbfile out) "CalciumActivity" "CalciumSeriesSegmentation" !! t
         = Some vs →
         voxel_mask vs
         = roi_of_row (bq_xyz (blobs_of (gce_quantification_csv inp)) t)
             <$> seq 0 (length (blobs_of (gce_quantification_csv inp))))
    ∧ response_series (w_nwbfile out) "CalciumActivity" "SignalDFoF" = Some rs
    ∧ rrs_data rs = transpose (bq_quant (blobs_of (gce_quantification_csv inp)))
    ∧ region (rois rs) = arange (length (blobs_of (gce_quantification_csv inp)))
    ∧ Some (table (rois rs))
      = segmentations (w_nwbfile out) "CalciumActivity" "CalciumSeriesSegmentation"
          !! 0%nat
    ∧ bq_shape1 (blobs_of (gce_quantification_csv inp)) = T.
Proof.
  intros H.
  apply process_NP_FOCO_Ray_inv in H
    as (fld & NP_ImVol & Calc_ImVol & Calc_ImSeries & NeuroPALNeurons & blobquant
        & volsegs & volsegs0 & rt_region & rs & tif & page & nm & de & de' & de''
        & _ & _ & _ & _ & Hbq & Hsegs & Hsegs' & Hv0 & Hrt & Hrs & Hrois & Hdata & _).
  apply build_blobquant_Some in Hbq as (-> & Hne & Hlen).
  set (gce := gce_quantification_csv inp) in *.
  pose proof (blobs_of_nonempty gce) as Hrows.
  assert (HT : (0 < bq_shape1 (blobs_of gce))%nat).
  { destruct (blobs_of gce) as [|b0 rest]; [done|].
    apply Forall_cons in Hrows as [Hb0 _]. unfold bq_shape1. simpl.
    destruct b0; [done | simpl; lia]. }
  assert (HB : (2 <= length (blobs_of gce))%nat).
  { destruct (blobs_of gce) as [|b0 [|b1 rest]] eqn:Hb; [done| |simpl; lia].
    exfalso. unfold segment_timepoints in Hsegs.
    apply for_each_lookup in Hsegs as [_ Hl].
    destruct (Hl 0%nat 0%nat) as (vs & _ & Hc); [apply lookup_seq_lt; lia|].
    cbv zeta in Hc. by rewrite create_vol_seg_centers_single_row in Hc. }
  pose proof (segment_timepoints_rois _ (length (blobs_of gce)) _ _ _ _ volsegs
                (bq_xyz_shape (blobs_of gce)) Hsegs) as [Hlenv Hvox].
  apply create_roi_table_region_Ok in Hrt as (Htable & Hregion & _).
  exists (bq_shape1 (blobs_of gce)), rs. rewrite Hsegs'.
  split; [done|]. split; [done|]. split; [done|]. split; [done|].
  split.
  { intros t vs Hvs. rewrite (Hvox t vs Hvs). apply list_fmap_ext.
    intros i b _. unfold roi_of_row.
    by rewrite !(squeeze_item _ (length (blobs_of gce)))
      by first [apply bq_xyz_shape | lia]. }
  split; [done|]. split; [done|].
  split; [by rewrite Hrois|]. split; [by rewrite Hrois, Htable|]. done.
Qed.

(** X9: blobs and timepoints of a successful run.  A run succeeds only on a
    quantification table with at least two distinct [blob_ix] (with one,
    [np.squeeze] turns the (1, 3) coordinates into a vector and indexing them
    raises), all with the same number T >= 1 of rows.  It then stores T
    segmentations; segmentation [t] has one ROI per blob, in order of first
    appearance, and the ROI of a blob is the single voxel of the truncated
    X, Y, Z of the [t]-th row of that blob in file order, weight 1. *)
Theorem process_NP_FOCO_Ray_segmentations g inp dp ds strain w out w' :
  process_NP_FOCO_Ray g inp dp ds strain w = (Ok out, w') →
  let blobs := blobs_of (gce_quantification_csv inp) in
  let segs := segmentations (w_nwbfile out) "CalciumActivity" "CalciumSeriesSegmentation" in
  (2 <= length blobs)%nat
  ∧ ∃ T, (0 < T)%nat ∧ Forall (λ b, length b = T) blobs ∧ length segs = T
         ∧ ∀ t vs, segs !! t = Some vs →
             length (voxel_mask vs) = length blobs
             ∧ ∀ b rows r, blobs !! b = Some rows → rows !! t = Some r →
                 voxel_mask vs !! b
                 = Some [(uint (g_X r), uint (g_Y r), uint (g_Z r), 1)].
Proof.
  intros H blobs segs.
  apply process_NP_FOCO_Ray_blobs in H
    as (T & rs & HB & HT & Hlen & Hsegs & Hvox & _).
  split; [exact HB|]. exists T. split; [exact HT|]. split; [exact Hlen|].
  split; [exact Hsegs|]. intros t vs Hvs. rewrite (Hvox t vs Hvs).
  split; [by rewrite length_fmap, length_seq|].
  intros b rows r Hrows Hr. rewrite list_lookup_fmap.
  rewrite lookup_seq_lt by (by apply lookup_lt_Some in Hrows). simpl.
  unfold roi_of_row, bq_xyz. cbn [item]. unfold bq_cell, blobquant_t.
  fold blobs. rewrite Hrows. simpl. by rewrite Hr.
Qed.

Lemma process_NP_FOCO_Ray_segmentations_witness :
  ∃ out vs,
    (process_NP_FOCO_Ray example_globals example_ray_inputs example_datapath
       example_dataset "FC121" example_ray_world).1 = Ok out
    ∧ segmentations (w_nwbfile out) "CalciumActivity" "CalciumSeriesSegmentation"
        !! 1%nat = Some vs
    ∧ voxel_mask vs !! 1%nat = Some [(4, 5, 2, 1)].
Proof.
  assert (H : raised (process_NP_FOCO_Ray example_globals example_ray_inputs
                        example_datapath example_dataset "FC121" example_ray_world)
              = None) by (vm_compute; reflexivity).
  destruct (process_NP_FOCO_Ray example_globals example_ray_inputs example_datapath
              example_dataset "FC121" example_ray_world) as [[out|e] w'] eqn:Hrun;
    [|discriminate H].
  destruct (process_NP_FOCO_Ray_segmentations _ _ _ _ _ _ _ _ Hrun)
    as (_ & T & _ & Hlen & Hsegs & Hvox).
  assert (HT : T = 3%nat).
  { apply Forall_inv in Hlen. exact (eq_sym Hlen). }
  destruct (lookup_lt_is_Some_2
              (segmentations (w_nwbfile out) "CalciumActivity" "CalciumSeriesSegmentation")
              1%nat) as [vs Hvs]; [lia|].
  exists out, vs. split; [reflexivity|]. split; [exact Hvs|].
  destruct (Hvox 1%nat vs Hvs) as [_ Hrow].
  exact (Hrow 1%nat _ (example_gce_row 4 40 1 6) eq_refl eq_refl).
Defined.

(** X10: the response matrix of a successful run.  It has one row per
    timepoint and one column per blob; its entry [(t, b)] is the [gce_quant]
    of the [t]-th row of blob [b] in file order, whatever that row's [T]
    entry says.  Its region is [0 .. B-1] over the segmentation of
    timepoint 0, whose ROI [b] is the position of blob [b] in its first row. *)
Theorem process_NP_FOCO_Ray_responses g inp dp ds strain w out w' :
  process_NP_FOCO_Ray g inp dp ds strain w = (Ok out, w') →
  let blobs := blobs_of (gce_quantification_csv inp) in
  ∃ rs T,
    response_series (w_nwbfile out) "CalciumActivity" "SignalDFoF" = Some rs
    ∧ Forall (λ b, length b = T) blobs
    ∧ shape (rrs_data rs) = [T; length blobs]
    ∧ length (voxel_mask (table (rois rs))) = length blobs
    ∧ ∀ b rows,
        blobs !! b = Some rows →
        region (rois rs) !! b = Some (Z.of_nat b)
        ∧ (∀ r, rows !! 0%nat = Some r →
                voxel_mask (table (rois rs)) !! b
                = Some [(uint (g_X r), uint (g_Y r), uint (g_Z r), 1)])
        ∧ ∀ t r, rows !! t = Some r →
                 item (rrs_data rs) [t; b] = g_gce_quant r.
Proof.
  intros H blobs.
  apply process_NP_FOCO_Ray_blobs in H
    as (T & rs & HB & HT & Hlen & Hsegs & Hvox & Hrs & Hdata & Hregion & Htable & HT').
  fold blobs in HB, Hlen, Hvox, Hdata, Hregion, HT'.
  exists rs, T. split; [exact Hrs|]. split; [exact Hlen|].
  symmetry in Htable. pose proof (Hvox _ _ Htable) as Hmask.
  rewrite Hdata, Hmask. unfold transpose, bq_quant. cbn [shape item reverse rev_append].
  rewrite HT'. split; [reflexivity|].
  split; [by rewrite length_fmap, length_seq|].
  intros b rows Hrows.
  assert (Hb : (b < length blobs)%nat) by (by apply lookup_lt_Some in Hrows).
  split.
  { rewrite Hregion. unfold arange. rewrite list_lookup_fmap.
    by rewrite lookup_seq_lt. }
  split.
  { intros r Hr. rewrite list_lookup_fmap, lookup_seq_lt by done. simpl.
    unfold roi_of_row, bq_xyz. cbn [item]. unfold bq_cell, blobquant_t.
    rewrite Hrows. simpl. by rewrite Hr. }
  intros t r Hr. unfold bq_cell, blobquant_t. rewrite Hrows. simpl. by rewrite Hr.
Qed.

Lemma process_NP_FOCO_Ray_responses_witness :
  ∃ out rs,
    (process_NP_FOCO_Ray example_globals example_ray_inputs example_datapath
       example_dataset "FC121" example_ray_world).1 = Ok out
    ∧ response_series (w_nwbfile out) "CalciumActivity" "SignalDFoF" = Some rs
    ∧ shape (rrs_data rs) = [3%nat; 2%nat]
    ∧ item (rrs_data rs) [2%nat; 1%nat] = 60%Q.
Proof.
  assert (H : raised (process_NP_FOCO_Ray example_globals example_ray_inputs
                        example_datapath example_dataset "FC121" example_ray_world)
              = None) by (vm_compute; reflexivity).
  destruct (process_NP_FOCO_Ray example_globals example_ray_inputs example_datapath
              example_dataset "FC121" example_ray_world) as [[out|e] w'] eqn:Hrun;
    [|discriminate H].
  destruct (process_NP_FOCO_Ray_responses _ _ _ _ _ _ _ _ Hrun)
    as (rs & T & Hrs & Hlen & Hshape & _ & Hrows).
  assert (HT : T = 3%nat).
  { apply Forall_inv in Hlen. exact (eq_sym Hlen). }
  exists out, rs. split; [reflexivity|]. split; [exact Hrs|].
  split; [by rewrite Hshape, HT|].
  destruct (Hrows 1%nat _ eq_refl) as (_ & _ & Hitem).
  exact (Hitem 2%nat (example_gce_row 6 60 2 6) eq_refl).
Defined.
